(** * cal-backends: bookings, event types and weekly availability

    A shallow embedding of the scheduling backend's models and services
    (the [*.model.js] and [*.service.js] files) over an explicit model of
    the four PostgreSQL tables that [setupDatabase.js] creates, together
    with [createDefaultAvailability] and [retryOnDeadlock] of
    [setupDatabase.js] and the status codes of [handleError].

    - JavaScript values keep the shape the code relies on: an absent
      property ([undefined]) is [None], numbers are [Z], strings are
      [string], and truthiness tests ([x || y], [if (x)], [!x]) are
      written out.
    - Every [async] method that writes is a computation in the monad [M]:
      it threads the database and either returns or throws.
    - [created_at] / [updated_at] are not modelled: no operation below
      reads them. *)

From Stdlib Require Import ZArith List Bool String Ascii Lia Sorted Permutation.
Import ListNotations.
Local Open Scope Z_scope.

(* ================================================================== *)
(** ** JavaScript fragments *)

Module Js.

(** [if (n)] on a number: [0] is falsy. *)
Definition truthy_num (n : Z) : bool := negb (Z.eqb n 0).

(** [if (s)] on a string: the empty string is falsy. *)
Definition truthy_str (s : string) : bool := negb (String.eqb s EmptyString).

(** [if (x)] where [x] is a possibly absent number. *)
Definition truthy_opt_num (x : option Z) : bool :=
  match x with Some n => truthy_num n | None => false end.

(** [if (x)] where [x] is a possibly absent string. *)
Definition truthy_opt_str (x : option string) : bool :=
  match x with Some s => truthy_str s | None => false end.

(** [x || d] where [x] is a possibly absent number and [d] a number. *)
Definition or_num (x : option Z) (d : Z) : Z :=
  match x with
  | Some n => if truthy_num n then n else d
  | None => d
  end.

(** [x || d] where [x] is a possibly absent string and [d] a string. *)
Definition or_str (x : option string) (d : string) : string :=
  match x with
  | Some s => if truthy_str s then s else d
  | None => d
  end.

(** [x || null] on a possibly absent number. *)
Definition or_null_num (x : option Z) : option Z :=
  match x with
  | Some n => if truthy_num n then Some n else None
  | None => None
  end.

(** [x || null] on a possibly absent string. *)
Definition or_null_str (x : option string) : option string :=
  match x with
  | Some s => if truthy_str s then Some s else None
  | None => None
  end.

(** [a < b] and [a >= b] on two strings: code units are compared from
    the left, so ["10:00:00" < "9:00:00"]. *)
Definition str_lt (a b : string) : bool := String.ltb a b.
Definition str_ge (a b : string) : bool := negb (str_lt a b).

End Js.

(* ================================================================== *)
(** ** Rows of the four tables ([createTables] in setupDatabase.js) *)

(** [booking_status]: the values [bookingSchema] admits. *)
Inductive Status : Type := confirmed | pending | cancelled | completed.

Definition Status_eqb (a b : Status) : bool :=
  match a, b with
  | confirmed, confirmed | pending, pending
  | cancelled, cancelled | completed, completed => true
  | _, _ => false
  end.

(** The text the [booking_status] column holds for each value. *)
Definition Status_text (s : Status) : string :=
  match s with
  | confirmed => "confirmed"
  | pending => "pending"
  | cancelled => "cancelled"
  | completed => "completed"
  end.

Module Availability.
Record row : Type := mk
  { id : Z;
    name : string;
    timezone : string }.
End Availability.

(** A [TIME] value is kept as the number of seconds since midnight. *)
Module Interval.
Record row : Type := mk
  { id : Z;
    availability_id : Z;
    day_of_week : Z;
    start_time : Z;
    end_time : Z }.
End Interval.

Module EventType.
Record row : Type := mk
  { id : Z;
    name : string;
    description : option string;
    duration : Z;
    url_slug : option string;
    user_id : option Z;
    availability_id : option Z }.
End EventType.

(** A [TIMESTAMP] value is kept as an instant (an integer count of
    milliseconds), the order both PostgreSQL and [new Date(..)] compare. *)
Module Booking.
Record row : Type := mk
  { id : Z;
    event_type_id : Z;
    client_email : string;
    name : string;
    additional_notes : option string;
    start_time : Z;
    end_time : Z;
    date : string;
    meeting_link : option string;
    booking_status : Status }.
End Booking.

(* ================================================================== *)
(** ** The database: tables, sequences, statements *)

Module Pg.

Record Tables : Type := mkTables
  { availability : list Availability.row;
    availability_interval : list Interval.row;
    event_types : list EventType.row;
    bookings : list Booking.row }.

(** The [SERIAL] columns draw their ids from sequences; a sequence is
    not rewound by [ROLLBACK]. *)
Record Sequences : Type := mkSequences
  { availability_id_seq : Z;
    availability_interval_id_seq : Z;
    event_types_id_seq : Z;
    bookings_id_seq : Z }.

Record DB : Type := mkDB
  { tables : Tables;
    sequences : Sequences }.

Definition empty : DB :=
  mkDB (mkTables [] [] [] []) (mkSequences 1 1 1 1).

(** SQLSTATE classes the statements below can raise. *)
Inductive sqlstate : Type :=
| unique_violation              (* 23505 *)
| foreign_key_violation         (* 23503 *)
| check_violation               (* 23514 *)
| invalid_datetime_format       (* 22007; 22008 is not told apart from it *)
| string_data_right_truncation  (* 22001 *)
| numeric_value_out_of_range.   (* 22003 *)

(** What a method can throw: a [CustomError] with its status code, an
    error raised by the database, or a plain [new Error(message)]. *)
Inductive exn : Type :=
| CustomError (statusCode : Z)
| DatabaseError (code : sqlstate)
| JsError (message : string).

Inductive result (A : Type) : Type :=
| Ok (a : A)
| Throw (e : exn).
Arguments Ok {A} a.
Arguments Throw {A} e.

(** A computation reads and writes the database and returns or throws.
    The database is returned in both cases: a statement that ran before
    the throw keeps its effect unless a [ROLLBACK] undoes it. *)
Definition M (A : Type) : Type := DB -> result A * DB.

Definition ret {A} (a : A) : M A := fun db => (Ok a, db).
Definition throw {A} (e : exn) : M A := fun db => (Throw e, db).
Definition bind {A B} (m : M A) (k : A -> M B) : M B :=
  fun db =>
    match m db with
    | (Ok a, db') => k a db'
    | (Throw e, db') => (Throw e, db')
    end.
(** A read-only query. *)
Definition query {A} (q : DB -> A) : M A := fun db => (Ok (q db), db).
(** [try { m } catch (e) { h e }]. *)
Definition try_catch {A} (m : M A) (h : exn -> M A) : M A :=
  fun db =>
    match m db with
    | (Ok a, db') => (Ok a, db')
    | (Throw e, db') => h e db'
    end.

(** [ROLLBACK] restores the tables as they were at [BEGIN]. *)
Definition rollback (at_begin now : DB) : DB :=
  mkDB (tables at_begin) (sequences now).

(** [BEGIN; try { m; COMMIT } catch (e) { ROLLBACK; throw e }]. *)
Definition transaction {A} (m : M A) : M A :=
  fun db =>
    match m db with
    | (Ok a, db') => (Ok a, db')
    | (Throw e, db') => (Throw e, rollback db db')
    end.

(** The services' [catch]: a [CustomError] is rethrown as it is, any
    other error is wrapped into [new CustomError(.., 500)]. *)
Definition wrap500 {A} (m : M A) : M A :=
  try_catch m (fun e =>
    match e with
    | CustomError c => throw (CustomError c)
    | _ => throw (CustomError 500)
    end).

(** The getters' [catch]: every error becomes [new CustomError(.., 500)]. *)
Definition all500 {A} (m : M A) : M A :=
  try_catch m (fun _ => throw (CustomError 500)).

End Pg.

Declare Scope pg_scope.
Delimit Scope pg_scope with pg.
Notation "x <- m ;; k" := (Pg.bind m (fun x => k))
  (at level 61, m at next level, right associativity) : pg_scope.
Notation "m ;;; k" := (Pg.bind m (fun _ => k))
  (at level 61, right associativity) : pg_scope.

(* ================================================================== *)
(** ** SQL statements

    Each statement the models send, as a computation on the tables, with
    the column types ([VARCHAR(n)], [INTEGER], [DATE], [TIME]) and the
    constraints ([UNIQUE], [CHECK], [REFERENCES]) that [createTables]
    declares checked where PostgreSQL checks them.  A [string] stands for
    a text PostgreSQL can hold.  A table is the list of its rows in
    insertion order, and a [SELECT] without [ORDER BY] returns them in
    that order. *)

Module Sql.
Import Pg.

Definition set_tables (t : Tables) (db : DB) : DB := mkDB t (sequences db).

Definition set_availability (l : list Availability.row) (db : DB) : DB :=
  let t := tables db in
  set_tables (mkTables l (availability_interval t) (event_types t) (bookings t)) db.

Definition set_availability_interval (l : list Interval.row) (db : DB) : DB :=
  let t := tables db in
  set_tables (mkTables (availability t) l (event_types t) (bookings t)) db.

Definition set_event_types (l : list EventType.row) (db : DB) : DB :=
  let t := tables db in
  set_tables (mkTables (availability t) (availability_interval t) l (bookings t)) db.

Definition set_bookings (l : list Booking.row) (db : DB) : DB :=
  let t := tables db in
  set_tables (mkTables (availability t) (availability_interval t) (event_types t) l) db.

(** [nextval] on each sequence: the value drawn and the database after. *)
Definition nextval_availability (db : DB) : Z * DB :=
  let s := sequences db in
  (availability_id_seq s,
   mkDB (tables db)
        (mkSequences (availability_id_seq s + 1) (availability_interval_id_seq s)
                     (event_types_id_seq s) (bookings_id_seq s))).

Definition nextval_availability_interval (db : DB) : Z * DB :=
  let s := sequences db in
  (availability_interval_id_seq s,
   mkDB (tables db)
        (mkSequences (availability_id_seq s) (availability_interval_id_seq s + 1)
                     (event_types_id_seq s) (bookings_id_seq s))).

Definition nextval_event_types (db : DB) : Z * DB :=
  let s := sequences db in
  (event_types_id_seq s,
   mkDB (tables db)
        (mkSequences (availability_id_seq s) (availability_interval_id_seq s)
                     (event_types_id_seq s + 1) (bookings_id_seq s))).

Definition nextval_bookings (db : DB) : Z * DB :=
  let s := sequences db in
  (bookings_id_seq s,
   mkDB (tables db)
        (mkSequences (availability_id_seq s) (availability_interval_id_seq s)
                     (event_types_id_seq s) (bookings_id_seq s + 1))).

(** *** [$n::TIME]

    The cast of a text parameter to [TIME], on the spellings that
    [intervalSchema] lets through ([H:MM:SS] and [HH:MM:SS], hours up to
    23); any other text is reported as a failed cast. *)

Definition digit (c : ascii) : option Z :=
  let n := Z.of_N (N_of_ascii c) in
  if (48 <=? n) && (n <=? 57) then Some (n - 48) else None.

Definition two_digits (c1 c2 : ascii) : option Z :=
  match digit c1, digit c2 with
  | Some a, Some b => Some (10 * a + b)
  | _, _ => None
  end.

Definition clock (h m s : option Z) : option Z :=
  match h, m, s with
  | Some h, Some m, Some s =>
      if (h <=? 23) && (m <=? 59) && (s <=? 59)
      then Some (h * 3600 + m * 60 + s) else None
  | _, _, _ => None
  end.

Definition colon (c : ascii) : bool := Ascii.eqb c ":"%char.

Definition cast_time (text : string) : option Z :=
  match list_ascii_of_string text with
  | [h1; c1; m1; m2; c2; s1; s2] =>
      if colon c1 && colon c2
      then clock (digit h1) (two_digits m1 m2) (two_digits s1 s2)
      else None
  | [h1; h2; c1; m1; m2; c2; s1; s2] =>
      if colon c1 && colon c2
      then clock (two_digits h1 h2) (two_digits m1 m2) (two_digits s1 s2)
      else None
  | _ => None
  end.

(** *** [DATE]

    A text sent for the [DATE] column, or compared with it, is cast to
    [DATE]: on the spelling [YYYY-MM-DD] that [bookingSchema] admits, the
    cast succeeds when the text names a day of the calendar; any other
    text is reported as a failed cast. *)
Definition dash (c : ascii) : bool := Ascii.eqb c "-"%char.

Definition four_digits (c1 c2 c3 c4 : ascii) : option Z :=
  match two_digits c1 c2, two_digits c3 c4 with
  | Some a, Some b => Some (100 * a + b)
  | _, _ => None
  end.

Definition leap_year (y : Z) : bool :=
  Z.eqb (y mod 4) 0 && (negb (Z.eqb (y mod 100) 0) || Z.eqb (y mod 400) 0).

Definition days_in_month (y m : Z) : Z :=
  if Z.eqb m 2 then (if leap_year y then 29 else 28)
  else if Z.eqb m 4 || Z.eqb m 6 || Z.eqb m 9 || Z.eqb m 11 then 30
  else 31.

Definition calendar_day (y m d : option Z) : bool :=
  match y, m, d with
  | Some y, Some m, Some d =>
      (1 <=? y) && (1 <=? m) && (m <=? 12) && (1 <=? d) && (d <=? days_in_month y m)
  | _, _, _ => false
  end.

Definition cast_date (text : string) : option string :=
  match list_ascii_of_string text with
  | [y1; y2; y3; y4; c1; m1; m2; c2; d1; d2] =>
      if dash c1 && dash c2
         && calendar_day (four_digits y1 y2 y3 y4) (two_digits m1 m2) (two_digits d1 d2)
      then Some text else None
  | _ => None
  end.

(** Does the text cast to [DATE]? *)
Definition is_date (text : string) : bool :=
  match cast_date text with
  | Some _ => true
  | None => false
  end.

(** *** [VARCHAR(n)] and [INTEGER]

    A text sent for a [VARCHAR(n)] column is refused when it has more
    than [n] characters (22001; PostgreSQL cuts excess blanks off instead
    of refusing them, such a text counts as refused here), a number sent
    for an [INTEGER] column when it lies outside the 32-bit range
    (22003). *)
Definition varchar (n : nat) (text : string) : bool :=
  Nat.leb (String.length text) n.

Definition varchar_or_null (n : nat) (text : option string) : bool :=
  match text with
  | Some s => varchar n s
  | None => true
  end.

Definition integer (n : Z) : bool :=
  (-2147483648 <=? n) && (n <=? 2147483647).

Definition integer_or_null (n : option Z) : bool :=
  match n with
  | Some x => integer x
  | None => true
  end.

(** *** availability *)

(** [INSERT INTO availability (name, timezone) VALUES ($1, $2) RETURNING *]:
    [name] is [VARCHAR(255)], [timezone] is [VARCHAR(50)]. *)
Definition insert_availability (name timezone : string) : M Availability.row :=
  fun db =>
    let (i, db1) := nextval_availability db in
    let r := Availability.mk i name timezone in
    if negb (varchar 255 name && varchar 50 timezone) then
      (Throw (DatabaseError string_data_right_truncation), db1)
    else
      (Ok r, set_availability (availability (tables db1) ++ [r]) db1).

(** [UPDATE availability SET name = .., timezone = .. WHERE id = $n];
    only the columns present are assigned. *)
Definition set_availability_columns (name timezone : option string)
    (r : Availability.row) : Availability.row :=
  Availability.mk (Availability.id r)
    (match name with Some n => n | None => Availability.name r end)
    (match timezone with Some z => z | None => Availability.timezone r end).

Definition update_availability (id : Z) (name timezone : option string) : M unit :=
  fun db =>
    if negb (varchar_or_null 255 name && varchar_or_null 50 timezone) then
      (Throw (DatabaseError string_data_right_truncation), db)
    else
      (Ok tt,
       set_availability
         (map (fun r => if Z.eqb (Availability.id r) id
                        then set_availability_columns name timezone r else r)
              (availability (tables db))) db).

(** *** availability_interval *)

(** The [UNIQUE(availability_id, day_of_week, start_time, end_time)] key. *)
Definition same_window (a b : Interval.row) : bool :=
  Z.eqb (Interval.availability_id a) (Interval.availability_id b)
  && Z.eqb (Interval.day_of_week a) (Interval.day_of_week b)
  && Z.eqb (Interval.start_time a) (Interval.start_time b)
  && Z.eqb (Interval.end_time a) (Interval.end_time b).

(** [CHECK (day_of_week >= 1 AND day_of_week <= 7)] *)
Definition day_check (r : Interval.row) : bool :=
  (1 <=? Interval.day_of_week r) && (Interval.day_of_week r <=? 7).

Definition availability_exists (id : Z) (db : DB) : bool :=
  existsb (fun a => Z.eqb (Availability.id a) id) (availability (tables db)).

(** [INSERT INTO availability_interval (availability_id, day_of_week,
     start_time, end_time) VALUES ($1, $2, $3::TIME, $4::TIME) RETURNING *] *)
Definition insert_interval (availability_id day_of_week : Z)
    (start_time end_time : string) : M Interval.row :=
  fun db =>
    match cast_time start_time, cast_time end_time with
    | Some st, Some en =>
        let (i, db1) := nextval_availability_interval db in
        let r := Interval.mk i availability_id day_of_week st en in
        if negb (day_check r) then
          (Throw (DatabaseError check_violation), db1)
        else if existsb (same_window r) (availability_interval (tables db1)) then
          (Throw (DatabaseError unique_violation), db1)
        else if negb (availability_exists availability_id db1) then
          (Throw (DatabaseError foreign_key_violation), db1)
        else
          (Ok r, set_availability_interval
                   (availability_interval (tables db1) ++ [r]) db1)
    | _, _ => (Throw (DatabaseError invalid_datetime_format), db)
    end.

(** [DELETE FROM availability_interval WHERE availability_id = $1] *)
Definition delete_intervals_of (availability_id : Z) : M unit :=
  fun db =>
    (Ok tt,
     set_availability_interval
       (filter (fun r => negb (Z.eqb (Interval.availability_id r) availability_id))
               (availability_interval (tables db))) db).

(** An optional [$n::TIME] parameter: absent, cast, or a failed cast. *)
Definition cast_opt_time (x : option string) : option (option Z) :=
  match x with
  | None => Some None
  | Some text =>
      match cast_time text with
      | Some t => Some (Some t)
      | None => None
      end
  end.

Definition set_interval_columns (day_of_week start_time end_time : option Z)
    (r : Interval.row) : Interval.row :=
  Interval.mk (Interval.id r) (Interval.availability_id r)
    (match day_of_week with Some d => d | None => Interval.day_of_week r end)
    (match start_time with Some t => t | None => Interval.start_time r end)
    (match end_time with Some t => t | None => Interval.end_time r end).

(** [UPDATE availability_interval SET day_of_week = .., start_time =
     ..::TIME, end_time = ..::TIME WHERE id = $n RETURNING *] *)
Definition update_interval (id : Z) (day_of_week : option Z)
    (start_time end_time : option string) : M (option Interval.row) :=
  fun db =>
    match cast_opt_time start_time, cast_opt_time end_time with
    | Some st, Some en =>
        let rows := availability_interval (tables db) in
        match find (fun r => Z.eqb (Interval.id r) id) rows with
        | None => (Ok None, db)
        | Some old =>
            let r := set_interval_columns day_of_week st en old in
            if negb (day_check r) then
              (Throw (DatabaseError check_violation), db)
            else if existsb (fun o => negb (Z.eqb (Interval.id o) id) && same_window r o) rows then
              (Throw (DatabaseError unique_violation), db)
            else
              (Ok (Some r),
               set_availability_interval
                 (map (fun o => if Z.eqb (Interval.id o) id then r else o) rows) db)
        end
    | _, _ => (Throw (DatabaseError invalid_datetime_format), db)
    end.

(** [DELETE FROM availability_interval WHERE id = $1 RETURNING *] *)
Definition delete_interval (id : Z) : M (option Interval.row) :=
  fun db =>
    let rows := availability_interval (tables db) in
    (Ok (find (fun r => Z.eqb (Interval.id r) id) rows),
     set_availability_interval
       (filter (fun r => negb (Z.eqb (Interval.id r) id)) rows) db).

(** [ORDER BY day_of_week, start_time] *)
Definition day_start_le (a b : Interval.row) : bool :=
  (Interval.day_of_week a <? Interval.day_of_week b)
  || (Z.eqb (Interval.day_of_week a) (Interval.day_of_week b)
      && (Interval.start_time a <=? Interval.start_time b)).

Fixpoint insert_ordered (r : Interval.row) (l : list Interval.row) : list Interval.row :=
  match l with
  | [] => [r]
  | x :: l' => if day_start_le r x then r :: l else x :: insert_ordered r l'
  end.

Definition order_by_day_start (l : list Interval.row) : list Interval.row :=
  fold_right insert_ordered [] l.

(** *** event_types *)

Definition has_slug (slug : string) (r : EventType.row) : bool :=
  match EventType.url_slug r with
  | Some s => String.eqb s slug
  | None => false
  end.

(** [INSERT INTO event_types (name, description, duration, url_slug,
     user_id, availability_id) VALUES (..) RETURNING *]: [duration] and
    [user_id] are [INTEGER], [name] and [url_slug] are [VARCHAR(255)],
    [name] is [UNIQUE], [url_slug] is [UNIQUE] (nulls never collide),
    [availability_id] references [availability(id)] (an id outside
    [INTEGER] names no row and is refused all the same). *)
Definition insert_event_type (name : string) (description : option string)
    (duration : Z) (url_slug : option string) (user_id availability_id : option Z)
    : M EventType.row :=
  fun db =>
    if negb (integer duration && integer_or_null user_id) then
      (Throw (DatabaseError numeric_value_out_of_range), db)
    else
      let (i, db1) := nextval_event_types db in
      let rows := event_types (tables db1) in
      let r := EventType.mk i name description duration url_slug user_id availability_id in
      if negb (varchar 255 name && varchar_or_null 255 url_slug) then
        (Throw (DatabaseError string_data_right_truncation), db1)
      else if existsb (fun o => String.eqb (EventType.name o) name) rows then
        (Throw (DatabaseError unique_violation), db1)
      else if match url_slug with
              | Some s => existsb (has_slug s) rows
              | None => false
              end then
        (Throw (DatabaseError unique_violation), db1)
      else if match availability_id with
              | Some a => negb (availability_exists a db1)
              | None => false
              end then
        (Throw (DatabaseError foreign_key_violation), db1)
      else
        (Ok r, set_event_types (rows ++ [r]) db1).

(** *** bookings *)

(** The [UNIQUE(event_type_id, date, start_time)] key. *)
Definition same_slot (a b : Booking.row) : bool :=
  Z.eqb (Booking.event_type_id a) (Booking.event_type_id b)
  && String.eqb (Booking.date a) (Booking.date b)
  && Z.eqb (Booking.start_time a) (Booking.start_time b).

Definition event_type_exists (id : Z) (db : DB) : bool :=
  existsb (fun e => Z.eqb (EventType.id e) id) (event_types (tables db)).

(** [INSERT INTO bookings (event_type_id, client_email, name,
     additional_notes, start_time, end_time, date, meeting_link,
     booking_status) VALUES (..) RETURNING *]: [date] is cast to [DATE],
    [client_email] and [name] are [VARCHAR(255)], [meeting_link] is
    [VARCHAR(500)]; then [UNIQUE(event_type_id, date, start_time)] and
    the reference to [event_types(id)] are checked. *)
Definition insert_booking (event_type_id : Z) (client_email name : string)
    (additional_notes : option string) (start_time end_time : Z) (date : string)
    (meeting_link : option string) (booking_status : Status) : M Booking.row :=
  fun db =>
    if negb (is_date date) then
      (Throw (DatabaseError invalid_datetime_format), db)
    else
      let (i, db1) := nextval_bookings db in
      let rows := bookings (tables db1) in
      let r := Booking.mk i event_type_id client_email name additional_notes
                 start_time end_time date meeting_link booking_status in
      if negb (varchar 255 client_email && varchar 255 name
               && varchar_or_null 500 meeting_link) then
        (Throw (DatabaseError string_data_right_truncation), db1)
      else if existsb (same_slot r) rows then
        (Throw (DatabaseError unique_violation), db1)
      else if negb (event_type_exists event_type_id db1) then
        (Throw (DatabaseError foreign_key_violation), db1)
      else
        (Ok r, set_bookings (rows ++ [r]) db1).

(** [UPDATE bookings SET .. WHERE id = $n RETURNING *]; [assign] is the
    [SET] list.  The new row is held against the types of its columns
    (the row it replaces fits them, so only an assigned column can
    fail) and against [UNIQUE(event_type_id, date, start_time)]. *)
Definition update_booking (id : Z) (assign : Booking.row -> Booking.row)
    : M (option Booking.row) :=
  fun db =>
    let rows := bookings (tables db) in
    match find (fun r => Z.eqb (Booking.id r) id) rows with
    | None => (Ok None, db)
    | Some old =>
        let r := assign old in
        if negb (is_date (Booking.date r)) then
          (Throw (DatabaseError invalid_datetime_format), db)
        else if negb (varchar 255 (Booking.client_email r) && varchar 255 (Booking.name r)
                      && varchar_or_null 500 (Booking.meeting_link r)) then
          (Throw (DatabaseError string_data_right_truncation), db)
        else if existsb (fun o => negb (Z.eqb (Booking.id o) id) && same_slot r o) rows then
          (Throw (DatabaseError unique_violation), db)
        else
          (Ok (Some r),
           set_bookings (map (fun o => if Z.eqb (Booking.id o) id then r else o) rows) db)
    end.

(** [DELETE FROM bookings WHERE id = $1 RETURNING *] *)
Definition delete_booking (id : Z) : M (option Booking.row) :=
  fun db =>
    let rows := bookings (tables db) in
    (Ok (find (fun r => Z.eqb (Booking.id r) id) rows),
     set_bookings (filter (fun r => negb (Z.eqb (Booking.id r) id)) rows) db).

(** Two values of a nullable integer column are the same. *)
Definition same_nullable (a b : option Z) : bool :=
  match a, b with
  | Some x, Some y => Z.eqb x y
  | None, None => true
  | _, _ => false
  end.

(** [UPDATE event_types SET .. WHERE id = $n RETURNING *]; [assign] is the
    [SET] list.  The new row is held against the types of its columns
    (the row it replaces fits them, so only an assigned column can
    fail), against [UNIQUE(name)] and [UNIQUE(url_slug)], and against the
    reference to [availability(id)] when [availability_id] has changed. *)
Definition update_event_type (id : Z) (assign : EventType.row -> EventType.row)
    : M (option EventType.row) :=
  fun db =>
    let rows := event_types (tables db) in
    match find (fun r => Z.eqb (EventType.id r) id) rows with
    | None => (Ok None, db)
    | Some old =>
        let r := assign old in
        if negb (integer (EventType.duration r) && integer_or_null (EventType.user_id r)) then
          (Throw (DatabaseError numeric_value_out_of_range), db)
        else if negb (varchar 255 (EventType.name r)
                      && varchar_or_null 255 (EventType.url_slug r)) then
          (Throw (DatabaseError string_data_right_truncation), db)
        else if existsb (fun o => negb (Z.eqb (EventType.id o) id)
                             && String.eqb (EventType.name o) (EventType.name r)) rows then
          (Throw (DatabaseError unique_violation), db)
        else if match EventType.url_slug r with
                | Some s => existsb (fun o => negb (Z.eqb (EventType.id o) id) && has_slug s o) rows
                | None => false
                end then
          (Throw (DatabaseError unique_violation), db)
        else if negb (same_nullable (EventType.availability_id r)
                        (EventType.availability_id old))
                && match EventType.availability_id r with
                   | Some a => negb (availability_exists a db)
                   | None => false
                   end then
          (Throw (DatabaseError foreign_key_violation), db)
        else
          (Ok (Some r),
           set_event_types (map (fun o => if Z.eqb (EventType.id o) id then r else o) rows) db)
    end.

(** [DELETE FROM event_types WHERE id = $1 RETURNING *];
    [bookings.event_type_id] is declared [ON DELETE CASCADE]. *)
Definition delete_event_type (id : Z) : M (option EventType.row) :=
  fun db =>
    let t := tables db in
    match find (fun r => Z.eqb (EventType.id r) id) (event_types t) with
    | None => (Ok None, db)
    | Some e =>
        (Ok (Some e),
         set_tables
           (mkTables (availability t) (availability_interval t)
              (filter (fun r => negb (Z.eqb (EventType.id r) id)) (event_types t))
              (filter (fun b => negb (Z.eqb (Booking.event_type_id b) id)) (bookings t)))
           db)
    end.

(** [ON DELETE SET NULL] on [event_types.availability_id]. *)
Definition set_null_availability (id : Z) (e : EventType.row) : EventType.row :=
  match EventType.availability_id e with
  | Some a =>
      if Z.eqb a id
      then EventType.mk (EventType.id e) (EventType.name e) (EventType.description e)
             (EventType.duration e) (EventType.url_slug e) (EventType.user_id e) None
      else e
  | None => e
  end.

(** [DELETE FROM availability WHERE id = $1 RETURNING *];
    [availability_interval.availability_id] is declared [ON DELETE
    CASCADE], [event_types.availability_id] [ON DELETE SET NULL]. *)
Definition delete_availability (id : Z) : M (option Availability.row) :=
  fun db =>
    let t := tables db in
    match find (fun a => Z.eqb (Availability.id a) id) (availability t) with
    | None => (Ok None, db)
    | Some a =>
        (Ok (Some a),
         set_tables
           (mkTables
              (filter (fun r => negb (Z.eqb (Availability.id r) id)) (availability t))
              (filter (fun r => negb (Z.eqb (Interval.availability_id r) id))
                      (availability_interval t))
              (map (set_null_availability id) (event_types t))
              (bookings t))
           db)
    end.

(** *** [SELECT .. FROM bookings .. ORDER BY date DESC, start_time DESC] *)

(** [ORDER BY date DESC, start_time DESC]: does [a] come no later than
    [b]?  Dates are kept in the form [YYYY-MM-DD], whose text order is
    the order of the days. *)
Definition date_start_ge (a b : Booking.row) : bool :=
  match String.compare (Booking.date a) (Booking.date b) with
  | Gt => true
  | Eq => Booking.start_time b <=? Booking.start_time a
  | Lt => false
  end.

Fixpoint insert_by {A : Type} (le : A -> A -> bool) (r : A) (l : list A) : list A :=
  match l with
  | [] => [r]
  | x :: l' => if le r x then r :: l else x :: insert_by le r l'
  end.

Definition order_by {A : Type} (le : A -> A -> bool) (l : list A) : list A :=
  fold_right (insert_by le) [] l.

(** The [AND column = $n] clauses a query carries: [None] when the
    clause was not appended. *)
Definition where_bookings (event_type_id : option Z)
    (date booking_status client_email : option string) (r : Booking.row) : bool :=
  match event_type_id with Some x => Z.eqb (Booking.event_type_id r) x | None => true end
  && match date with Some d => String.eqb (Booking.date r) d | None => true end
  && match booking_status with
     | Some s => String.eqb (Status_text (Booking.booking_status r)) s
     | None => true
     end
  && match client_email with Some m => String.eqb (Booking.client_email r) m | None => true end.

Definition select_bookings (event_type_id : option Z)
    (date booking_status client_email : option string) : M (list Booking.row) :=
  fun db =>
    match date with
    | Some d =>
        match cast_date d with
        | Some d' =>
            (Ok (order_by date_start_ge
                   (filter (where_bookings event_type_id (Some d') booking_status client_email)
                           (bookings (tables db)))), db)
        | None => (Throw (DatabaseError invalid_datetime_format), db)
        end
    | None =>
        (Ok (order_by date_start_ge
               (filter (where_bookings event_type_id None booking_status client_email)
                       (bookings (tables db)))), db)
    end.

(** The [count] of [SELECT COUNT .. FROM availability]: the number of rows. *)
Definition count_availability (db : DB) : Z :=
  Z.of_nat (List.length (availability (tables db))).

End Sql.

(* ================================================================== *)
(** ** Request payloads *)

(** One element of [intervals]: the times are the submitted strings. *)
Module IntervalData.
Record t : Type := mk
  { day_of_week : Z;
    start_time : string;
    end_time : string }.
End IntervalData.

(** The body of an interval update: every property may be absent. *)
Module IntervalUpdate.
Record t : Type := mk
  { day_of_week : option Z;
    start_time : option string;
    end_time : option string }.
End IntervalUpdate.

Module AvailabilityData.
Record t : Type := mk
  { name : string;
    timezone : option string;
    intervals : option (list IntervalData.t) }.
End AvailabilityData.

Module AvailabilityUpdate.
Record t : Type := mk
  { name : option string;
    timezone : option string;
    intervals : option (list IntervalData.t) }.
End AvailabilityUpdate.

Module EventTypeData.
Record t : Type := mk
  { name : string;
    description : option string;
    duration : Z;
    url_slug : option string;
    user_id : option Z;
    availability_id : option Z }.
End EventTypeData.

Module BookingData.
Record t : Type := mk
  { event_type_id : Z;
    client_email : string;
    name : string;
    additional_notes : option string;
    start_time : Z;
    end_time : Z;
    date : string;
    meeting_link : option string;
    booking_status : option Status }.
End BookingData.

(** The body of a booking update.  [start_time] and [end_time], when
    present, are datetime strings or [Date] objects, hence truthy. *)
Module BookingUpdate.
Record t : Type := mk
  { event_type_id : option Z;
    client_email : option string;
    name : option string;
    additional_notes : option string;
    start_time : option Z;
    end_time : option Z;
    date : option string;
    meeting_link : option string;
    booking_status : option Status }.

Definition none : t := mk None None None None None None None None None.
End BookingUpdate.

(** The body of an event-type update: every property may be absent;
    [availability_id] may also be [null], which is [Some None]. *)
Module EventTypeUpdate.
Record t : Type := mk
  { name : option string;
    description : option string;
    duration : option Z;
    url_slug : option string;
    user_id : option Z;
    availability_id : option (option Z) }.

Definition none : t := mk None None None None None None.
End EventTypeUpdate.

(** The [filters] object of the booking listings. *)
Module BookingFilters.
Record t : Type := mk
  { event_type_id : option Z;
    date : option string;
    booking_status : option string;
    client_email : option string }.

Definition none : t := mk None None None None.
End BookingFilters.

(* ================================================================== *)
(** ** availability.model.js *)

Module AvailabilityModel.
Import Pg.
Local Open Scope pg_scope.

(** The object [{...availability, intervals}]. *)
Record with_intervals : Type := mk
  { availability : Availability.row;
    intervals : list Interval.row }.

Definition getIntervalsByAvailabilityId (availabilityId : Z) (db : DB)
    : list Interval.row :=
  Sql.order_by_day_start
    (filter (fun r => Z.eqb (Interval.availability_id r) availabilityId)
            (availability_interval (tables db))).

Definition findById (id : Z) (db : DB) : option with_intervals :=
  match filter (fun a => Z.eqb (Availability.id a) id) (Pg.availability (tables db)) with
  | [] => None
  | a :: _ => Some (mk a (getIntervalsByAvailabilityId id db))
  end.

(** [for (const interval of intervals) { INSERT .. }] *)
Fixpoint insert_intervals (availability_id : Z) (intervals : list IntervalData.t)
    : M unit :=
  match intervals with
  | [] => ret tt
  | interval :: rest =>
      Sql.insert_interval availability_id
        (IntervalData.day_of_week interval)
        (IntervalData.start_time interval)
        (IntervalData.end_time interval) ;;;
      insert_intervals availability_id rest
  end.

Definition createAvailability (availabilityData : AvailabilityData.t)
    : M (option with_intervals) :=
  let name := AvailabilityData.name availabilityData in
  let timezone :=
    match AvailabilityData.timezone availabilityData with
    | Some z => z
    | None => "UTC"%string
    end in
  let intervals :=
    match AvailabilityData.intervals availabilityData with
    | Some l => l
    | None => []
    end in
  a <- transaction
         (a <- Sql.insert_availability name timezone ;;
          insert_intervals (Availability.id a) intervals ;;;
          ret a) ;;
  query (findById (Availability.id a)).

Definition updateAvailability (id : Z) (availabilityData : AvailabilityUpdate.t)
    : M (option with_intervals) :=
  let name := AvailabilityUpdate.name availabilityData in
  let timezone := AvailabilityUpdate.timezone availabilityData in
  transaction
    (match name, timezone with
     | None, None => ret tt
     | _, _ => Sql.update_availability id name timezone
     end ;;;
     match AvailabilityUpdate.intervals availabilityData with
     | None => ret tt
     | Some intervals =>
         Sql.delete_intervals_of id ;;;
         insert_intervals id intervals
     end) ;;;
  query (findById id).

Definition addInterval (availabilityId : Z) (interval : IntervalData.t)
    : M Interval.row :=
  Sql.insert_interval availabilityId
    (IntervalData.day_of_week interval)
    (IntervalData.start_time interval)
    (IntervalData.end_time interval).

Definition updateInterval (intervalId : Z) (interval : IntervalUpdate.t)
    : M (option Interval.row) :=
  match IntervalUpdate.day_of_week interval,
        IntervalUpdate.start_time interval,
        IntervalUpdate.end_time interval with
  | None, None, None => throw (JsError "No fields to update")
  | day_of_week, start_time, end_time =>
      Sql.update_interval intervalId day_of_week start_time end_time
  end.

Definition deleteInterval (intervalId : Z) : M (option Interval.row) :=
  Sql.delete_interval intervalId.

(** [SELECT * FROM availability ORDER BY id ASC LIMIT 1] *)
Fixpoint lowest_id (rows : list Availability.row) : option Availability.row :=
  match rows with
  | [] => None
  | r :: rest =>
      match lowest_id rest with
      | None => Some r
      | Some m => if Availability.id r <=? Availability.id m then Some r else Some m
      end
  end.

Definition getDefaultAvailability (db : DB) : option with_intervals :=
  match lowest_id (Pg.availability (tables db)) with
  | Some r => findById (Availability.id r) db
  | None => None
  end.

(** Delete availability (will cascade delete intervals): the object read
    before the [DELETE] is what is returned. *)
Definition deleteAvailability (id : Z) : M (option with_intervals) :=
  availability <- query (findById id) ;;
  match availability with
  | None => ret None
  | Some a =>
      Sql.delete_availability id ;;;
      ret (Some a)
  end.

End AvailabilityModel.

(* ================================================================== *)
(** ** availability.service.js *)

Module AvailabilityService.
Import Pg.
Local Open Scope pg_scope.

(** The validation loop shared by create and update. *)
Fixpoint validate_intervals (intervals : list IntervalData.t) : M unit :=
  match intervals with
  | [] => ret tt
  | interval :: rest =>
      if (IntervalData.day_of_week interval <? 1) || (IntervalData.day_of_week interval >? 7)
      then throw (CustomError 400)
      else if Js.str_ge (IntervalData.start_time interval) (IntervalData.end_time interval)
      then throw (CustomError 400)
      else validate_intervals rest
  end.

(** [if (data.intervals && Array.isArray(data.intervals)) { .. }] *)
Definition validate_supplied (intervals : option (list IntervalData.t)) : M unit :=
  match intervals with
  | Some l => validate_intervals l
  | None => ret tt
  end.

Definition createAvailability (data : AvailabilityData.t)
    : M (option AvailabilityModel.with_intervals) :=
  wrap500
    (validate_supplied (AvailabilityData.intervals data) ;;;
     AvailabilityModel.createAvailability data).

Definition updateAvailability (id : Z) (data : AvailabilityUpdate.t)
    : M AvailabilityModel.with_intervals :=
  wrap500
    (existing <- query (AvailabilityModel.findById id) ;;
     match existing with
     | None => throw (CustomError 404)
     | Some _ =>
         validate_supplied (AvailabilityUpdate.intervals data) ;;;
         updated <- AvailabilityModel.updateAvailability id data ;;
         match updated with
         | None => throw (CustomError 500)
         | Some u => ret u
         end
     end).

Definition getDefaultAvailability : M (option AvailabilityModel.with_intervals) :=
  all500 (query AvailabilityModel.getDefaultAvailability).

Definition addInterval (availabilityId : Z) (interval : IntervalData.t)
    : M Interval.row :=
  wrap500
    (availability <- query (AvailabilityModel.findById availabilityId) ;;
     match availability with
     | None => throw (CustomError 404)
     | Some _ =>
         if (IntervalData.day_of_week interval <? 1) || (IntervalData.day_of_week interval >? 7)
         then throw (CustomError 400)
         else if Js.str_ge (IntervalData.start_time interval) (IntervalData.end_time interval)
         then throw (CustomError 400)
         else AvailabilityModel.addInterval availabilityId interval
     end).

Definition updateInterval (intervalId : Z) (interval : IntervalUpdate.t)
    : M Interval.row :=
  wrap500
    (match IntervalUpdate.day_of_week interval with
     | Some d => if (d <? 1) || (d >? 7) then throw (CustomError 400) else ret tt
     | None => ret tt
     end ;;;
     match IntervalUpdate.start_time interval, IntervalUpdate.end_time interval with
     | Some s, Some e => if Js.str_ge s e then throw (CustomError 400) else ret tt
     | _, _ => ret tt
     end ;;;
     updated <- AvailabilityModel.updateInterval intervalId interval ;;
     match updated with
     | None => throw (CustomError 404)
     | Some u => ret u
     end).

Definition deleteInterval (intervalId : Z) : M Interval.row :=
  wrap500
    (deleted <- AvailabilityModel.deleteInterval intervalId ;;
     match deleted with
     | None => throw (CustomError 404)
     | Some d => ret d
     end).

Definition getAvailabilityById (id : Z) : M AvailabilityModel.with_intervals :=
  wrap500
    (availability <- query (AvailabilityModel.findById id) ;;
     match availability with
     | None => throw (CustomError 404)
     | Some a => ret a
     end).

(** [{ message, deletedAvailability }] *)
Definition deleteAvailability (id : Z) : M AvailabilityModel.with_intervals :=
  wrap500
    (existing <- query (AvailabilityModel.findById id) ;;
     match existing with
     | None => throw (CustomError 404)
     | Some _ =>
         deleted <- AvailabilityModel.deleteAvailability id ;;
         match deleted with
         | None => throw (CustomError 500)
         | Some d => ret d
         end
     end).

End AvailabilityService.

(* ================================================================== *)
(** ** eventType.model.js *)

Module EventTypeModel.
Import Pg.
Local Open Scope pg_scope.

Definition createEventType (eventType : EventTypeData.t) : M EventType.row :=
  (* Use name as url_slug if not provided *)
  let slug := Js.or_str (EventTypeData.url_slug eventType) (EventTypeData.name eventType) in
  Sql.insert_event_type
    (EventTypeData.name eventType)
    (EventTypeData.description eventType)
    (EventTypeData.duration eventType)
    (Some slug)
    (Js.or_null_num (EventTypeData.user_id eventType))
    (Js.or_null_num (EventTypeData.availability_id eventType)).

(** [SELECT * FROM event_types WHERE id = $1], then [rows[0] || null]. *)
Definition findById (id : Z) (db : DB) : option EventType.row :=
  find (fun r => Z.eqb (EventType.id r) id) (event_types (tables db)).

(** [SELECT * FROM event_types WHERE name = $1], then [rows[0] || null]. *)
Definition findByName (name : string) (db : DB) : option EventType.row :=
  find (fun r => String.eqb (EventType.name r) name) (event_types (tables db)).

(** [SELECT * FROM event_types WHERE url_slug = $1 OR name = $1], then
    [rows[0] || null]: the first row of the table that satisfies the
    disjunction (rows come back in table order, which is insertion
    order here). *)
Definition findBySlug (slug : string) (db : DB) : option EventType.row :=
  find (fun r => Sql.has_slug slug r || String.eqb (EventType.name r) slug)
       (event_types (tables db)).

(** Does the payload name at least one column of the [SET] list? *)
Definition has_updates (d : EventTypeUpdate.t) : bool :=
  match EventTypeUpdate.name d, EventTypeUpdate.description d,
        EventTypeUpdate.duration d, EventTypeUpdate.url_slug d,
        EventTypeUpdate.user_id d, EventTypeUpdate.availability_id d with
  | None, None, None, None, None, None => false
  | _, _, _, _, _, _ => true
  end.

(** The [SET] list built from the properties that are not [undefined];
    [availability_id = NULL] when the property is [null]. *)
Definition assign (d : EventTypeUpdate.t) (r : EventType.row) : EventType.row :=
  EventType.mk (EventType.id r)
    (match EventTypeUpdate.name d with Some v => v | None => EventType.name r end)
    (match EventTypeUpdate.description d with
     | Some v => Some v
     | None => EventType.description r
     end)
    (match EventTypeUpdate.duration d with Some v => v | None => EventType.duration r end)
    (match EventTypeUpdate.url_slug d with
     | Some v => Some v
     | None => EventType.url_slug r
     end)
    (match EventTypeUpdate.user_id d with
     | Some v => Some v
     | None => EventType.user_id r
     end)
    (match EventTypeUpdate.availability_id d with
     | Some v => v
     | None => EventType.availability_id r
     end).

Definition updateEventType (id : Z) (eventTypeData : EventTypeUpdate.t)
    : M (option EventType.row) :=
  if has_updates eventTypeData
  then Sql.update_event_type id (assign eventTypeData)
  else throw (JsError "No fields to update").

Definition deleteEventType (id : Z) : M (option EventType.row) :=
  Sql.delete_event_type id.

End EventTypeModel.

(* ================================================================== *)
(** ** eventType.service.js *)

Module EventTypeService.
Import Pg.
Local Open Scope pg_scope.

(** [{...eventType, bookingUrl}] *)
Record with_bookingUrl : Type := mk
  { eventType : EventType.row;
    bookingUrl : string }.

Definition add_bookingUrl (e : EventType.row) : with_bookingUrl :=
  mk e ("/book/" ++ Js.or_str (EventType.url_slug e) (EventType.name e))%string.

(** [for (let day = day0; ..; day++) { INSERT .. '14:00:00', '22:00:00' }],
    [remaining] iterations from [day]. *)
Fixpoint insert_days (availabilityId day : Z) (remaining : nat) : M unit :=
  match remaining with
  | O => ret tt
  | S k =>
      Sql.insert_interval availabilityId day "14:00:00" "22:00:00" ;;;
      insert_days availabilityId (day + 1) k
  end.

(** The [else] branch: create the default availability (2PM-10PM for
    all days) in one transaction. *)
Definition provision_default : M Z :=
  transaction
    (a <- Sql.insert_availability "Default Availability" "UTC" ;;
     insert_days (Availability.id a) 1 7 ;;;
     ret (Availability.id a)).

Definition createEventType (data : EventTypeData.t) : M with_bookingUrl :=
  wrap500
    (existing <- query (EventTypeModel.findByName (EventTypeData.name data)) ;;
     match existing with
     | Some _ => throw (CustomError 409)
     | None =>
         availabilityId <-
           (if negb (Js.truthy_opt_num (EventTypeData.availability_id data)) then
              defaultAvailability <- query AvailabilityModel.getDefaultAvailability ;;
              match defaultAvailability with
              | Some d =>
                  ret (Some (Availability.id (AvailabilityModel.availability d)))
              | None =>
                  i <- provision_default ;;
                  ret (Some i)
              end
            else ret (EventTypeData.availability_id data)) ;;
         newEventType <-
           EventTypeModel.createEventType
             (EventTypeData.mk (EventTypeData.name data) (EventTypeData.description data)
                (EventTypeData.duration data) (EventTypeData.url_slug data)
                (EventTypeData.user_id data) availabilityId) ;;
         ret (add_bookingUrl newEventType)
     end).

Definition getEventTypeById (id : Z) : M with_bookingUrl :=
  wrap500
    (eventType <- query (EventTypeModel.findById id) ;;
     match eventType with
     | None => throw (CustomError 404)
     | Some e => ret (add_bookingUrl e)
     end).

Definition getEventTypeBySlug (slug : string) : M with_bookingUrl :=
  wrap500
    (eventType <- query (EventTypeModel.findBySlug slug) ;;
     match eventType with
     | None => throw (CustomError 404)
     | Some e => ret (add_bookingUrl e)
     end).

Definition updateEventType (id : Z) (data : EventTypeUpdate.t) : M with_bookingUrl :=
  wrap500
    ((* Business logic: Check if event type exists *)
     existing <- query (EventTypeModel.findById id) ;;
     match existing with
     | None => throw (CustomError 404)
     | Some existing =>
         (* If name is being updated, check if new name already exists *)
         match EventTypeUpdate.name data with
         | Some n =>
             if Js.truthy_str n && negb (String.eqb n (EventType.name existing)) then
               nameExists <- query (EventTypeModel.findByName n) ;;
               match nameExists with
               | Some _ => throw (CustomError 409)
               | None => ret tt
               end
             else ret tt
         | None => ret tt
         end ;;;
         updated <- EventTypeModel.updateEventType id data ;;
         match updated with
         | None => throw (CustomError 500)
         | Some u => ret (add_bookingUrl u)
         end
     end).

(** [{ message, deletedEventType }] *)
Definition deleteEventType (id : Z) : M EventType.row :=
  wrap500
    (existing <- query (EventTypeModel.findById id) ;;
     match existing with
     | None => throw (CustomError 404)
     | Some _ =>
         deleted <- EventTypeModel.deleteEventType id ;;
         match deleted with
         | None => throw (CustomError 500)
         | Some d => ret d
         end
     end).

End EventTypeService.

(* ================================================================== *)
(** ** bookings.model.js *)

Module BookingsModel.
Import Pg.
Local Open Scope pg_scope.

Definition createBooking (booking : BookingData.t) : M Booking.row :=
  Sql.insert_booking
    (BookingData.event_type_id booking)
    (BookingData.client_email booking)
    (BookingData.name booking)
    (Js.or_null_str (BookingData.additional_notes booking))
    (BookingData.start_time booking)
    (BookingData.end_time booking)
    (BookingData.date booking)
    (Js.or_null_str (BookingData.meeting_link booking))
    (match BookingData.booking_status booking with
     | Some s => s
     | None => confirmed
     end).

Definition findById (id : Z) (db : DB) : option Booking.row :=
  find (fun r => Z.eqb (Booking.id r) id) (bookings (tables db)).

(** Does the payload name at least one column of the [SET] list? *)
Definition has_updates (d : BookingUpdate.t) : bool :=
  match BookingUpdate.client_email d, BookingUpdate.name d,
        BookingUpdate.additional_notes d, BookingUpdate.start_time d,
        BookingUpdate.end_time d, BookingUpdate.date d,
        BookingUpdate.meeting_link d, BookingUpdate.booking_status d with
  | None, None, None, None, None, None, None, None => false
  | _, _, _, _, _, _, _, _ => true
  end.

(** The [SET] list built from the properties that are not [undefined];
    [event_type_id] is not among the columns it can assign. *)
Definition assign (d : BookingUpdate.t) (r : Booking.row) : Booking.row :=
  Booking.mk (Booking.id r) (Booking.event_type_id r)
    (match BookingUpdate.client_email d with Some v => v | None => Booking.client_email r end)
    (match BookingUpdate.name d with Some v => v | None => Booking.name r end)
    (match BookingUpdate.additional_notes d with
     | Some v => Some v
     | None => Booking.additional_notes r
     end)
    (match BookingUpdate.start_time d with Some v => v | None => Booking.start_time r end)
    (match BookingUpdate.end_time d with Some v => v | None => Booking.end_time r end)
    (match BookingUpdate.date d with Some v => v | None => Booking.date r end)
    (match BookingUpdate.meeting_link d with
     | Some v => Js.or_null_str (Some v)
     | None => Booking.meeting_link r
     end)
    (match BookingUpdate.booking_status d with
     | Some v => v
     | None => Booking.booking_status r
     end).

Definition updateBooking (id : Z) (bookingData : BookingUpdate.t)
    : M (option Booking.row) :=
  if has_updates bookingData
  then Sql.update_booking id (assign bookingData)
  else throw (JsError "No fields to update").

Definition deleteBooking (id : Z) : M (option Booking.row) :=
  Sql.delete_booking id.

(** The [WHERE] clause of [checkConflict], row by row. *)
Definition conflicts (eventTypeId : Z) (date : string) (startTime endTime : Z)
    (excludeBookingId : option Z) (r : Booking.row) : bool :=
  Z.eqb (Booking.event_type_id r) eventTypeId
  && String.eqb (Booking.date r) date
  && negb (Status_eqb (Booking.booking_status r) cancelled)
  && (((Booking.start_time r <=? startTime) && (Booking.end_time r >? startTime))
      || ((Booking.start_time r <? endTime) && (Booking.end_time r >=? endTime))
      || ((Booking.start_time r >=? startTime) && (Booking.end_time r <=? endTime)))
  && (if Js.truthy_opt_num excludeBookingId
      then match excludeBookingId with
           | Some x => negb (Z.eqb (Booking.id r) x)
           | None => true
           end
      else true).

(** Check for booking conflicts (overlapping bookings for the same
    event type): [result.rows.length > 0]. *)
Definition checkConflict (eventTypeId : Z) (date : string) (startTime endTime : Z)
    (excludeBookingId : option Z) (db : DB) : bool :=
  Nat.ltb 0
    (List.length (filter (conflicts eventTypeId date startTime endTime excludeBookingId)
                    (bookings (tables db)))).

(** [if (filters.x) { query += ' AND x = $n' }]: the clause is appended
    when the filter is truthy. *)
Definition clause_num (x : option Z) : option Z :=
  if Js.truthy_opt_num x then x else None.

Definition clause_str (x : option string) : option string :=
  if Js.truthy_opt_str x then x else None.

Definition findAll (filters : BookingFilters.t) : M (list Booking.row) :=
  Sql.select_bookings
    (clause_num (BookingFilters.event_type_id filters))
    (clause_str (BookingFilters.date filters))
    (clause_str (BookingFilters.booking_status filters))
    (clause_str (BookingFilters.client_email filters)).

(** [WHERE event_type_id = $1] is always part of the query; of the
    filters only [date] and [booking_status] are read. *)
Definition findByEventTypeId (eventTypeId : Z) (filters : BookingFilters.t)
    : M (list Booking.row) :=
  Sql.select_bookings
    (Some eventTypeId)
    (clause_str (BookingFilters.date filters))
    (clause_str (BookingFilters.booking_status filters))
    None.

End BookingsModel.


(* ================================================================== *)
(** ** bookings.service.js *)

Module BookingsService.
Import Pg.
Local Open Scope pg_scope.

(** The [event_type] summary attached to an enriched booking. *)
Record event_type_summary : Type := mkSummary
  { id : Z;
    name : string;
    description : option string;
    duration : Z;
    url_slug : option string }.

(** What the service returns: the row, and, when enrichment applies, the
    event-type summary, the timezone and the location; [meeting_link]
    is the row's own or the placeholder. *)
Record enriched : Type := mkEnriched
  { booking : Booking.row;
    event_type : option event_type_summary;
    timezone : option string;
    location : option string;
    meeting_link : option string }.

Definition bare (b : Booking.row) : enriched :=
  mkEnriched b None None None (Booking.meeting_link b).

(** Helper method to enrich booking with event type and availability
    data; it reads only. *)
Definition enrichBooking (b : Booking.row) (db : DB) : enriched :=
  if negb (Js.truthy_num (Booking.event_type_id b)) then bare b
  else
    match EventTypeModel.findById (Booking.event_type_id b) db with
    | None => bare b
    | Some eventType =>
        let availability :=
          if Js.truthy_opt_num (EventType.availability_id eventType)
          then match EventType.availability_id eventType with
               | Some a => AvailabilityModel.findById a db
               | None => None
               end
          else None in
        mkEnriched b
          (Some (mkSummary (EventType.id eventType) (EventType.name eventType)
                   (EventType.description eventType) (EventType.duration eventType)
                   (EventType.url_slug eventType)))
          (Some (Js.or_str
                   (match availability with
                    | Some a => Some (Availability.timezone (AvailabilityModel.availability a))
                    | None => None
                    end) "UTC"))
          (Some "Cal Video"%string)
          (Some (Js.or_str (Booking.meeting_link b) "https://cal.com/video"))
    end.

Definition createBooking (data : BookingData.t) : M enriched :=
  wrap500
    ((* Validate event type exists *)
     eventType <- query (EventTypeModel.findById (BookingData.event_type_id data)) ;;
     match eventType with
     | None => throw (CustomError 404)
     | Some _ =>
         (* Check for booking conflicts *)
         hasConflict <- query (BookingsModel.checkConflict
                                 (BookingData.event_type_id data)
                                 (BookingData.date data)
                                 (BookingData.start_time data)
                                 (BookingData.end_time data)
                                 None) ;;
         if hasConflict : bool then throw (CustomError 409)
         else
           (* Validate that end_time is after start_time *)
           if BookingData.start_time data >=? BookingData.end_time data
           then throw (CustomError 400)
           else
             booking <- BookingsModel.createBooking data ;;
             query (enrichBooking booking)
     end).

(** [data.start_time || data.end_time || data.date || data.event_type_id] *)
Definition touches_slot (data : BookingUpdate.t) : bool :=
  match BookingUpdate.start_time data with Some _ => true | None => false end
  || match BookingUpdate.end_time data with Some _ => true | None => false end
  || Js.truthy_opt_str (BookingUpdate.date data)
  || Js.truthy_opt_num (BookingUpdate.event_type_id data).

Definition updateBooking (id : Z) (data : BookingUpdate.t) : M enriched :=
  wrap500
    ((* Check if booking exists *)
     existing <- query (BookingsModel.findById id) ;;
     match existing with
     | None => throw (CustomError 404)
     | Some existing =>
         (* Check for conflicts if time is being updated *)
         (if touches_slot data then
            let eventTypeId :=
              Js.or_num (BookingUpdate.event_type_id data) (Booking.event_type_id existing) in
            let date := Js.or_str (BookingUpdate.date data) (Booking.date existing) in
            let startTime :=
              match BookingUpdate.start_time data with
              | Some s => s
              | None => Booking.start_time existing
              end in
            let endTime :=
              match BookingUpdate.end_time data with
              | Some e => e
              | None => Booking.end_time existing
              end in
            hasConflict <- query (BookingsModel.checkConflict
                                    eventTypeId date startTime endTime
                                    (Some id) (* Exclude current booking *)) ;;
            if hasConflict : bool then throw (CustomError 409) else ret tt
          else ret tt) ;;;
         (* Validate that end_time is after start_time *)
         match BookingUpdate.start_time data, BookingUpdate.end_time data with
         | Some s, Some e => if s >=? e then throw (CustomError 400) else ret tt
         | Some s, None =>
             if s >=? Booking.end_time existing then throw (CustomError 400) else ret tt
         | None, Some e =>
             if Booking.start_time existing >=? e then throw (CustomError 400) else ret tt
         | None, None => ret tt
         end ;;;
         updated <- BookingsModel.updateBooking id data ;;
         match updated with
         | None => throw (CustomError 500)
         | Some u => query (enrichBooking u)
         end
     end).

(** [{ message, deletedBooking }] *)
Definition deleteBooking (id : Z) : M Booking.row :=
  wrap500
    (existing <- query (BookingsModel.findById id) ;;
     match existing with
     | None => throw (CustomError 404)
     | Some _ =>
         deleted <- BookingsModel.deleteBooking id ;;
         match deleted with
         | None => throw (CustomError 500)
         | Some d => ret d
         end
     end).

(** Helper method to enrich array of bookings. *)
Definition enrichBookings (bookings : list Booking.row) (db : DB) : list enriched :=
  map (fun booking => enrichBooking booking db) bookings.

Definition getAllBookings (filters : BookingFilters.t) : M (list enriched) :=
  all500
    (bookings <- BookingsModel.findAll filters ;;
     query (enrichBookings bookings)).

Definition getBookingById (id : Z) : M enriched :=
  wrap500
    (booking <- query (BookingsModel.findById id) ;;
     match booking with
     | None => throw (CustomError 404)
     | Some b => query (enrichBooking b)
     end).

Definition getBookingsByEventTypeId (eventTypeId : Z) (filters : BookingFilters.t)
    : M (list enriched) :=
  wrap500
    ((* Validate event type exists *)
     eventType <- query (EventTypeModel.findById eventTypeId) ;;
     match eventType with
     | None => throw (CustomError 404)
     | Some _ =>
         bookings <- BookingsModel.findByEventTypeId eventTypeId filters ;;
         query (enrichBookings bookings)
     end).

End BookingsService.


(* ================================================================== *)
(** ** setupDatabase.js *)

Module SetupDatabase.
Import Pg.
Local Open Scope pg_scope.

(** Function to create default availability (2PM to 10PM for all days);
    [null] is [None]. *)
Definition createDefaultAvailability : M (option Z) :=
  availabilityCount <- query Sql.count_availability ;;
  if Z.eqb availabilityCount 0 then
    a <- Sql.insert_availability "Default Availability" "UTC" ;;
    (* the loop of seven INSERTs that eventType.service.js also runs *)
    EventTypeService.insert_days (Availability.id a) 1 7 ;;;
    ret (Some (Availability.id a))
  else ret None.

(** *** [retryOnDeadlock]

    [fn] is any computation on a state [St] that returns or throws an
    error object, of which [code] and [message] are read. *)

Record error : Type := mkError
  { code : option string;
    message : option string }.

(** [haystack.includes(needle)] *)
Fixpoint includes (needle haystack : string) : bool :=
  String.prefix needle haystack
  || match haystack with
     | EmptyString => false
     | String _ rest => includes needle rest
     end.

(** [error.code === c] *)
Definition code_is (c : string) (e : error) : bool :=
  match code e with Some x => String.eqb x c | None => false end.

(** [error.message?.includes(s)] as a condition. *)
Definition message_includes (s : string) (e : error) : bool :=
  match message e with Some m => includes s m | None => false end.

Definition retryable (e : error) : bool :=
  code_is "40P01" e || code_is "ETIMEDOUT" e
  || message_includes "timeout" e || message_includes "Connection terminated" e.

(** How a call ends: [fn]'s value, the error rethrown, or the end of the
    loop without a [return] ([undefined]). *)
Inductive outcome (A : Type) : Type :=
| Returned (a : A)
| Threw (e : error)
| Undefined.
Arguments Returned {A} a.
Arguments Threw {A} e.
Arguments Undefined {A}.

(** What a call leaves: its outcome, the state, and the [setTimeout]
    delays it waited for, in order. *)
Record run (St A : Type) : Type := mkRun
  { ended : outcome A;
    state : St;
    waits : list Z }.
Arguments mkRun {St A} ended state waits.
Arguments ended {St A} r.
Arguments state {St A} r.
Arguments waits {St A} r.

Definition waited {St A : Type} (w : Z) (r : run St A) : run St A :=
  mkRun (ended r) (state r) (w :: waits r).

(** The [for] loop from iteration [i] on, [remaining] iterations left
    ([i + remaining = maxRetries]). *)
Fixpoint retry_from {St A : Type} (fn : St -> (A + error) * St)
    (maxRetries delay i : Z) (remaining : nat) (s : St) : run St A :=
  match remaining with
  | O => mkRun Undefined s []
  | S k =>
      match fn s with
      | (inl a, s') => mkRun (Returned a) s' []
      | (inr e, s') =>
          if retryable e && (i <? maxRetries - 1)
          then waited (delay * 2 ^ i) (retry_from fn maxRetries delay (i + 1) k s')
          else mkRun (Threw e) s' []
      end
  end.

Definition retryOnDeadlock {St A : Type} (fn : St -> (A + error) * St)
    (maxRetries delay : Z) (s : St) : run St A :=
  retry_from fn maxRetries delay 0 (Z.to_nat maxRetries) s.

End SetupDatabase.

(* ================================================================== *)
(** ** baseController.js, availability.controller.js *)

Module BaseController.
Import Pg.

(** The properties of an error object that [handleError] reads. *)
Record error : Type := mkError
  { is_customError : bool;      (* error instanceof customError *)
    name : option string;
    statusCode : option Z;
    code : option string }.

Definition name_is (n : string) (e : error) : bool :=
  match name e with Some x => String.eqb x n | None => false end.

(** The status [handleError] answers with; [None] is a falsy [error]. *)
Definition handleError (err : option error) : Z :=
  match err with
  | None => 500
  | Some e =>
      if is_customError e || name_is "CustomError" e then Js.or_num (statusCode e) 500
      else if name_is "ValidationError" e then 400
      else if match code e with Some c => String.eqb c "23505" | None => false end then 409
      else 500
  end.

(** The five-character SQLSTATE of each class. *)
Definition sqlstate_code (c : sqlstate) : string :=
  match c with
  | unique_violation => "23505"
  | foreign_key_violation => "23503"
  | check_violation => "23514"
  | invalid_datetime_format => "22007"
  | string_data_right_truncation => "22001"
  | numeric_value_out_of_range => "22003"
  end.

(** The error object behind each thrown value: a [CustomError] carries
    its name and its status code, an error raised by [pg] the name
    ["error"] and the SQLSTATE as [code], a plain [Error] its name. *)
Definition thrown (e : exn) : error :=
  match e with
  | CustomError c => mkError true (Some "CustomError"%string) (Some c) None
  | DatabaseError c => mkError false (Some "error"%string) None (Some (sqlstate_code c))
  | JsError _ => mkError false (Some "Error"%string) None None
  end.

End BaseController.

Module AvailabilityController.
Import Pg.

(** The status [GET /availability/default] answers with. *)
Definition getDefaultAvailability (db : DB) : Z * DB :=
  match AvailabilityService.getDefaultAvailability db with
  | (Ok availability, db') =>
      match availability with
      | None =>
          (BaseController.handleError
             (Some (BaseController.mkError false (Some "NotFoundError"%string) None None)),
           db')
      | Some _ => (200, db')
      end
  | (Throw e, db') => (BaseController.handleError (Some (BaseController.thrown e)), db')
  end.

End AvailabilityController.

(* ================================================================== *)
(** ** Properties of the stored data *)

Module Props.
Import Pg.

(** *** Bookings *)

(** Half-open overlap of a candidate range [[S, E)] with a stored booking:
    [candidate.start < existing.end AND candidate.end > existing.start]. *)
Definition overlaps (S E : Z) (r : Booking.row) : Prop :=
  S < Booking.end_time r /\ E > Booking.start_time r.

(** What every row of [bookings] satisfies when it got there through the
    store: its id was drawn from the [SERIAL] sequence, which starts at 1,
    and it starts before it ends. *)
Definition bookings_well_formed (db : DB) : Prop :=
  forall r, In r (bookings (tables db)) ->
    0 < Booking.id r /\ Booking.start_time r < Booking.end_time r.

(** [id] is the primary key of [bookings]. *)
Definition primary_key (db : DB) : Prop :=
  forall a b, In a (bookings (tables db)) -> In b (bookings (tables db)) ->
    Booking.id a = Booking.id b -> a = b.

(** [UNIQUE(event_type_id, date, start_time)] holds in [bookings]. *)
Definition slot_unique (db : DB) : Prop :=
  forall a b, In a (bookings (tables db)) -> In b (bookings (tables db)) ->
    Sql.same_slot a b = true -> Booking.id a = Booking.id b.

(** The row a conflict check is meant to find. *)
Definition conflicting_row (eventTypeId : Z) (date : string) (S E : Z)
    (excludeBookingId : option Z) (r : Booking.row) : Prop :=
  Booking.event_type_id r = eventTypeId
  /\ Booking.date r = date
  /\ Booking.booking_status r <> cancelled
  /\ (forall x, excludeBookingId = Some x -> Booking.id r <> x)
  /\ overlaps S E r.

(** No two distinct non-cancelled bookings of one event type and date
    overlap. *)
Definition no_double_booking (db : DB) : Prop :=
  forall a b,
    In a (bookings (tables db)) -> In b (bookings (tables db)) ->
    Booking.id a <> Booking.id b ->
    Booking.event_type_id a = Booking.event_type_id b ->
    Booking.date a = Booking.date b ->
    Booking.booking_status a <> cancelled ->
    Booking.booking_status b <> cancelled ->
    ~ overlaps (Booking.start_time a) (Booking.end_time a) b.

(** The table [bookings] with its cancelled rows left out. *)
Definition without_cancelled (db : DB) : DB :=
  Sql.set_bookings
    (filter (fun r => negb (Status_eqb (Booking.booking_status r) cancelled))
            (bookings (tables db))) db.

(** The effective values [updateBooking] computes for the conflict check
    ([data.x || existing.x]) are the booking's own. *)
Definition merged_is_own (data : BookingUpdate.t) (b : Booking.row) : Prop :=
  Js.or_num (BookingUpdate.event_type_id data) (Booking.event_type_id b)
  = Booking.event_type_id b
  /\ Js.or_str (BookingUpdate.date data) (Booking.date b) = Booking.date b
  /\ match BookingUpdate.start_time data with
     | Some s => s
     | None => Booking.start_time b
     end = Booking.start_time b
  /\ match BookingUpdate.end_time data with
     | Some e => e
     | None => Booking.end_time b
     end = Booking.end_time b.

(** *** Availability and its intervals *)

(** An interval the services refuse: [day_of_week] outside [[1,7]], or
    [start_time >= end_time] as the code evaluates it, on the two
    submitted strings. *)
Definition rejected_interval (i : IntervalData.t) : Prop :=
  IntervalData.day_of_week i < 1
  \/ IntervalData.day_of_week i > 7
  \/ Js.str_ge (IntervalData.start_time i) (IntervalData.end_time i) = true.

(** The columns of an interval row other than its id. *)
Definition window (r : Interval.row) : Z * Z * Z * Z :=
  (Interval.availability_id r, Interval.day_of_week r,
   Interval.start_time r, Interval.end_time r).

(** Row [r] holds the submitted interval [i] for availability
    [availabilityId]. *)
Definition stores (availabilityId : Z) (i : IntervalData.t) (r : Interval.row) : Prop :=
  Interval.availability_id r = availabilityId
  /\ Interval.day_of_week r = IntervalData.day_of_week i
  /\ Sql.cast_time (IntervalData.start_time i) = Some (Interval.start_time r)
  /\ Sql.cast_time (IntervalData.end_time i) = Some (Interval.end_time r).

(** The interval rows of one availability, and those of all the others,
    in table order. *)
Definition intervals_of (availabilityId : Z) (db : DB) : list Interval.row :=
  filter (fun r => Z.eqb (Interval.availability_id r) availabilityId)
         (availability_interval (tables db)).

Definition intervals_of_others (availabilityId : Z) (db : DB) : list Interval.row :=
  filter (fun r => negb (Z.eqb (Interval.availability_id r) availabilityId))
         (availability_interval (tables db)).

(** Every stored interval starts before it ends. *)
Definition intervals_well_ordered (db : DB) : Prop :=
  forall r, In r (availability_interval (tables db)) ->
    Interval.start_time r < Interval.end_time r.

(** [availability_id REFERENCES availability(id)] holds in
    [availability_interval]. *)
Definition intervals_owned (db : DB) : Prop :=
  forall i, In i (availability_interval (tables db)) ->
    Sql.availability_exists (Interval.availability_id i) db = true.

(** Availability ids come from the [SERIAL] sequence: those handed out and
    the next one are at least 1. *)
Definition serial_ids (db : DB) : Prop :=
  0 < availability_id_seq (sequences db)
  /\ forall a, In a (availability (tables db)) -> 0 < Availability.id a.

(** *** Default availability *)

(** The windows 14:00:00-22:00:00 (50400 s to 79200 s) for [n] days from
    [day] on. *)
Fixpoint default_windows_from (availabilityId day : Z) (n : nat)
    : list (Z * Z * Z * Z) :=
  match n with
  | O => []
  | S k => (availabilityId, day, 50400, 79200)
           :: default_windows_from availabilityId (day + 1) k
  end.

Definition default_windows (availabilityId : Z) : list (Z * Z * Z * Z) :=
  default_windows_from availabilityId 1 7.

(** What a [createEventType] without [availability_id] leaves behind: the
    new row [e] is appended to [event_types]; if there was no availability,
    exactly one now exists, named "Default Availability" in "UTC", the
    interval table holds exactly its seven default windows, and [e] links
    to it; if there was one, both tables are as before and [e] links to
    the row with the lowest id. *)
Definition links_default (db : DB) (e : EventType.row) (db' : DB) : Prop :=
  event_types (tables db') = event_types (tables db) ++ [e]
  /\ (availability (tables db) = [] ->
      exists a,
        availability (tables db') = [a]
        /\ Availability.name a = "Default Availability"%string
        /\ Availability.timezone a = "UTC"%string
        /\ map window (availability_interval (tables db')) = default_windows (Availability.id a)
        /\ EventType.availability_id e = Some (Availability.id a))
  /\ (availability (tables db) <> [] ->
      availability (tables db') = availability (tables db)
      /\ availability_interval (tables db') = availability_interval (tables db)
      /\ exists a,
           In a (availability (tables db))
           /\ (forall b, In b (availability (tables db)) ->
                 Availability.id a <= Availability.id b)
           /\ EventType.availability_id e = Some (Availability.id a)).

(** *** Event types *)

(** Some stored event type has [url_slug = slug]. *)
Definition slug_taken (slug : string) (db : DB) : Prop :=
  exists e, In e (event_types (tables db)) /\ EventType.url_slug e = Some slug.

(** *** Keys drawn from the sequences, references between the tables *)

(** The ids of a table were drawn from its [SERIAL] sequence: each is
    positive and below the value the sequence hands out next. *)
Definition booking_ids_drawn (db : DB) : Prop :=
  forall r, In r (bookings (tables db)) ->
    0 < Booking.id r < bookings_id_seq (sequences db).

Definition event_type_ids_drawn (db : DB) : Prop :=
  forall r, In r (event_types (tables db)) ->
    0 < EventType.id r < event_types_id_seq (sequences db).

Definition availability_ids_drawn (db : DB) : Prop :=
  forall r, In r (availability (tables db)) ->
    0 < Availability.id r < availability_id_seq (sequences db).

Definition interval_ids_drawn (db : DB) : Prop :=
  forall r, In r (availability_interval (tables db)) ->
    0 < Interval.id r < availability_interval_id_seq (sequences db).

(** [event_type_id REFERENCES event_types(id)] holds in [bookings]. *)
Definition bookings_owned (db : DB) : Prop :=
  forall b, In b (bookings (tables db)) ->
    Sql.event_type_exists (Booking.event_type_id b) db = true.

(** Every stored booking starts before it ends. *)
Definition bookings_time_ordered (db : DB) : Prop :=
  forall r, In r (bookings (tables db)) -> Booking.start_time r < Booking.end_time r.

(** The three tables a booking write does not touch. *)
Definition same_other_tables (db db' : DB) : Prop :=
  availability (tables db') = availability (tables db)
  /\ availability_interval (tables db') = availability_interval (tables db)
  /\ event_types (tables db') = event_types (tables db).

(** The row a [createBooking] request asks for, under the id [id]:
    [additional_notes] and [meeting_link] are [null] unless they are
    non-empty strings, [booking_status] is [confirmed] unless given. *)
Definition requested_booking (id : Z) (data : BookingData.t) : Booking.row :=
  Booking.mk id (BookingData.event_type_id data) (BookingData.client_email data)
    (BookingData.name data)
    (match BookingData.additional_notes data with
     | Some EmptyString | None => None
     | Some s => Some s
     end)
    (BookingData.start_time data) (BookingData.end_time data) (BookingData.date data)
    (match BookingData.meeting_link data with
     | Some EmptyString | None => None
     | Some s => Some s
     end)
    (match BookingData.booking_status data with Some s => s | None => confirmed end).

(** No stored booking has the request's [(event_type_id, date,
    start_time)]. *)
Definition slot_free (data : BookingData.t) (db : DB) : Prop :=
  forall o, In o (bookings (tables db)) ->
    ~ (Booking.event_type_id o = BookingData.event_type_id data
       /\ Booking.date o = BookingData.date data
       /\ Booking.start_time o = BookingData.start_time data).

(** [b] comes no later than [a] in a listing: a later date first, and on
    one date the later start first. *)
Definition newest_first (a b : Booking.row) : Prop :=
  String.ltb (Booking.date b) (Booking.date a) = true
  \/ (Booking.date a = Booking.date b /\ Booking.start_time b <= Booking.start_time a).

(** The rows a listing with [filters] asks for: a filter that is absent,
    [0] or the empty string selects nothing. *)
Definition selected (filters : BookingFilters.t) (r : Booking.row) : Prop :=
  (forall x, BookingFilters.event_type_id filters = Some x -> x <> 0 ->
     Booking.event_type_id r = x)
  /\ (forall d, BookingFilters.date filters = Some d -> d <> EmptyString ->
        Booking.date r = d)
  /\ (forall s, BookingFilters.booking_status filters = Some s -> s <> EmptyString ->
        Status_text (Booking.booking_status r) = s)
  /\ (forall m, BookingFilters.client_email filters = Some m -> m <> EmptyString ->
        Booking.client_email r = m).

(** The [date] filter, when it is applied, names a day of the calendar. *)
Definition date_filter_valid (filters : BookingFilters.t) : Prop :=
  forall d, BookingFilters.date filters = Some d -> d <> EmptyString ->
    Sql.cast_date d = Some d.

(** *** Event types *)

(** The step of [createEventType] that settles [availability_id]: the
    one given, else the default availability, provisioned when there is
    none. *)
Definition resolve_availability (data : EventTypeData.t) : M (option Z) :=
  if negb (Js.truthy_opt_num (EventTypeData.availability_id data)) then
    Pg.bind (query AvailabilityModel.getDefaultAvailability)
      (fun defaultAvailability =>
         match defaultAvailability with
         | Some d => ret (Some (Availability.id (AvailabilityModel.availability d)))
         | None => Pg.bind EventTypeService.provision_default (fun i => ret (Some i))
         end)
  else ret (EventTypeData.availability_id data).

(** The slug a new event type is stored under: [url_slug], or the name
    when [url_slug] is absent or empty. *)
Definition stored_slug (data : EventTypeData.t) : string :=
  match EventTypeData.url_slug data with
  | Some EmptyString | None => EventTypeData.name data
  | Some s => s
  end.

(** [availability_id REFERENCES availability(id)] holds in [event_types]. *)
Definition event_types_linked (db : DB) : Prop :=
  forall e a, In e (event_types (tables db)) -> EventType.availability_id e = Some a ->
    Sql.availability_exists a db = true.

(** Every stored interval has its day within [1, 7]. *)
Definition days_in_range (db : DB) : Prop :=
  forall i, In i (availability_interval (tables db)) ->
    1 <= Interval.day_of_week i <= 7.

(** [a] comes no later than [b] in [ORDER BY day_of_week, start_time]. *)
Definition day_then_start (a b : Interval.row) : Prop :=
  Interval.day_of_week a < Interval.day_of_week b
  \/ (Interval.day_of_week a = Interval.day_of_week b
      /\ Interval.start_time a <= Interval.start_time b).

(** The two constraints [createTables] puts on a stored interval. *)
Definition interval_constraints (db : DB) : Prop :=
  days_in_range db /\ intervals_owned db.

(** *** Times written [HH:MM:SS] *)

(** The character of a digit, the two digits of a number below 100, and
    the text [HH:MM:SS] of the time [h:m:s]. *)
Definition digit_char (d : Z) : ascii := ascii_of_N (Z.to_N (48 + d)).

Definition two_digit_text (n : Z) : string :=
  String (digit_char (n / 10)) (String (digit_char (n mod 10)) EmptyString).

Definition hh_mm_ss (h m s : Z) : string :=
  (two_digit_text h ++ ":" ++ two_digit_text m ++ ":" ++ two_digit_text s)%string.

(** The text is a time of day written [HH:MM:SS]: two digits each for
    the hour (00 to 23), the minute and the second (00 to 59). *)
Definition written_hh_mm_ss (text : string) : Prop :=
  exists h m s,
    0 <= h <= 23 /\ 0 <= m <= 59 /\ 0 <= s <= 59 /\ text = hh_mm_ss h m s.

(** Both times of a submitted interval are written [HH:MM:SS]. *)
Definition two_digit_hours (i : IntervalData.t) : Prop :=
  written_hh_mm_ss (IntervalData.start_time i)
  /\ written_hh_mm_ss (IntervalData.end_time i).

(** An interval that is not valid: [day_of_week] outside [[1,7]], or a
    start that is not before the end, the two times being the times of
    day that the [TIME] column reads from the submitted texts. *)
Definition invalid_interval (i : IntervalData.t) : Prop :=
  IntervalData.day_of_week i < 1
  \/ IntervalData.day_of_week i > 7
  \/ exists t1 t2,
       Sql.cast_time (IntervalData.start_time i) = Some t1
       /\ Sql.cast_time (IntervalData.end_time i) = Some t2
       /\ t1 >= t2.

(** *** Values that fit the columns *)

(** The value a column has after an [UPDATE]: the payload's when the
    payload names the column, else the stored one. *)
Definition supplied {A : Type} (x : option A) (stored : A) : A :=
  match x with
  | Some v => v
  | None => stored
  end.

(** What PostgreSQL has checked of a stored booking: [date] is a day of
    the calendar, [client_email] and [name] have at most 255 characters,
    [meeting_link] at most 500. *)
Definition booking_fits_columns (r : Booking.row) : Prop :=
  Sql.cast_date (Booking.date r) = Some (Booking.date r)
  /\ (String.length (Booking.client_email r) <= 255)%nat
  /\ (String.length (Booking.name r) <= 255)%nat
  /\ (forall l, Booking.meeting_link r = Some l -> (String.length l <= 500)%nat).

(** The same of a [createBooking] request. *)
Definition request_fits_columns (data : BookingData.t) : Prop :=
  Sql.cast_date (BookingData.date data) = Some (BookingData.date data)
  /\ (String.length (BookingData.client_email data) <= 255)%nat
  /\ (String.length (BookingData.name data) <= 255)%nat
  /\ (forall l, BookingData.meeting_link data = Some l -> (String.length l <= 500)%nat).

(** The payload names none of the columns an [UPDATE] of [bookings] can
    assign. *)
Definition names_no_column (data : BookingUpdate.t) : Prop :=
  BookingUpdate.client_email data = None
  /\ BookingUpdate.name data = None
  /\ BookingUpdate.additional_notes data = None
  /\ BookingUpdate.start_time data = None
  /\ BookingUpdate.end_time data = None
  /\ BookingUpdate.date data = None
  /\ BookingUpdate.meeting_link data = None
  /\ BookingUpdate.booking_status data = None.

(** The texts an [updateBooking] payload supplies fit the columns. *)
Definition update_fits_columns (data : BookingUpdate.t) : Prop :=
  (forall v, BookingUpdate.client_email data = Some v -> (String.length v <= 255)%nat)
  /\ (forall v, BookingUpdate.name data = Some v -> (String.length v <= 255)%nat)
  /\ (forall v, BookingUpdate.meeting_link data = Some v -> (String.length v <= 500)%nat).

(** A [createEventType] request fits [event_types]: [name] and [url_slug]
    have at most 255 characters, [duration] and [user_id] are within
    [INTEGER]. *)
Definition event_type_fits_columns (data : EventTypeData.t) : Prop :=
  (String.length (EventTypeData.name data) <= 255)%nat
  /\ (forall s, EventTypeData.url_slug data = Some s -> (String.length s <= 255)%nat)
  /\ -2147483648 <= EventTypeData.duration data <= 2147483647
  /\ (forall u, EventTypeData.user_id data = Some u -> -2147483648 <= u <= 2147483647).

End Props.

(* ================================================================== *)
(** ** Concrete states, built by running the services *)

Module Scenario.
Import Pg.

(** The database a computation leaves behind, and whether it returned. *)
Definition after {A} (m : M A) (db : DB) : DB := snd (m db).

Definition returned {A} (m : M A) (db : DB) : bool :=
  match fst (m db) with
  | Ok _ => true
  | Throw _ => false
  end.

(** Event type ["30min"], created on the empty database without an
    [availability_id]. *)
Definition thirty_min : EventTypeData.t :=
  EventTypeData.mk "30min" None 30 None None None.

Definition with_event_type : DB :=
  after (EventTypeService.createEventType thirty_min) Pg.empty.

(** A second event type, created once an availability exists. *)
Definition one_hour : EventTypeData.t :=
  EventTypeData.mk "1-hour" None 60 None None None.

(** A booking request for event type 1 on 2025-01-15; instants are
    written as minutes of that day (600 is 10:00). *)
Definition request (start_time end_time : Z) : BookingData.t :=
  BookingData.mk 1 "a@b.com" "A" None start_time end_time "2025-01-15" None None.

(** The same request against an event type that does not exist. *)
Definition orphan_request : BookingData.t :=
  BookingData.mk 7 "a@b.com" "A" None 620 610 "2025-01-15" None None.

(** An update whose payload carries [booking_status] only. *)
Definition set_status (s : Status) : BookingUpdate.t :=
  BookingUpdate.mk None None None None None None None None (Some s).

(** An update whose payload restates the times of booking 1. *)
Definition same_times : BookingUpdate.t :=
  BookingUpdate.mk None None None None (Some 600) (Some 630) None None None.

(** An update whose payload carries [event_type_id] only. *)
Definition same_event_type : BookingUpdate.t :=
  BookingUpdate.mk (Some 1) None None None None None None None None.

(** An update with a new contact, a note, an empty [meeting_link], the
    status [pending], and another [event_type_id]. *)
Definition new_contact : BookingUpdate.t :=
  BookingUpdate.mk (Some 7) (Some "c@d.com"%string) (Some "C"%string)
    (Some "slides"%string) None None None (Some EmptyString) (Some pending).

(** Booking 1, 10:00-10:30. *)
Definition booking_1 (s : Status) : Booking.row :=
  Booking.mk 1 1 "a@b.com" "A" None 600 630 "2025-01-15" None s.

(** Booking 2, 10:15-10:45. *)
Definition booking_2 : Booking.row :=
  Booking.mk 2 1 "a@b.com" "A" None 615 645 "2025-01-15" None confirmed.

Definition one_booking : DB :=
  after (BookingsService.createBooking (request 600 630)) with_event_type.

(** Booking 1 is cancelled. *)
Definition one_cancelled : DB :=
  after (BookingsService.updateBooking 1 (set_status cancelled)) one_booking.

(** Booking 2 takes the slot booking 1 has freed. *)
Definition slot_retaken : DB :=
  after (BookingsService.createBooking (request 615 645)) one_cancelled.

(** Booking 1 is set back to [confirmed]. *)
Definition reactivated : DB :=
  after (BookingsService.updateBooking 1 (set_status confirmed)) slot_retaken.

(** An update payload whose only interval has [day_of_week = 9]. *)
Definition day_nine : AvailabilityUpdate.t :=
  AvailabilityUpdate.mk None None (Some [IntervalData.mk 9 "09:00:00" "17:00:00"]).

(** A create payload whose second interval ends before it starts. *)
Definition backwards : AvailabilityData.t :=
  AvailabilityData.mk "Office" None
    (Some [IntervalData.mk 1 "09:00:00" "17:00:00";
           IntervalData.mk 2 "17:00:00" "09:00:00"]).

(** A create payload with one-digit hours, 10:00 to 9:00, and the state
    the create leaves on the empty database. *)
Definition ten_to_nine : AvailabilityData.t :=
  AvailabilityData.mk "Odd" None (Some [IntervalData.mk 1 "10:00:00" "9:00:00"]).

Definition with_odd_hours : DB :=
  after (AvailabilityService.createAvailability ten_to_nine) Pg.empty.

(** Update payloads for availability 1: a new name with two windows on
    Monday; the same name with a second interval the table refuses. *)
Definition office_hours : AvailabilityUpdate.t :=
  AvailabilityUpdate.mk (Some "Office"%string) None
    (Some [IntervalData.mk 1 "09:00:00" "12:00:00";
           IntervalData.mk 1 "13:00:00" "17:00:00"]).

Definition refused_batch : AvailabilityUpdate.t :=
  AvailabilityUpdate.mk (Some "Office"%string) None
    (Some [IntervalData.mk 1 "09:00:00" "12:00:00";
           IntervalData.mk 9 "13:00:00" "17:00:00"]).

Definition rename_only : AvailabilityUpdate.t :=
  AvailabilityUpdate.mk (Some "Office"%string) None None.

(** An update that carries a new [timezone] only. *)
Definition berlin_time : AvailabilityUpdate.t :=
  AvailabilityUpdate.mk None (Some "Europe/Berlin"%string) None.

Definition with_office_hours : DB :=
  after (AvailabilityModel.updateAvailability 1 office_hours) with_event_type.

(** An interval update that supplies [start_time] only. *)
Definition start_at_23 : IntervalUpdate.t :=
  IntervalUpdate.mk None (Some "23:00:00"%string) None.

Definition start_moved : DB :=
  after (AvailabilityService.updateInterval 1 start_at_23) with_event_type.

(** Two event types: the first is named ["intro"] (slug ["welcome"]), the
    second has the slug ["intro"] (name ["chat"]). *)
Definition intro : EventTypeData.t :=
  EventTypeData.mk "intro" None 30 (Some "welcome"%string) None None.

Definition chat : EventTypeData.t :=
  EventTypeData.mk "chat" None 15 (Some "intro"%string) None None.

Definition two_event_types : DB :=
  after (EventTypeService.createEventType chat)
        (after (EventTypeService.createEventType intro) Pg.empty).

(** An event-type update with a new name, description and duration that
    clears [availability_id]. *)
Definition intro_call : EventTypeUpdate.t :=
  EventTypeUpdate.mk (Some "intro-call"%string) (Some "First call"%string) (Some 45)
    None None (Some None).

(** A step that meets a deadlock on its first two attempts; the state
    counts the attempts made. *)
Definition deadlocks_twice (attempts : nat) : (nat + SetupDatabase.error) * nat :=
  if Nat.ltb attempts 2
  then (inr (SetupDatabase.mkError (Some "40P01"%string) (Some "deadlock detected"%string)),
        S attempts)
  else (inl attempts, S attempts).

End Scenario.

(* ================================================================== *)
(** ** Proof machinery *)

Ltac unfold_monad :=
  unfold Pg.wrap500, Pg.all500, Pg.try_catch, Pg.transaction, Pg.bind, Pg.query,
         Pg.throw, Pg.ret in *.

(* ================================================================== *)
(** ** Lemmas on the building blocks *)

Lemma Status_eqb_eq (a b : Status) : Status_eqb a b = true <-> a = b.
Proof. destruct a, b; simpl; split; intro H; congruence. Qed.

Lemma Status_eqb_neq (a b : Status) : Status_eqb a b = false <-> a <> b.
Proof. destruct a, b; simpl; split; intro H; congruence. Qed.

(** [rows.length > 0] for a filtered table: some row passes the filter. *)
Lemma nonempty_filter {A} (p : A -> bool) (l : list A) :
  Nat.ltb 0 (List.length (filter p l)) = true <-> exists x, In x l /\ p x = true.
Proof.
  induction l as [|a l IH]; simpl.
  - split; [discriminate | intros [x [[] _]]].
  - destruct (p a) eqn:Ha; simpl.
    + split; [intros _; exists a; auto | reflexivity].
    + rewrite IH. split.
      * intros [x [Hin Hx]]. exists x; auto.
      * intros [x [[->|Hin] Hx]]; [congruence | exists x; auto].
Qed.

(** The three disjuncts of the query describe half-open overlap as soon
    as both ranges are well ordered. *)
Lemma three_disjuncts_overlap (S E s e : Z) :
  S < E -> s < e ->
  (((s <=? S) && (e >? S)) || ((s <? E) && (e >=? E)) || ((s >=? S) && (e <=? E))) = true
  <-> (S < e /\ E > s).
Proof.
  intros HSE Hse.
  rewrite !orb_true_iff, !andb_true_iff.
  rewrite !Z.leb_le, !Z.ltb_lt, !Z.geb_le, !Z.gtb_lt.
  lia.
Qed.

(** [checkConflict] row by row: what the [WHERE] clause accepts. *)
Lemma conflicts_true_iff (eventTypeId : Z) (date : string) (S E : Z)
    (ex : option Z) (r : Booking.row) :
  S < E -> Booking.start_time r < Booking.end_time r -> 0 < Booking.id r ->
  BookingsModel.conflicts eventTypeId date S E ex r = true
  <-> Props.conflicting_row eventTypeId date S E ex r.
Proof.
  intros HSE Hr Hid.
  unfold BookingsModel.conflicts, Props.conflicting_row, Props.overlaps.
  rewrite !andb_true_iff, three_disjuncts_overlap by assumption.
  rewrite Z.eqb_eq, String.eqb_eq, negb_true_iff, Status_eqb_neq.
  assert (Hex : (if Js.truthy_opt_num ex
                 then match ex with
                      | Some x => negb (Z.eqb (Booking.id r) x)
                      | None => true
                      end
                 else true) = true
                <-> (forall x, ex = Some x -> Booking.id r <> x)).
  { destruct ex as [x|]; simpl.
    - unfold Js.truthy_num. destruct (Z.eqb_spec x 0) as [->|Hx]; simpl.
      + split; [intros _ y Hy; inversion Hy; lia | reflexivity].
      + rewrite negb_true_iff, Z.eqb_neq. split.
        * intros H y Hy. inversion Hy. subst. assumption.
        * intros H. apply H. reflexivity.
    - split; [intros _ y Hy; discriminate | reflexivity]. }
  rewrite Hex. tauto.
Qed.

(* ================================================================== *)
(** ** The conflict predicate *)

(** [checkConflict] on a well-formed table, for a well-ordered candidate:
    the rows the query returns are the conflicting rows. *)
Lemma checkConflict_true_iff (db : Pg.DB) (eventTypeId : Z) (date : string)
    (S E : Z) (excludeBookingId : option Z) :
  S < E ->
  Props.bookings_well_formed db ->
  BookingsModel.checkConflict eventTypeId date S E excludeBookingId db = true
  <-> exists r, In r (Pg.bookings (Pg.tables db))
                /\ Props.conflicting_row eventTypeId date S E excludeBookingId r.
Proof.
  intros HSE Hwf. unfold BookingsModel.checkConflict.
  rewrite nonempty_filter. split.
  - intros [r [Hin Hr]]. exists r. split; [assumption|].
    destruct (Hwf r Hin) as [Hid Hord].
    apply conflicts_true_iff in Hr; assumption.
  - intros [r [Hin Hr]]. exists r. split; [assumption|].
    destruct (Hwf r Hin) as [Hid Hord].
    apply conflicts_true_iff; assumption.
Qed.

(** C1. For every stored set of bookings (well formed: serial ids, start
    before end) and every candidate request with [start_time < end_time],
    [checkConflict] answers [true] exactly when some stored booking has
    the same [event_type_id] and [date], is not cancelled, is not the
    excluded id when one is given, and overlaps the candidate under
    half-open semantics. *)
Theorem checkConflict_iff_overlap (db : Pg.DB) (eventTypeId : Z) (date : string)
    (S E : Z) (excludeBookingId : option Z) :
  S < E ->
  Props.bookings_well_formed db ->
  BookingsModel.checkConflict eventTypeId date S E excludeBookingId db = true
  <-> exists r, In r (Pg.bookings (Pg.tables db))
                /\ Props.conflicting_row eventTypeId date S E excludeBookingId r.
Proof.
  intros HSE Hwf. split.
  - intros H. apply (proj1 (checkConflict_true_iff db eventTypeId date S E
                              excludeBookingId HSE Hwf)). exact H.
  - intros H. apply (proj2 (checkConflict_true_iff db eventTypeId date S E
                              excludeBookingId HSE Hwf)). exact H.
Qed.


(** The states of [Scenario] are reached by calls that all return. *)
Lemma scenario_calls_return :
  Scenario.returned (EventTypeService.createEventType Scenario.thirty_min) Pg.empty = true
  /\ Scenario.returned (BookingsService.createBooking (Scenario.request 600 630))
       Scenario.with_event_type = true
  /\ Scenario.returned (BookingsService.updateBooking 1 (Scenario.set_status cancelled))
       Scenario.one_booking = true
  /\ Scenario.returned (BookingsService.createBooking (Scenario.request 615 645))
       Scenario.one_cancelled = true
  /\ Scenario.returned (BookingsService.updateBooking 1 (Scenario.set_status confirmed))
       Scenario.slot_retaken = true.
Proof. repeat split; vm_compute; reflexivity. Qed.

(** C1 on the table that holds booking 1 (10:00-10:30), for the candidate
    10:15-10:45. *)
Lemma checkConflict_iff_overlap_witness :
  BookingsModel.checkConflict 1 "2025-01-15" 615 645 None Scenario.one_booking = true
  <-> exists r, In r (Pg.bookings (Pg.tables Scenario.one_booking))
                /\ Props.conflicting_row 1 "2025-01-15" 615 645 None r.
Proof.
  apply checkConflict_iff_overlap.
  - lia.
  - intros r Hin. vm_compute in Hin.
    destruct Hin as [<-|[]]. simpl. lia.
Defined.

(* ================================================================== *)
(** ** The no-double-booking invariant *)

(** C2. The invariant holds in the state where booking 1 (10:00-10:30) is
    cancelled and booking 2 (10:15-10:45) has taken the slot; the update
    of booking 1 whose payload is [{booking_status: 'confirmed'}] returns,
    and the state it leaves has two confirmed bookings that overlap. *)
Theorem status_only_update_double_books :
  Props.no_double_booking Scenario.slot_retaken
  /\ (exists r,
        BookingsService.updateBooking 1 (Scenario.set_status confirmed) Scenario.slot_retaken
        = (Pg.Ok r, Scenario.reactivated))
  /\ ~ Props.no_double_booking Scenario.reactivated.
Proof.
  split; [|split].
  - intros a b Ha Hb. vm_compute in Ha, Hb.
    destruct Ha as [<-|[<-|[]]]; destruct Hb as [<-|[<-|[]]]; simpl; congruence.
  - eexists. vm_compute. reflexivity.
  - intros H.
    apply (H (Scenario.booking_1 confirmed) Scenario.booking_2).
    + vm_compute. left. reflexivity.
    + vm_compute. right. left. reflexivity.
    + simpl. lia.
    + reflexivity.
    + reflexivity.
    + discriminate.
    + discriminate.
    + unfold Props.overlaps. simpl. lia.
Qed.

(* ================================================================== *)
(** ** Where the invariant is kept *)

(** What a returning [INSERT] into [bookings] has done. *)
Lemma insert_booking_returns (event_type_id : Z) (client_email name : string)
    (additional_notes : option string) (start_time end_time : Z) (date : string)
    (meeting_link : option string) (booking_status : Status)
    (db db' : Pg.DB) (r : Booking.row) :
  Sql.insert_booking event_type_id client_email name additional_notes start_time
    end_time date meeting_link booking_status db = (Pg.Ok r, db') ->
  r = Booking.mk (Pg.bookings_id_seq (Pg.sequences db)) event_type_id client_email name
        additional_notes start_time end_time date meeting_link booking_status
  /\ Pg.bookings (Pg.tables db') = Pg.bookings (Pg.tables db) ++ [r].
Proof.
  unfold Sql.insert_booking, Sql.nextval_bookings. cbv zeta iota beta. simpl Pg.tables.
  repeat match goal with
         | |- context [if ?c then _ else _] => destruct c
         end; intros H; inversion H; subst. split; reflexivity.
Qed.

(** A refused [INSERT] leaves the tables alone. *)
Lemma insert_booking_throws (event_type_id : Z) (client_email name : string)
    (additional_notes : option string) (start_time end_time : Z) (date : string)
    (meeting_link : option string) (booking_status : Status)
    (db db' : Pg.DB) (e : Pg.exn) :
  Sql.insert_booking event_type_id client_email name additional_notes start_time
    end_time date meeting_link booking_status db = (Pg.Throw e, db') ->
  Pg.tables db' = Pg.tables db.
Proof.
  unfold Sql.insert_booking, Sql.nextval_bookings. cbv zeta iota beta. simpl Pg.tables.
  repeat match goal with
         | |- context [if ?c then _ else _] => destruct c
         end; intros H; inversion H; subst; reflexivity.
Qed.

(** The invariant reads the table [bookings] only. *)
Lemma no_double_booking_same_table (db db' : Pg.DB) :
  Pg.bookings (Pg.tables db') = Pg.bookings (Pg.tables db) ->
  Props.no_double_booking db -> Props.no_double_booking db'.
Proof. unfold Props.no_double_booking. intros ->. auto. Qed.

(** [createBooking] keeps the invariant, whether it returns or throws. *)
Lemma createBooking_keeps_no_double_booking (db db' : Pg.DB) (data : BookingData.t)
    (res : Pg.result BookingsService.enriched) :
  Props.bookings_well_formed db ->
  Props.no_double_booking db ->
  BookingsService.createBooking data db = (res, db') ->
  Props.no_double_booking db'.
Proof.
  intros Hwf Hinv. unfold BookingsService.createBooking. unfold_monad.
  destruct (EventTypeModel.findById (BookingData.event_type_id data) db);
    [|intros H; inversion H; subst; assumption].
  destruct (BookingsModel.checkConflict _ _ _ _ None db) eqn:Hc;
    [intros H; inversion H; subst; assumption|].
  destruct (BookingData.start_time data >=? BookingData.end_time data) eqn:Hord;
    [intros H; inversion H; subst; assumption|].
  rewrite Z.geb_leb in Hord. apply Z.leb_gt in Hord.
  unfold BookingsModel.createBooking.
  match goal with
  | |- context [Sql.insert_booking ?a ?b ?c ?d ?e ?f ?g ?h ?i db] =>
      destruct (Sql.insert_booking a b c d e f g h i db) as [[row|x] db1] eqn:Hins
  end.
  - intros H. inversion H; subst; clear H.
    apply insert_booking_returns in Hins. destruct Hins as [Hr Hrows].
    assert (Hnew : forall o, In o (Pg.bookings (Pg.tables db)) ->
                     Booking.event_type_id o = Booking.event_type_id row ->
                     Booking.date o = Booking.date row ->
                     Booking.booking_status o <> cancelled ->
                     ~ Props.overlaps (Booking.start_time row) (Booking.end_time row) o).
    { intros o Ho HE HD Hs Hov.
      assert (Htrue : BookingsModel.checkConflict (BookingData.event_type_id data)
                        (BookingData.date data) (BookingData.start_time data)
                        (BookingData.end_time data) None db = true).
      { apply checkConflict_true_iff; [assumption | assumption |].
        exists o. split; [assumption|]. rewrite Hr in HE, HD, Hov. simpl in HE, HD, Hov.
        repeat split; try assumption; try discriminate; apply Hov. }
      congruence. }
    intros a b Ha Hb. rewrite Hrows in Ha, Hb.
    apply in_app_or in Ha. apply in_app_or in Hb.
    destruct Ha as [Ha|[<-|[]]]; destruct Hb as [Hb|[<-|[]]].
    + apply Hinv; assumption.
    + intros _ HE HD Hsa _ Hov.
      apply (Hnew a Ha HE HD Hsa). unfold Props.overlaps in *. lia.
    + intros _ HE HD _ Hsb. apply (Hnew b Hb); [symmetry; assumption | symmetry; assumption | assumption].
    + intros Hid. congruence.
  - intros H. apply insert_booking_throws in Hins.
    assert (db' = db1) by (destruct x; inversion H; reflexivity). subst db'.
    apply (no_double_booking_same_table db db1); [rewrite Hins; reflexivity | assumption].
Qed.

(** [deleteBooking] keeps it as well. *)
Lemma deleteBooking_keeps_no_double_booking (db db' : Pg.DB) (id : Z)
    (res : Pg.result Booking.row) :
  Props.no_double_booking db ->
  BookingsService.deleteBooking id db = (res, db') ->
  Props.no_double_booking db'.
Proof.
  intros Hinv. unfold BookingsService.deleteBooking. unfold_monad.
  destruct (BookingsModel.findById id db);
    [|intros H; inversion H; subst; assumption].
  unfold BookingsModel.deleteBooking, Sql.delete_booking.
  intros H.
  assert (Hrows : Pg.bookings (Pg.tables db')
                  = filter (fun r => negb (Z.eqb (Booking.id r) id))
                           (Pg.bookings (Pg.tables db))).
  { destruct (find _ (Pg.bookings (Pg.tables db))); inversion H; reflexivity. }
  intros a b Ha Hb. rewrite Hrows in Ha, Hb.
  apply filter_In in Ha. apply filter_In in Hb.
  apply Hinv; [apply Ha | apply Hb].
Qed.

(** What an [updateBooking] that changed the database went through: the
    booking existed, the conflict check, if it ran, found nothing, the
    ordering check passed, and the one row was assigned. *)
Lemma updateBooking_effect (db db' : Pg.DB) (id : Z) (data : BookingUpdate.t)
    (res : Pg.result BookingsService.enriched) :
  BookingsService.updateBooking id data db = (res, db') ->
  db' = db
  \/ exists existing,
       BookingsModel.findById id db = Some existing
       /\ (BookingsService.touches_slot data = true ->
           BookingsModel.checkConflict
             (Js.or_num (BookingUpdate.event_type_id data) (Booking.event_type_id existing))
             (Js.or_str (BookingUpdate.date data) (Booking.date existing))
             (Booking.start_time (BookingsModel.assign data existing))
             (Booking.end_time (BookingsModel.assign data existing))
             (Some id) db = false)
       /\ (Booking.start_time existing < Booking.end_time existing ->
           Booking.start_time (BookingsModel.assign data existing)
           < Booking.end_time (BookingsModel.assign data existing))
       /\ Pg.bookings (Pg.tables db')
          = map (fun o => if Z.eqb (Booking.id o) id
                          then BookingsModel.assign data existing else o)
                (Pg.bookings (Pg.tables db)).
Proof.
  unfold BookingsService.updateBooking. unfold_monad.
  destruct (BookingsModel.findById id db) as [existing|] eqn:Hfind;
    [|intros H; inversion H; left; reflexivity].
  unfold BookingsModel.findById in Hfind.
  unfold BookingsModel.updateBooking, Sql.update_booking, Pg.throw.
  destruct (BookingsService.touches_slot data) eqn:Ht; cbv beta iota;
    [destruct (BookingsModel.checkConflict _ _ _ _ (Some id) db) eqn:Hc; cbv beta iota;
       [intros H; inversion H; left; reflexivity|] |];
    (destruct (BookingUpdate.start_time data) as [s|] eqn:Hs,
              (BookingUpdate.end_time data) as [e|] eqn:He; cbv beta iota;
     try match goal with
         | |- context [?x >=? ?y] =>
             destruct (Z.geb_spec x y) as [Hge|Hlt]; cbv beta iota;
               [intros H; inversion H; left; reflexivity|]
         end;
     (destruct (BookingsModel.has_updates data); cbv beta iota;
        [|intros H; inversion H; left; reflexivity]);
     rewrite Hfind; cbv zeta;
     repeat match goal with
            | |- context [if ?c then _ else _] =>
                destruct c; [intros H; inversion H; left; reflexivity|]
            end;
     intros H; inversion H; subst; clear H; right;
     exists existing; simpl Booking.start_time; simpl Booking.end_time;
     rewrite ?Hs, ?He;
     repeat split; try reflexivity; try discriminate; try (intros; assumption);
     try (intros; lia)).
Qed.

(** [updateBooking] keeps the invariant whenever the conflict check runs
    on the slot the row ends up with (no [event_type_id] in the payload,
    which the [UPDATE] would not assign), or, when the check is skipped,
    the update does not bring a cancelled booking back. *)
Lemma updateBooking_keeps_no_double_booking (db db' : Pg.DB) (id : Z)
    (data : BookingUpdate.t) (res : Pg.result BookingsService.enriched) :
  Props.bookings_well_formed db ->
  Props.primary_key db ->
  Props.no_double_booking db ->
  BookingUpdate.event_type_id data = None ->
  BookingUpdate.date data <> Some EmptyString ->
  (BookingsService.touches_slot data = true
   \/ forall b, BookingsModel.findById id db = Some b ->
        Booking.booking_status b = cancelled ->
        Booking.booking_status (BookingsModel.assign data b) = cancelled) ->
  BookingsService.updateBooking id data db = (res, db') ->
  Props.no_double_booking db'.
Proof.
  intros Hwf Hpk Hinv HnoE Hdate Hsafe H.
  destruct (updateBooking_effect db db' id data res H)
    as [-> | [existing [Hfind [Hcheck [Hord Hrows]]]]]; [assumption|].
  pose proof Hfind as Hex. unfold BookingsModel.findById in Hex.
  apply find_some in Hex. destruct Hex as [Hexin Hexid]. apply Z.eqb_eq in Hexid.
  destruct (Hwf existing Hexin) as [_ Hexord]. specialize (Hord Hexord).
  set (r := BookingsModel.assign data existing) in *.
  assert (HrE : Booking.event_type_id r = Booking.event_type_id existing) by reflexivity.
  assert (Hrid : Booking.id r = id) by (simpl; assumption).
  assert (HrD : Booking.date r = Js.or_str (BookingUpdate.date data) (Booking.date existing)).
  { simpl. destruct (BookingUpdate.date data) as [d|]; [|reflexivity].
    unfold Js.or_str, Js.truthy_str.
    destruct (String.eqb_spec d EmptyString); [subst; congruence | reflexivity]. }
  assert (K : forall o, In o (Pg.bookings (Pg.tables db)) ->
                Booking.id o <> id ->
                Booking.booking_status o <> cancelled ->
                Booking.booking_status r <> cancelled ->
                Booking.event_type_id o = Booking.event_type_id r ->
                Booking.date o = Booking.date r ->
                ~ Props.overlaps (Booking.start_time r) (Booking.end_time r) o).
  { intros o Ho Hoid Hos Hrs HoE HoD Hov.
    destruct (BookingsService.touches_slot data) eqn:Ht.
    - specialize (Hcheck eq_refl). rewrite HnoE in Hcheck. simpl Js.or_num in Hcheck.
      assert (Htrue : BookingsModel.checkConflict (Booking.event_type_id existing)
                        (Js.or_str (BookingUpdate.date data) (Booking.date existing))
                        (Booking.start_time r) (Booking.end_time r) (Some id) db = true).
      { apply checkConflict_true_iff; [assumption | assumption |].
        exists o. split; [assumption|].
        repeat split; try assumption; try congruence; apply Hov. }
      rewrite Htrue in Hcheck. discriminate.
    - destruct Hsafe as [Hs|Hs]; [discriminate|].
      unfold BookingsService.touches_slot in Ht.
      apply orb_false_iff in Ht. destruct Ht as [Ht _].
      apply orb_false_iff in Ht. destruct Ht as [Ht HtD].
      apply orb_false_iff in Ht. destruct Ht as [HtS HtE].
      assert (Hst : Booking.start_time r = Booking.start_time existing).
      { simpl. destruct (BookingUpdate.start_time data); [discriminate|reflexivity]. }
      assert (Hen : Booking.end_time r = Booking.end_time existing).
      { simpl. destruct (BookingUpdate.end_time data); [discriminate|reflexivity]. }
      assert (Hdt : Booking.date r = Booking.date existing).
      { rewrite HrD. unfold Js.or_str. unfold Js.truthy_opt_str in HtD.
        destruct (BookingUpdate.date data) as [d|]; [|reflexivity].
        rewrite HtD. reflexivity. }
      assert (Hexs : Booking.booking_status existing <> cancelled).
      { intros Hc. apply Hrs. apply (Hs existing Hfind Hc). }
      rewrite Hst, Hen in Hov.
      apply (Hinv existing o Hexin Ho); try assumption; try congruence. }
  intros a' b' Ha' Hb'. rewrite Hrows in Ha', Hb'.
  apply in_map_iff in Ha'. destruct Ha' as [a [Hfa Ha]].
  apply in_map_iff in Hb'. destruct Hb' as [b [Hfb Hb]].
  destruct (Z.eqb_spec (Booking.id a) id) as [Haid|Haid];
    destruct (Z.eqb_spec (Booking.id b) id) as [Hbid|Hbid]; subst a' b'.
  - intros Hne. congruence.
  - intros _ HE HD Hsa Hsb. apply (K b Hb Hbid Hsb Hsa); congruence.
  - intros _ HE HD Hsa Hsb Hov.
    apply (K a Ha Haid Hsa Hsb); try congruence.
    unfold Props.overlaps in *. lia.
  - apply Hinv; assumption.
Qed.

(* ================================================================== *)
(** ** Booking creation *)

(** C3. [createBooking] checks existence, then conflict, then ordering: a
    request whose event type exists, that conflicts according to
    [checkConflict] and whose [start_time >= end_time] fails with 409, and
    a request whose event type does not exist fails with 404 whatever its
    times are; the database is left as it was. *)
Theorem createBooking_check_order (db : Pg.DB) (data : BookingData.t) :
  (EventTypeModel.findById (BookingData.event_type_id data) db <> None ->
   BookingsModel.checkConflict (BookingData.event_type_id data) (BookingData.date data)
     (BookingData.start_time data) (BookingData.end_time data) None db = true ->
   BookingData.start_time data >= BookingData.end_time data ->
   BookingsService.createBooking data db = (Pg.Throw (Pg.CustomError 409), db))
  /\ (EventTypeModel.findById (BookingData.event_type_id data) db = None ->
      BookingsService.createBooking data db = (Pg.Throw (Pg.CustomError 404), db)).
Proof.
  unfold BookingsService.createBooking. unfold_monad. split.
  - intros Hex Hc _.
    destruct (EventTypeModel.findById (BookingData.event_type_id data) db);
      [|congruence].
    rewrite Hc. reflexivity.
  - intros ->. reflexivity.
Qed.

(** C3 on the table that holds booking 1: a request for 10:20-10:10 on
    the same event type, and the same request on event type 7. *)
Lemma createBooking_check_order_witness :
  BookingsService.createBooking (Scenario.request 620 610) Scenario.one_booking
  = (Pg.Throw (Pg.CustomError 409), Scenario.one_booking)
  /\ BookingsService.createBooking Scenario.orphan_request Scenario.one_booking
     = (Pg.Throw (Pg.CustomError 404), Scenario.one_booking).
Proof.
  split.
  - apply (proj1 (createBooking_check_order Scenario.one_booking (Scenario.request 620 610))).
    + vm_compute. discriminate.
    + vm_compute. reflexivity.
    + simpl. lia.
  - apply (proj2 (createBooking_check_order Scenario.one_booking Scenario.orphan_request)).
    vm_compute. reflexivity.
Defined.

(** What [createBooking] can throw once the event type exists and no
    conflict is found: 400 from the ordering check, or 500 around an
    error of the [INSERT]. *)
Lemma createBooking_without_conflict (db : Pg.DB) (data : BookingData.t) :
  BookingsModel.checkConflict (BookingData.event_type_id data) (BookingData.date data)
    (BookingData.start_time data) (BookingData.end_time data) None db = false ->
  fst (BookingsService.createBooking data db) <> Pg.Throw (Pg.CustomError 409).
Proof.
  intros Hc. unfold BookingsService.createBooking. unfold_monad.
  destruct (EventTypeModel.findById (BookingData.event_type_id data) db);
    [|simpl; congruence].
  rewrite Hc.
  destruct (BookingData.start_time data >=? BookingData.end_time data);
    [simpl; congruence|].
  unfold BookingsModel.createBooking, Sql.insert_booking.
  destruct (Sql.nextval_bookings db) as [i db1].
  repeat match goal with
         | |- context [if ?c then _ else _] => destruct c
         end; simpl; congruence.
Qed.

(** Cancelled rows are invisible to the conflict query. *)
Lemma checkConflict_without_cancelled (db : Pg.DB) (eventTypeId : Z) (date : string)
    (S E : Z) (ex : option Z) :
  BookingsModel.checkConflict eventTypeId date S E ex db
  = BookingsModel.checkConflict eventTypeId date S E ex (Props.without_cancelled db).
Proof.
  unfold BookingsModel.checkConflict, Props.without_cancelled. simpl.
  f_equal. f_equal.
  induction (Pg.bookings (Pg.tables db)) as [|r l IH]; simpl; [reflexivity|].
  destruct (Status_eqb (Booking.booking_status r) cancelled) eqn:Hs; simpl.
  - replace (BookingsModel.conflicts eventTypeId date S E ex r) with false; [assumption|].
    unfold BookingsModel.conflicts. rewrite Hs. simpl.
    rewrite !andb_false_r. reflexivity.
  - rewrite IH. reflexivity.
Qed.

(** C4. When a cancelled booking holds [E, D, S, Ee] and no non-cancelled
    booking of [E] and [D] overlaps [[S, Ee)], [createBooking] with the
    identical [E, D, S, Ee] does not fail with 409; and for any candidate
    whatever, [checkConflict] answers as it does on the table with its
    cancelled rows removed. *)
Theorem cancelled_bookings_free_their_slot :
  (forall (db : Pg.DB) (data : BookingData.t) (c : Booking.row),
     Props.bookings_well_formed db ->
     In c (Pg.bookings (Pg.tables db)) ->
     Booking.booking_status c = cancelled ->
     Booking.event_type_id c = BookingData.event_type_id data ->
     Booking.date c = BookingData.date data ->
     Booking.start_time c = BookingData.start_time data ->
     Booking.end_time c = BookingData.end_time data ->
     (forall r, In r (Pg.bookings (Pg.tables db)) ->
        Booking.booking_status r <> cancelled ->
        Booking.event_type_id r = BookingData.event_type_id data ->
        Booking.date r = BookingData.date data ->
        ~ Props.overlaps (BookingData.start_time data) (BookingData.end_time data) r) ->
     fst (BookingsService.createBooking data db) <> Pg.Throw (Pg.CustomError 409))
  /\ (forall (db : Pg.DB) (eventTypeId : Z) (date : string) (S E : Z) (ex : option Z),
        BookingsModel.checkConflict eventTypeId date S E ex db
        = BookingsModel.checkConflict eventTypeId date S E ex (Props.without_cancelled db)).
Proof.
  split; [|exact checkConflict_without_cancelled].
  intros db data c Hwf Hc Hst HE HD HS HEe Hfree.
  apply createBooking_without_conflict.
  destruct (BookingsModel.checkConflict _ _ _ _ None db) eqn:Hchk; [|reflexivity].
  exfalso.
  apply checkConflict_true_iff in Hchk.
  - destruct Hchk as [r [Hin [HrE [HrD [Hrs [_ Hov]]]]]].
    exact (Hfree r Hin Hrs HrE HrD Hov).
  - rewrite <- HS, <- HEe. apply (Hwf c Hc).
  - assumption.
Qed.

(** C4 once booking 1 is cancelled, for a request with its very slot. *)
Lemma cancelled_bookings_free_their_slot_witness :
  fst (BookingsService.createBooking (Scenario.request 600 630) Scenario.one_cancelled)
  <> Pg.Throw (Pg.CustomError 409).
Proof.
  apply (proj1 cancelled_bookings_free_their_slot Scenario.one_cancelled
           (Scenario.request 600 630)
           (Scenario.booking_1 cancelled)).
  - intros r Hin. vm_compute in Hin. destruct Hin as [<-|[]]. simpl. lia.
  - vm_compute. left. reflexivity.
  - reflexivity.
  - reflexivity.
  - reflexivity.
  - reflexivity.
  - reflexivity.
  - intros r Hin. vm_compute in Hin. destruct Hin as [<-|[]]. simpl. congruence.
Defined.

(** In that state the insert itself is refused by
    [UNIQUE(event_type_id, date, start_time)], which the cancelled row
    still occupies: the call ends in 500, not in 409. *)
Lemma rebooking_identical_slot_hits_unique :
  fst (BookingsService.createBooking (Scenario.request 600 630) Scenario.one_cancelled)
  = Pg.Throw (Pg.CustomError 500).
Proof. vm_compute. reflexivity. Qed.

(* ================================================================== *)
(** ** Availability: validation before any write *)

(** The validation loop reads nothing and writes nothing. *)
Lemma validate_intervals_pure (l : list IntervalData.t) (db : Pg.DB) :
  AvailabilityService.validate_intervals l db = (Pg.Ok tt, db)
  \/ AvailabilityService.validate_intervals l db = (Pg.Throw (Pg.CustomError 400), db).
Proof.
  induction l as [|i l IH]; simpl.
  - left. reflexivity.
  - unfold Pg.throw.
    destruct ((IntervalData.day_of_week i <? 1) || (IntervalData.day_of_week i >? 7));
      [right; reflexivity|].
    destruct (Js.str_ge (IntervalData.start_time i) (IntervalData.end_time i));
      [right; reflexivity|].
    exact IH.
Qed.

(** One refused interval anywhere in the list makes the loop throw 400. *)
Lemma validate_intervals_rejects (l : list IntervalData.t) (db : Pg.DB) :
  Exists Props.rejected_interval l ->
  AvailabilityService.validate_intervals l db = (Pg.Throw (Pg.CustomError 400), db).
Proof.
  induction l as [|i l IH]; intros H; [inversion H|].
  simpl. unfold Pg.throw.
  destruct ((IntervalData.day_of_week i <? 1) || (IntervalData.day_of_week i >? 7)) eqn:Hd;
    [reflexivity|].
  destruct (Js.str_ge (IntervalData.start_time i) (IntervalData.end_time i)) eqn:Ht;
    [reflexivity|].
  inversion H as [x l' Hi | x l' Hl]; subst.
  - exfalso. apply orb_false_iff in Hd. destruct Hd as [Hlo Hhi].
    apply Z.ltb_ge in Hlo. rewrite Z.gtb_ltb in Hhi. apply Z.ltb_ge in Hhi.
    destruct Hi as [Hi | [Hi | Hi]]; [lia | lia | congruence].
  - apply IH. assumption.
Qed.

(** What the validation achieves.  A create whose [intervals] contains
    an interval the service's test refuses fails with 400 and leaves the
    database as it was; so does an update of an availability that exists;
    an update of an id that does not exist fails with 404 before its
    intervals are looked at, and also leaves the database as it was. *)
Lemma refused_intervals_fail_before_write (db : Pg.DB) :
  (forall (data : AvailabilityData.t) (ivs : list IntervalData.t),
     AvailabilityData.intervals data = Some ivs ->
     Exists Props.rejected_interval ivs ->
     AvailabilityService.createAvailability data db = (Pg.Throw (Pg.CustomError 400), db))
  /\ (forall (id : Z) (data : AvailabilityUpdate.t) (ivs : list IntervalData.t),
        AvailabilityModel.findById id db <> None ->
        AvailabilityUpdate.intervals data = Some ivs ->
        Exists Props.rejected_interval ivs ->
        AvailabilityService.updateAvailability id data db
        = (Pg.Throw (Pg.CustomError 400), db))
  /\ (forall (id : Z) (data : AvailabilityUpdate.t),
        AvailabilityModel.findById id db = None ->
        AvailabilityService.updateAvailability id data db
        = (Pg.Throw (Pg.CustomError 404), db)).
Proof.
  split; [|split].
  - intros data ivs Hivs Hbad.
    unfold AvailabilityService.createAvailability, AvailabilityService.validate_supplied.
    rewrite Hivs. unfold_monad.
    rewrite (validate_intervals_rejects ivs db Hbad). reflexivity.
  - intros id data ivs Hex Hivs Hbad.
    unfold AvailabilityService.updateAvailability, AvailabilityService.validate_supplied.
    rewrite Hivs. unfold_monad.
    destruct (AvailabilityModel.findById id db); [|congruence].
    rewrite (validate_intervals_rejects ivs db Hbad). reflexivity.
  - intros id data Hnone.
    unfold AvailabilityService.updateAvailability. unfold_monad.
    rewrite Hnone. reflexivity.
Qed.

(** An update of an id that does not exist: the payload carries a refused
    interval, yet the error is 404 and not 400, the existence check coming
    first. *)
Lemma update_unknown_availability_is_not_400 :
  Exists Props.rejected_interval [IntervalData.mk 9 "09:00:00" "17:00:00"]
  /\ AvailabilityUpdate.intervals Scenario.day_nine
     = Some [IntervalData.mk 9 "09:00:00" "17:00:00"]
  /\ fst (AvailabilityService.updateAvailability 99 Scenario.day_nine Scenario.with_event_type)
     = Pg.Throw (Pg.CustomError 404)
  /\ fst (AvailabilityService.updateAvailability 99 Scenario.day_nine Scenario.with_event_type)
     <> Pg.Throw (Pg.CustomError 400).
Proof.
  split; [|split; [|split]].
  - apply Exists_cons_hd. right. left. simpl. lia.
  - reflexivity.
  - vm_compute. reflexivity.
  - vm_compute. discriminate.
Qed.

(* ================================================================== *)
(** ** Interval inserts *)

(** What a returning [INSERT] into [availability_interval] has done. *)
Lemma insert_interval_returns (aid day : Z) (st en : string) (db db' : Pg.DB) (r : Interval.row) :
  Sql.insert_interval aid day st en db = (Pg.Ok r, db') ->
  exists t1 t2,
    Sql.cast_time st = Some t1 /\ Sql.cast_time en = Some t2
    /\ r = Interval.mk (Pg.availability_interval_id_seq (Pg.sequences db)) aid day t1 t2
    /\ Sql.day_check r = true
    /\ existsb (Sql.same_window r) (Pg.availability_interval (Pg.tables db)) = false
    /\ Sql.availability_exists aid db = true
    /\ db' = Sql.set_availability_interval
               (Pg.availability_interval (Pg.tables db) ++ [r])
               (snd (Sql.nextval_availability_interval db)).
Proof.
  unfold Sql.insert_interval.
  destruct (Sql.cast_time st) as [t1|]; [|discriminate].
  destruct (Sql.cast_time en) as [t2|]; [|discriminate].
  unfold Sql.nextval_availability_interval. cbv zeta iota beta.
  set (r0 := Interval.mk _ aid day t1 t2).
  destruct (Sql.day_check r0) eqn:Hd; simpl negb; cbv iota; [|discriminate].
  simpl Pg.tables.
  destruct (existsb (Sql.same_window r0) _) eqn:Hu; [discriminate|].
  unfold Sql.availability_exists at 1. simpl Pg.tables.
  destruct (existsb _ (Pg.availability (Pg.tables db))) eqn:Hf; simpl negb; cbv iota; [|discriminate].
  intros H. inversion H; subst. exists t1, t2.
  repeat split; try assumption; reflexivity.
Qed.

(** A refused [INSERT] leaves the tables alone. *)
Lemma insert_interval_throws (aid day : Z) (st en : string) (db db' : Pg.DB) (e : Pg.exn) :
  Sql.insert_interval aid day st en db = (Pg.Throw e, db') ->
  Pg.tables db' = Pg.tables db.
Proof.
  unfold Sql.insert_interval.
  destruct (Sql.cast_time st) as [t1|]; [|intros H; inversion H; reflexivity].
  destruct (Sql.cast_time en) as [t2|]; [|intros H; inversion H; reflexivity].
  unfold Sql.nextval_availability_interval. cbv zeta iota beta.
  repeat match goal with
         | |- context [if ?c then _ else _] => destruct c
         end; intros H; inversion H; reflexivity.
Qed.

(** When the [INSERT] goes through. *)
Lemma insert_interval_succeeds (aid day : Z) (st en : string) (t1 t2 : Z) (db : Pg.DB) :
  Sql.cast_time st = Some t1 -> Sql.cast_time en = Some t2 ->
  1 <= day <= 7 ->
  (forall o, In o (Pg.availability_interval (Pg.tables db)) ->
     Props.window o <> (aid, day, t1, t2)) ->
  Sql.availability_exists aid db = true ->
  let r := Interval.mk (Pg.availability_interval_id_seq (Pg.sequences db)) aid day t1 t2 in
  Sql.insert_interval aid day st en db
  = (Pg.Ok r,
     Sql.set_availability_interval
       (Pg.availability_interval (Pg.tables db) ++ [r])
       (snd (Sql.nextval_availability_interval db))).
Proof.
  intros H1 H2 Hday Hfresh Hex r.
  unfold Sql.insert_interval. rewrite H1, H2.
  unfold Sql.nextval_availability_interval. cbv zeta iota beta. fold r.
  assert (Hd : Sql.day_check r = true).
  { unfold Sql.day_check. simpl. apply andb_true_iff. rewrite !Z.leb_le. lia. }
  rewrite Hd. simpl negb. cbv iota. simpl Pg.tables.
  assert (Hu : existsb (Sql.same_window r) (Pg.availability_interval (Pg.tables db)) = false).
  { destruct (existsb _ _) eqn:E; [|reflexivity]. exfalso.
    apply existsb_exists in E. destruct E as [o [Hin Ho]].
    apply (Hfresh o Hin). unfold Sql.same_window in Ho. simpl in Ho.
    apply andb_true_iff in Ho. destruct Ho as [Ho H4].
    apply andb_true_iff in Ho. destruct Ho as [Ho H3].
    apply andb_true_iff in Ho. destruct Ho as [Ho1 Ho2].
    apply Z.eqb_eq in Ho1, Ho2, H3, H4. unfold Props.window. congruence. }
  rewrite Hu.
  unfold Sql.availability_exists in *. simpl Pg.tables. rewrite Hex. reflexivity.
Qed.

(** The insert loop of the model, when it returns, has appended one row
    per submitted interval, in order. *)
Lemma insert_intervals_returns (l : list IntervalData.t) (aid : Z) (db db' : Pg.DB) (u : unit) :
  AvailabilityModel.insert_intervals aid l db = (Pg.Ok u, db') ->
  exists rows,
    Forall2 (Props.stores aid) l rows
    /\ Pg.tables db'
       = Pg.mkTables (Pg.availability (Pg.tables db))
           (Pg.availability_interval (Pg.tables db) ++ rows)
           (Pg.event_types (Pg.tables db)) (Pg.bookings (Pg.tables db)).
Proof.
  revert db db' u. induction l as [|i l IH]; intros db db' u.
  - simpl. unfold Pg.ret. intros H. inversion H; subst. exists [].
    split; [constructor|]. rewrite app_nil_r. destruct (Pg.tables db'). reflexivity.
  - cbn [AvailabilityModel.insert_intervals]. unfold Pg.bind.
    destruct (Sql.insert_interval aid _ _ _ db) as [[r|e] db1] eqn:Hi; [|discriminate].
    intros Hrest.
    apply insert_interval_returns in Hi.
    destruct Hi as [t1 [t2 [H1 [H2 [Hr [_ [_ [_ Hdb1]]]]]]]].
    apply IH in Hrest. destruct Hrest as [rows [Hrows Hdb']].
    exists (r :: rows). split.
    + constructor; [|assumption]. rewrite Hr. unfold Props.stores. simpl. auto.
    + rewrite Hdb', Hdb1. simpl. rewrite <- app_assoc. reflexivity.
Qed.

(* ================================================================== *)
(** ** Default availability of a new event type *)

(** The name and the timezone of the default availability fit their
    columns. *)
Lemma default_availability_fits :
  negb (Sql.varchar 255 "Default Availability" && Sql.varchar 50 "UTC") = false.
Proof. reflexivity. Qed.

(** The two literals of the loop, as [TIME] values. *)
Lemma default_times :
  Sql.cast_time "14:00:00" = Some 50400 /\ Sql.cast_time "22:00:00" = Some 79200.
Proof. split; vm_compute; reflexivity. Qed.

(** The seven-day loop, when it returns, has appended the default windows. *)
Lemma insert_days_returns (n : nat) (aid d : Z) (db db' : Pg.DB) (u : unit) :
  EventTypeService.insert_days aid d n db = (Pg.Ok u, db') ->
  exists rows,
    map Props.window rows = Props.default_windows_from aid d n
    /\ db' = Pg.mkDB
               (Pg.mkTables (Pg.availability (Pg.tables db))
                  (Pg.availability_interval (Pg.tables db) ++ rows)
                  (Pg.event_types (Pg.tables db)) (Pg.bookings (Pg.tables db)))
               (Pg.mkSequences (Pg.availability_id_seq (Pg.sequences db))
                  (Pg.availability_interval_id_seq (Pg.sequences db) + Z.of_nat n)
                  (Pg.event_types_id_seq (Pg.sequences db))
                  (Pg.bookings_id_seq (Pg.sequences db))).
Proof.
  revert d db db' u. induction n as [|n IH]; intros d db db' u.
  - simpl. unfold Pg.ret. intros H. inversion H; subst. exists [].
    split; [reflexivity|]. rewrite app_nil_r, Z.add_0_r.
    destruct db' as [[? ? ? ?] [? ? ? ?]]. reflexivity.
  - cbn [EventTypeService.insert_days]. unfold Pg.bind.
    destruct (Sql.insert_interval aid d "14:00:00" "22:00:00" db) as [[r|e] db1] eqn:Hi;
      [|discriminate].
    intros Hrest.
    apply insert_interval_returns in Hi.
    destruct Hi as [t1 [t2 [H1 [H2 [Hr [_ [_ [_ Hdb1]]]]]]]].
    vm_compute in H1, H2.
    assert (t1 = 50400) by congruence. assert (t2 = 79200) by congruence. subst t1 t2.
    apply IH in Hrest. destruct Hrest as [rows [Hw Hdb']].
    exists (r :: rows). split.
    + simpl. rewrite Hw. rewrite Hr. reflexivity.
    + rewrite Hdb', Hdb1. simpl. rewrite <- app_assoc. simpl.
      replace (Pg.availability_interval_id_seq (Pg.sequences db) + 1 + Z.of_nat n)
        with (Pg.availability_interval_id_seq (Pg.sequences db) + Z.pos (Pos.of_succ_nat n)) by lia.
      reflexivity.
Qed.

(** The loop returns when its days are in range and not yet taken. *)
Lemma insert_days_succeeds (n : nat) (aid d : Z) (db : Pg.DB) :
  1 <= d -> d + Z.of_nat n <= 8 ->
  Sql.availability_exists aid db = true ->
  (forall o, In o (Pg.availability_interval (Pg.tables db)) ->
     Interval.availability_id o = aid -> Interval.day_of_week o < d) ->
  exists db', EventTypeService.insert_days aid d n db = (Pg.Ok tt, db').
Proof.
  revert d db. induction n as [|n IH]; intros d db Hd Hn Hex Hfresh.
  - eexists. reflexivity.
  - cbn [EventTypeService.insert_days]. unfold Pg.bind.
    rewrite (insert_interval_succeeds aid d "14:00:00" "22:00:00" 50400 79200 db);
      try reflexivity; try assumption; try lia.
    + apply IH.
      * lia.
      * lia.
      * exact Hex.
      * simpl. intros o Hin Ho. apply in_app_or in Hin. destruct Hin as [Hin|[<-|[]]].
        -- specialize (Hfresh o Hin Ho). lia.
        -- simpl. lia.
    + intros o Hin Hw. unfold Props.window in Hw.
      assert (Interval.availability_id o = aid) by congruence.
      assert (Interval.day_of_week o = d) by congruence.
      specialize (Hfresh o Hin). lia.
Qed.

(** [ORDER BY id ASC LIMIT 1] finds nothing exactly on the empty table.. *)
Lemma lowest_id_none (l : list Availability.row) :
  AvailabilityModel.lowest_id l = None <-> l = [].
Proof.
  destruct l as [|r l]; simpl; [tauto|].
  split; [|discriminate].
  destruct (AvailabilityModel.lowest_id l) as [m|]; [|discriminate].
  destruct (Availability.id r <=? Availability.id m); discriminate.
Qed.

(** .. and otherwise a row whose id is the least. *)
Lemma lowest_id_some (l : list Availability.row) (m : Availability.row) :
  AvailabilityModel.lowest_id l = Some m ->
  In m l /\ forall b, In b l -> Availability.id m <= Availability.id b.
Proof.
  revert m. induction l as [|r l IH]; intros m; simpl; [discriminate|].
  destruct (AvailabilityModel.lowest_id l) as [m'|] eqn:Hl.
  - destruct (IH m' eq_refl) as [Hin Hmin].
    destruct (Z.leb_spec (Availability.id r) (Availability.id m')) as [Hle|Hgt];
      intros H; injection H as <-.
    + split; [left; reflexivity|].
      intros b [<-|Hb]; [lia|]. specialize (Hmin b Hb). lia.
    + split; [right; assumption|].
      intros b [<-|Hb]; [lia|]. exact (Hmin b Hb).
  - intros H; injection H as <-. apply lowest_id_none in Hl. subst l.
    split; [left; reflexivity|]. intros b [<-|[]]. lia.
Qed.

(** [findById] finds a row for the id of any stored row. *)
Lemma findById_of_member (db : Pg.DB) (m : Availability.row) :
  In m (Pg.availability (Pg.tables db)) ->
  exists d, AvailabilityModel.findById (Availability.id m) db = Some d
            /\ In (AvailabilityModel.availability d) (Pg.availability (Pg.tables db))
            /\ Availability.id (AvailabilityModel.availability d) = Availability.id m.
Proof.
  intros Hin. unfold AvailabilityModel.findById.
  destruct (filter _ (Pg.availability (Pg.tables db))) as [|a l] eqn:Hf.
  - exfalso.
    assert (Hm : In m (filter (fun a => Z.eqb (Availability.id a) (Availability.id m))
                              (Pg.availability (Pg.tables db)))).
    { apply filter_In. split; [assumption | apply Z.eqb_refl]. }
    rewrite Hf in Hm. exact Hm.
  - assert (Ha : In a (filter (fun a => Z.eqb (Availability.id a) (Availability.id m))
                              (Pg.availability (Pg.tables db)))).
    { rewrite Hf. left. reflexivity. }
    apply filter_In in Ha. destruct Ha as [Ha1 Ha2]. apply Z.eqb_eq in Ha2.
    eexists. split; [reflexivity|]. simpl. split; assumption.
Qed.

Lemma find_none_existsb {A} (p : A -> bool) (l : list A) :
  find p l = None -> existsb p l = false.
Proof.
  induction l as [|a l IH]; simpl; [reflexivity|].
  destruct (p a); [discriminate | exact IH].
Qed.

(** What a returning [INSERT] into [event_types] has done. *)
Lemma insert_event_type_returns (name : string) (description : option string)
    (duration : Z) (url_slug : option string) (user_id availability_id : option Z)
    (db db' : Pg.DB) (r : EventType.row) :
  Sql.insert_event_type name description duration url_slug user_id availability_id db
  = (Pg.Ok r, db') ->
  r = EventType.mk (Pg.event_types_id_seq (Pg.sequences db)) name description duration
        url_slug user_id availability_id
  /\ db' = Sql.set_event_types (Pg.event_types (Pg.tables db) ++ [r])
             (snd (Sql.nextval_event_types db)).
Proof.
  unfold Sql.insert_event_type, Sql.nextval_event_types. cbv zeta iota beta. simpl Pg.tables.
  repeat match goal with
         | |- context [if ?c then _ else _] => destruct c
         end; intros H; inversion H; subst. split; reflexivity.
Qed.

(** When that [INSERT] goes through. *)
Lemma insert_event_type_succeeds (name : string) (description : option string)
    (duration : Z) (slug : string) (user_id : option Z) (aid : Z) (db : Pg.DB) :
  Sql.integer duration = true ->
  Sql.integer_or_null user_id = true ->
  Sql.varchar 255 name = true ->
  Sql.varchar 255 slug = true ->
  EventTypeModel.findByName name db = None ->
  existsb (Sql.has_slug slug) (Pg.event_types (Pg.tables db)) = false ->
  Sql.availability_exists aid db = true ->
  exists r db',
    Sql.insert_event_type name description duration (Some slug) user_id (Some aid) db
    = (Pg.Ok r, db').
Proof.
  intros Hd Hu Hn Hs Hname Hslug Hfk.
  unfold Sql.insert_event_type, Sql.nextval_event_types. cbv zeta iota beta. simpl Pg.tables.
  unfold EventTypeModel.findByName in Hname. apply find_none_existsb in Hname.
  rewrite Hd, Hu. cbn [Sql.varchar_or_null]. rewrite Hn, Hs, Hname, Hslug.
  unfold Sql.availability_exists in *. simpl Pg.tables. rewrite Hfk. simpl.
  eexists. eexists. reflexivity.
Qed.

(** A request that fits the columns passes the type checks of the
    [INSERT]. *)
Lemma event_type_fits_columns_checks (data : EventTypeData.t) :
  Props.event_type_fits_columns data ->
  Sql.integer (EventTypeData.duration data) = true
  /\ Sql.integer_or_null (Js.or_null_num (EventTypeData.user_id data)) = true
  /\ Sql.varchar 255 (EventTypeData.name data) = true
  /\ Sql.varchar 255
       (Js.or_str (EventTypeData.url_slug data) (EventTypeData.name data)) = true.
Proof.
  intros [Hn [Hs [Hd Hu]]]. unfold Sql.integer, Sql.varchar.
  split; [|split; [|split]].
  - apply andb_true_iff. split; apply Z.leb_le; lia.
  - unfold Js.or_null_num. destruct (EventTypeData.user_id data) as [u|]; [|reflexivity].
    destruct (Js.truthy_num u); [|reflexivity]. simpl.
    specialize (Hu u eq_refl). apply andb_true_iff. split; apply Z.leb_le; lia.
  - apply Nat.leb_le. exact Hn.
  - unfold Js.or_str. destruct (EventTypeData.url_slug data) as [s|].
    + destruct (Js.truthy_str s); apply Nat.leb_le; [apply (Hs s eq_refl) | exact Hn].
    + apply Nat.leb_le. exact Hn.
Qed.

(** With no availability there is no interval either. *)
Lemma no_availability_no_interval (db : Pg.DB) :
  Props.intervals_owned db -> Pg.availability (Pg.tables db) = [] ->
  Pg.availability_interval (Pg.tables db) = [].
Proof.
  intros Hown Hnil.
  destruct (Pg.availability_interval (Pg.tables db)) as [|i l] eqn:Hi; [reflexivity|].
  exfalso. specialize (Hown i). rewrite Hi in Hown. specialize (Hown (or_introl eq_refl)).
  unfold Sql.availability_exists in Hown. rewrite Hnil in Hown. discriminate.
Qed.

(** [createEventType] without [availability_id] returns as soon as the
    name and the slug are free. *)
Lemma createEventType_returns (db : Pg.DB) (data : EventTypeData.t) :
  Props.serial_ids db -> Props.intervals_owned db ->
  Props.event_type_fits_columns data ->
  EventTypeData.availability_id data = None ->
  EventTypeModel.findByName (EventTypeData.name data) db = None ->
  existsb (Sql.has_slug (Js.or_str (EventTypeData.url_slug data) (EventTypeData.name data)))
          (Pg.event_types (Pg.tables db)) = false ->
  exists r db', EventTypeService.createEventType data db = (Pg.Ok r, db').
Proof.
  intros [Hseq Hids] Hown Hfits Hnone Hname Hslug.
  destruct (event_type_fits_columns_checks data Hfits) as [Hcd [Hcu [Hcn Hcs]]].
  unfold EventTypeService.createEventType. unfold_monad.
  rewrite Hname, Hnone. cbn [Js.truthy_opt_num negb]. cbv beta iota.
  unfold AvailabilityModel.getDefaultAvailability.
  destruct (AvailabilityModel.lowest_id (Pg.availability (Pg.tables db))) as [m|] eqn:Hlow.
  - apply lowest_id_some in Hlow. destruct Hlow as [Hin _].
    destruct (findById_of_member db m Hin) as [d [Hfind [Hdin Hdid]]].
    rewrite Hfind.
    unfold EventTypeModel.createEventType. cbn [EventTypeData.name EventTypeData.description
      EventTypeData.duration EventTypeData.url_slug EventTypeData.user_id
      EventTypeData.availability_id].
    assert (Hlink : Js.or_null_num (Some (Availability.id (AvailabilityModel.availability d)))
                    = Some (Availability.id (AvailabilityModel.availability d))).
    { simpl. unfold Js.truthy_num.
      destruct (Z.eqb_spec (Availability.id (AvailabilityModel.availability d)) 0) as [E|_];
        [|reflexivity].
      specialize (Hids _ Hdin). lia. }
    rewrite Hlink.
    destruct (insert_event_type_succeeds (EventTypeData.name data)
                (EventTypeData.description data) (EventTypeData.duration data)
                (Js.or_str (EventTypeData.url_slug data) (EventTypeData.name data))
                (Js.or_null_num (EventTypeData.user_id data))
                (Availability.id (AvailabilityModel.availability d)) db
                Hcd Hcu Hcn Hcs Hname Hslug)
      as [r [db' Hr]].
    { unfold Sql.availability_exists. apply existsb_exists.
      exists (AvailabilityModel.availability d). split; [assumption | apply Z.eqb_refl]. }
    rewrite Hr. eexists. eexists. reflexivity.
  - apply lowest_id_none in Hlow.
    pose proof (no_availability_no_interval db Hown Hlow) as Hivs.
    unfold EventTypeService.provision_default. unfold_monad.
    unfold Sql.insert_availability, Sql.nextval_availability. cbv zeta iota beta.
    rewrite default_availability_fits. cbv iota.
    simpl Availability.id.
    match goal with
    | |- context [EventTypeService.insert_days ?a 1 7 ?d] =>
        destruct (insert_days_succeeds 7 a 1 d) as [db1 Hdays]
    end.
    + lia.
    + simpl. lia.
    + unfold Sql.availability_exists. simpl. rewrite Hlow. simpl.
      rewrite Z.eqb_refl. reflexivity.
    + simpl. rewrite Hivs. intros o [].
    + rewrite Hdays.
      pose proof Hdays as Hshape. apply insert_days_returns in Hshape.
      destruct Hshape as [rows [_ Hdb1]]. simpl in Hdb1. rewrite Hlow in Hdb1. simpl in Hdb1.
      unfold EventTypeModel.createEventType. cbn [EventTypeData.name EventTypeData.description
        EventTypeData.duration EventTypeData.url_slug EventTypeData.user_id
        EventTypeData.availability_id].
      assert (Hlink : Js.or_null_num (Some (Pg.availability_id_seq (Pg.sequences db)))
                      = Some (Pg.availability_id_seq (Pg.sequences db))).
      { simpl. unfold Js.truthy_num.
        destruct (Z.eqb_spec (Pg.availability_id_seq (Pg.sequences db)) 0) as [E|_];
          [lia|reflexivity]. }
      rewrite Hlink.
      destruct (insert_event_type_succeeds (EventTypeData.name data)
                  (EventTypeData.description data) (EventTypeData.duration data)
                  (Js.or_str (EventTypeData.url_slug data) (EventTypeData.name data))
                  (Js.or_null_num (EventTypeData.user_id data))
                  (Pg.availability_id_seq (Pg.sequences db)) db1 Hcd Hcu Hcn Hcs)
        as [r [db' Hr]].
      * rewrite Hdb1. exact Hname.
      * rewrite Hdb1. exact Hslug.
      * rewrite Hdb1. unfold Sql.availability_exists. simpl.
        rewrite Z.eqb_refl. reflexivity.
      * rewrite Hr. eexists. eexists. reflexivity.
Qed.

(** .. and whenever it returns, the default availability is linked. *)
Lemma createEventType_default_shape (db db' : Pg.DB) (data : EventTypeData.t)
    (r : EventTypeService.with_bookingUrl) :
  Props.serial_ids db ->
  Props.intervals_owned db ->
  EventTypeData.availability_id data = None ->
  EventTypeService.createEventType data db = (Pg.Ok r, db') ->
  Props.links_default db (EventTypeService.eventType r) db'.
Proof.
  intros [Hseq Hids] Hown Hnone. unfold Props.links_default.
  unfold EventTypeService.createEventType. unfold_monad.
  destruct (EventTypeModel.findByName (EventTypeData.name data) db); [discriminate|].
  rewrite Hnone. cbn [Js.truthy_opt_num negb]. cbv beta iota.
  unfold AvailabilityModel.getDefaultAvailability.
  destruct (AvailabilityModel.lowest_id (Pg.availability (Pg.tables db))) as [m|] eqn:Hlow.
  - (* an availability exists *)
    apply lowest_id_some in Hlow. destruct Hlow as [Hin Hmin].
    destruct (findById_of_member db m Hin) as [d [Hfind [Hdin Hdid]]].
    rewrite Hfind.
    unfold EventTypeModel.createEventType. cbn [EventTypeData.name EventTypeData.description
      EventTypeData.duration EventTypeData.url_slug EventTypeData.user_id
      EventTypeData.availability_id].
    destruct (Sql.insert_event_type _ _ _ _ _ _ db) as [[e|x] db1] eqn:Hins; [|destruct x; discriminate].
    intros H. inversion H; subst; clear H.
    apply insert_event_type_returns in Hins. destruct Hins as [He Hdb].
    assert (Hlink : Js.or_null_num (Some (Availability.id (AvailabilityModel.availability d)))
                    = Some (Availability.id (AvailabilityModel.availability d))).
    { simpl. unfold Js.truthy_num.
      destruct (Z.eqb_spec (Availability.id (AvailabilityModel.availability d)) 0) as [E|_];
        [|reflexivity].
      specialize (Hids _ Hdin). lia. }
    rewrite Hlink in He.
    split; [rewrite Hdb; reflexivity|]. split.
    + intros Hnil. rewrite Hnil in Hin. destruct Hin.
    + intros _. rewrite Hdb. simpl. split; [reflexivity|]. split; [reflexivity|].
      exists m. split; [assumption|]. split; [assumption|].
      rewrite He. simpl. rewrite Hdid. reflexivity.
  - (* none exists: the default one is provisioned *)
    apply lowest_id_none in Hlow.
    pose proof (no_availability_no_interval db Hown Hlow) as Hivs.
    unfold EventTypeService.provision_default. unfold_monad.
    unfold Sql.insert_availability, Sql.nextval_availability. cbv zeta iota beta.
    rewrite default_availability_fits. cbv iota.
    simpl Availability.id.
    match goal with
    | |- context [EventTypeService.insert_days ?a 1 7 ?d] =>
        destruct (EventTypeService.insert_days a 1 7 d) as [[u|x] db1] eqn:Hdays
    end; [|destruct x; discriminate].
    apply insert_days_returns in Hdays. destruct Hdays as [rows [Hw Hdb1]].
    simpl in Hdb1. rewrite Hlow, Hivs in Hdb1. simpl in Hdb1.
    unfold EventTypeModel.createEventType. cbn [EventTypeData.name EventTypeData.description
      EventTypeData.duration EventTypeData.url_slug EventTypeData.user_id
      EventTypeData.availability_id].
    destruct (Sql.insert_event_type _ _ _ _ _ _ db1) as [[e|x] db2] eqn:Hins; [|destruct x; discriminate].
    intros H. inversion H; subst db' r; clear H.
    apply insert_event_type_returns in Hins. destruct Hins as [He Hdb].
    assert (Hlink : Js.or_null_num (Some (Pg.availability_id_seq (Pg.sequences db)))
                    = Some (Pg.availability_id_seq (Pg.sequences db))).
    { simpl. unfold Js.truthy_num.
      destruct (Z.eqb_spec (Pg.availability_id_seq (Pg.sequences db)) 0) as [E|_];
        [lia|reflexivity]. }
    rewrite Hlink in He.
    split; [rewrite Hdb, Hdb1; reflexivity|]. split.
    + intros _.
      exists (Availability.mk (Pg.availability_id_seq (Pg.sequences db))
                "Default Availability" "UTC").
      rewrite Hdb, Hdb1. simpl. repeat split; try reflexivity.
      * exact Hw.
      * rewrite He. reflexivity.
    + intros Hne. congruence.
Qed.

(** C6. Creating an event type with [availability_id] omitted returns
    when its name and slug are free and its values fit the columns of
    [event_types] (name and slug of at most 255 characters, [duration]
    and [user_id] within [INTEGER]).  When no availability existed it has
    provisioned exactly one, "Default Availability" in "UTC" with exactly
    the seven windows 14:00:00-22:00:00 for days 1 to 7, and linked the
    new event type to it; when one existed it has linked the new event
    type to the one with the lowest id and created none. *)
Theorem createEventType_default_availability (db : Pg.DB) (data : EventTypeData.t) :
  Props.serial_ids db ->
  Props.intervals_owned db ->
  Props.event_type_fits_columns data ->
  EventTypeData.availability_id data = None ->
  EventTypeModel.findByName (EventTypeData.name data) db = None ->
  existsb (Sql.has_slug (Js.or_str (EventTypeData.url_slug data) (EventTypeData.name data)))
          (Pg.event_types (Pg.tables db)) = false ->
  exists r db',
    EventTypeService.createEventType data db = (Pg.Ok r, db')
    /\ Props.links_default db (EventTypeService.eventType r) db'.
Proof.
  intros Hser Hown Hfits Hnone Hname Hslug.
  destruct (createEventType_returns db data Hser Hown Hfits Hnone Hname Hslug)
    as [r [db' H]].
  exists r, db'. split; [exact H|].
  exact (createEventType_default_shape db db' data r Hser Hown Hnone H).
Qed.

(** The two requests of the scenarios fit the columns. *)
Lemma scenario_event_types_fit :
  Props.event_type_fits_columns Scenario.thirty_min
  /\ Props.event_type_fits_columns Scenario.one_hour.
Proof.
  split; (split; [simpl; lia | split; [discriminate | split; [simpl; lia | discriminate]]]).
Qed.

(** C6 on the empty database, and again once availability 1 exists. *)
Lemma createEventType_default_availability_witness :
  (exists r db',
     EventTypeService.createEventType Scenario.thirty_min Pg.empty = (Pg.Ok r, db')
     /\ Props.links_default Pg.empty (EventTypeService.eventType r) db')
  /\ (exists r db',
        EventTypeService.createEventType Scenario.one_hour Scenario.with_event_type
        = (Pg.Ok r, db')
        /\ Props.links_default Scenario.with_event_type (EventTypeService.eventType r) db').
Proof.
  split.
  - apply createEventType_default_availability.
    + split; [simpl; lia | intros a []].
    + intros i [].
    + exact (proj1 scenario_event_types_fit).
    + reflexivity.
    + reflexivity.
    + reflexivity.
  - apply createEventType_default_availability.
    + split; [vm_compute; reflexivity|].
      intros a Hin. vm_compute in Hin. destruct Hin as [<-|[]]. simpl. lia.
    + intros i Hin. vm_compute in Hin.
      repeat (destruct Hin as [<-|Hin]; [vm_compute; reflexivity|]). destruct Hin.
    + exact (proj2 scenario_event_types_fit).
    + reflexivity.
    + vm_compute. reflexivity.
    + vm_compute. reflexivity.
Defined.

(* ================================================================== *)
(** ** Replacing the intervals of an availability *)

Lemma set_no_availability_columns (r : Availability.row) :
  Sql.set_availability_columns None None r = r.
Proof. destruct r. reflexivity. Qed.

Lemma filter_all_stored (aid : Z) (l : list IntervalData.t) (rows : list Interval.row) :
  Forall2 (Props.stores aid) l rows ->
  filter (fun r => Z.eqb (Interval.availability_id r) aid) rows = rows
  /\ filter (fun r => negb (Z.eqb (Interval.availability_id r) aid)) rows = [].
Proof.
  induction 1 as [|i r l rows Hs _ [IH1 IH2]]; simpl; [split; reflexivity|].
  destruct Hs as [Ha _]. rewrite Ha, Z.eqb_refl. simpl. rewrite IH1, IH2. split; reflexivity.
Qed.

Lemma filter_filter_negb {A} (p : A -> bool) (l : list A) :
  filter p (filter (fun x => negb (p x)) l) = []
  /\ filter (fun x => negb (p x)) (filter (fun x => negb (p x)) l)
     = filter (fun x => negb (p x)) l.
Proof.
  induction l as [|a l [IH1 IH2]]; simpl; [split; reflexivity|].
  destruct (p a) eqn:Ha; simpl; [split; assumption|].
  rewrite Ha. simpl. rewrite IH1, IH2. split; reflexivity.
Qed.

(** The effect of [updateAvailability], returning or throwing. *)
Lemma updateAvailability_effect (db db' : Pg.DB) (id : Z)
    (data : AvailabilityUpdate.t) (res : Pg.result (option AvailabilityModel.with_intervals)) :
  AvailabilityModel.updateAvailability id data db = (res, db') ->
  match res with
  | Pg.Throw _ => Pg.tables db' = Pg.tables db
  | Pg.Ok returned =>
      returned = AvailabilityModel.findById id db'
      /\ Pg.availability (Pg.tables db')
      = map (fun r => if Z.eqb (Availability.id r) id
                      then Sql.set_availability_columns (AvailabilityUpdate.name data)
                             (AvailabilityUpdate.timezone data) r
                      else r)
            (Pg.availability (Pg.tables db))
      /\ match AvailabilityUpdate.intervals data with
         | Some submitted =>
             Forall2 (Props.stores id) submitted (Props.intervals_of id db')
             /\ Props.intervals_of_others id db' = Props.intervals_of_others id db
         | None =>
             Pg.availability_interval (Pg.tables db')
             = Pg.availability_interval (Pg.tables db)
         end
  end.
Proof.
  unfold AvailabilityModel.updateAvailability. unfold_monad. cbv beta.
  set (scalars := match AvailabilityUpdate.name data, AvailabilityUpdate.timezone data with
                  | None, None => fun db0 : Pg.DB => (Pg.Ok tt, db0)
                  | _, _ => Sql.update_availability id (AvailabilityUpdate.name data)
                              (AvailabilityUpdate.timezone data)
                  end).
  assert (Hsc : scalars db
                = (Pg.Ok tt,
                   Sql.set_availability
                     (map (fun r => if Z.eqb (Availability.id r) id
                                    then Sql.set_availability_columns
                                           (AvailabilityUpdate.name data)
                                           (AvailabilityUpdate.timezone data) r
                                    else r)
                          (Pg.availability (Pg.tables db))) db)
                \/ exists c, scalars db = (Pg.Throw (Pg.DatabaseError c), db)).
  { unfold scalars.
    destruct (AvailabilityUpdate.name data), (AvailabilityUpdate.timezone data);
      try (unfold Sql.update_availability;
           destruct (negb _); [right; eexists; reflexivity | left; reflexivity]).
    left. f_equal. unfold Sql.set_availability, Sql.set_tables.
    replace (map _ (Pg.availability (Pg.tables db))) with (Pg.availability (Pg.tables db)).
    - destruct db as [[? ? ? ?] ?]. reflexivity.
    - induction (Pg.availability (Pg.tables db)) as [|r l IH]; simpl; [reflexivity|].
      rewrite <- IH. rewrite set_no_availability_columns.
      destruct (Z.eqb (Availability.id r) id); reflexivity. }
  destruct Hsc as [Hsc | [c Hsc]]; rewrite Hsc; clear Hsc scalars;
    [|intros H; inversion H; subst; reflexivity].
  destruct (AvailabilityUpdate.intervals data) as [submitted|].
  - unfold Sql.delete_intervals_of.
    match goal with
    | |- context [AvailabilityModel.insert_intervals id submitted ?d] =>
        destruct (AvailabilityModel.insert_intervals id submitted d) as [[u|e] db1] eqn:Hins
    end.
    + intros H. inversion H; subst; clear H.
      apply insert_intervals_returns in Hins. destruct Hins as [rows [Hrows Hdb']].
      simpl in Hdb'. unfold Props.intervals_of, Props.intervals_of_others.
      rewrite Hdb'. simpl. split; [reflexivity|]. split; [reflexivity|].
      rewrite !filter_app.
      destruct (filter_all_stored id submitted rows Hrows) as [F1 F2].
      destruct (filter_filter_negb (fun r => Z.eqb (Interval.availability_id r) id)
                  (Pg.availability_interval (Pg.tables db))) as [G1 G2].
      rewrite F1, F2, G1, G2. simpl. rewrite app_nil_r. split; [assumption|reflexivity].
    + intros H. inversion H; subst; clear H. reflexivity.
  - intros H. inversion H; subst; clear H. simpl. repeat split; reflexivity.
Qed.

(** A lookup by id after the scalar [UPDATE]: the row is still there. *)
Lemma findById_survives_assignment (id : Z) (name timezone : option string) (db db' : Pg.DB) :
  Pg.availability (Pg.tables db')
  = map (fun r => if Z.eqb (Availability.id r) id
                  then Sql.set_availability_columns name timezone r else r)
        (Pg.availability (Pg.tables db)) ->
  AvailabilityModel.findById id db <> None ->
  AvailabilityModel.findById id db' <> None.
Proof.
  unfold AvailabilityModel.findById. intros ->.
  induction (Pg.availability (Pg.tables db)) as [|r l IH]; simpl; [tauto|].
  destruct (Z.eqb (Availability.id r) id) eqn:Hr; simpl.
  - rewrite Hr. intros _. discriminate.
  - rewrite Hr. exact IH.
Qed.

(** The service adds the existence check and the validation in front of
    the model's transaction, and nothing after it: when it returns, the
    model did, with the same database; when it throws, the tables are
    what they were. *)
Lemma service_updateAvailability_one_transaction (db db' : Pg.DB) (id : Z)
    (data : AvailabilityUpdate.t) (res : Pg.result AvailabilityModel.with_intervals) :
  AvailabilityService.updateAvailability id data db = (res, db') ->
  match res with
  | Pg.Ok u => AvailabilityModel.updateAvailability id data db = (Pg.Ok (Some u), db')
  | Pg.Throw _ => Pg.tables db' = Pg.tables db
  end.
Proof.
  unfold AvailabilityService.updateAvailability. unfold_monad.
  destruct (AvailabilityModel.findById id db) as [existing|] eqn:Hex;
    [|intros H; inversion H; reflexivity].
  assert (Hv : AvailabilityService.validate_supplied (AvailabilityUpdate.intervals data) db
               = (Pg.Ok tt, db)
               \/ AvailabilityService.validate_supplied (AvailabilityUpdate.intervals data) db
                  = (Pg.Throw (Pg.CustomError 400), db)).
  { unfold AvailabilityService.validate_supplied.
    destruct (AvailabilityUpdate.intervals data) as [l|];
      [apply validate_intervals_pure | left; reflexivity]. }
  destruct Hv as [Hv|Hv]; rewrite Hv; [|intros H; inversion H; reflexivity].
  destruct (AvailabilityModel.updateAvailability id data db) as [[o|e] db1] eqn:Hm.
  - pose proof (updateAvailability_effect db db1 id data (Pg.Ok o) Hm) as [Ho [Hav _]].
    destruct o as [u|].
    + intros H. inversion H; subst. reflexivity.
    + exfalso.
      apply (findById_survives_assignment id (AvailabilityUpdate.name data)
               (AvailabilityUpdate.timezone data) db db1 Hav); [congruence|].
      symmetry. exact Ho.
  - pose proof (updateAvailability_effect db db1 id data (Pg.Throw e) Hm) as Ht.
    simpl in Ht.
    intros H. assert (db' = db1) by (destruct e; inversion H; reflexivity). subst db'.
    assert (Hres : exists x, res = Pg.Throw x)
      by (destruct e; inversion H; eexists; reflexivity).
    destruct Hres as [x ->]. exact Ht.
Qed.

(** C7. Whatever [updateAvailability] does is one transaction: if it
    throws, the four tables are what they were; if it returns, it returns
    what [findById] then finds, the row [id] has the payload's [name] if
    the payload carries one and its old name if not, and likewise for
    [timezone], every other availability row is as it was, and
    - when [intervals] is supplied (the empty list included), the interval
      rows of [id] are exactly the submitted ones, one row each and in
      order, and the rows of every other availability are untouched;
    - when [intervals] is not supplied, the interval table is unchanged. *)
Theorem updateAvailability_replaces_intervals (db db' : Pg.DB) (id : Z)
    (data : AvailabilityUpdate.t) (res : Pg.result (option AvailabilityModel.with_intervals)) :
  AvailabilityModel.updateAvailability id data db = (res, db') ->
  match res with
  | Pg.Throw _ => Pg.tables db' = Pg.tables db
  | Pg.Ok returned =>
      returned = AvailabilityModel.findById id db'
      /\ Pg.availability (Pg.tables db')
         = map (fun r =>
                  if Z.eqb (Availability.id r) id
                  then Availability.mk (Availability.id r)
                         (Props.supplied (AvailabilityUpdate.name data) (Availability.name r))
                         (Props.supplied (AvailabilityUpdate.timezone data)
                            (Availability.timezone r))
                  else r)
               (Pg.availability (Pg.tables db))
      /\ match AvailabilityUpdate.intervals data with
         | Some submitted =>
             Forall2 (Props.stores id) submitted (Props.intervals_of id db')
             /\ Props.intervals_of_others id db' = Props.intervals_of_others id db
         | None =>
             Pg.availability_interval (Pg.tables db')
             = Pg.availability_interval (Pg.tables db)
         end
  end.
Proof.
  intros H. apply updateAvailability_effect in H.
  destruct res as [returned|x]; [|exact H].
  destruct H as [Hret [Hav Hiv]].
  split; [exact Hret|]. split; [|exact Hiv].
  rewrite Hav. apply map_ext. intros r.
  destruct (Z.eqb (Availability.id r) id); [|reflexivity].
  unfold Sql.set_availability_columns, Props.supplied. reflexivity.
Qed.

(** C7 on availability 1: a replacement with a new name that goes
    through, one that the table refuses halfway, and an update that
    carries a new timezone and no [intervals]. *)
Lemma updateAvailability_replaces_intervals_witness :
  (Pg.availability (Pg.tables Scenario.with_office_hours)
   = [Availability.mk 1 "Office" "UTC"]
   /\ Forall2 (Props.stores 1)
        [IntervalData.mk 1 "09:00:00" "12:00:00"; IntervalData.mk 1 "13:00:00" "17:00:00"]
        (Props.intervals_of 1 Scenario.with_office_hours)
   /\ Props.intervals_of_others 1 Scenario.with_office_hours
      = Props.intervals_of_others 1 Scenario.with_event_type)
  /\ Pg.tables (Scenario.after (AvailabilityModel.updateAvailability 1 Scenario.refused_batch)
                               Scenario.with_event_type)
     = Pg.tables Scenario.with_event_type
  /\ (Pg.availability
        (Pg.tables (Scenario.after (AvailabilityModel.updateAvailability 1 Scenario.berlin_time)
                                   Scenario.with_event_type))
      = [Availability.mk 1 "Default Availability" "Europe/Berlin"]
      /\ Pg.availability_interval
           (Pg.tables (Scenario.after
                         (AvailabilityModel.updateAvailability 1 Scenario.berlin_time)
                         Scenario.with_event_type))
         = Pg.availability_interval (Pg.tables Scenario.with_event_type)).
Proof.
  split; [|split].
  - pose proof (updateAvailability_replaces_intervals Scenario.with_event_type
                  Scenario.with_office_hours 1 Scenario.office_hours _
                  (surjective_pairing _)) as H.
    vm_compute in H. vm_compute. exact (proj2 H).
  - pose proof (updateAvailability_replaces_intervals Scenario.with_event_type
                  _ 1 Scenario.refused_batch _ (surjective_pairing _)) as H.
    vm_compute in H. vm_compute. exact H.
  - pose proof (updateAvailability_replaces_intervals Scenario.with_event_type
                  _ 1 Scenario.berlin_time _ (surjective_pairing _)) as H.
    vm_compute in H. vm_compute. exact (proj2 H).
Defined.

(** The refused batch above did start to write: the failed call is what
    the rollback undid. *)
Lemma refused_batch_is_rolled_back :
  fst (AvailabilityModel.updateAvailability 1 Scenario.refused_batch Scenario.with_event_type)
  = Pg.Throw (Pg.DatabaseError Pg.check_violation)
  /\ Pg.availability
       (Pg.tables (Scenario.after (AvailabilityModel.updateAvailability 1 Scenario.refused_batch)
                                  Scenario.with_event_type))
     = [Availability.mk 1 "Default Availability" "UTC"].
Proof. split; vm_compute; reflexivity. Qed.

(* ================================================================== *)
(** ** Order of a stored interval *)

(** C8. In the state reached by creating one event type, every stored
    interval starts before it ends (14:00:00 to 22:00:00).  The service
    call [updateInterval(1, {start_time: '23:00:00'})] returns, and the
    interval it has stored starts at 23:00:00 and ends at 22:00:00. *)
Theorem partial_interval_update_breaks_order :
  Props.intervals_well_ordered Scenario.with_event_type
  /\ AvailabilityService.updateInterval 1 Scenario.start_at_23 Scenario.with_event_type
     = (Pg.Ok (Interval.mk 1 1 1 82800 79200), Scenario.start_moved)
  /\ In (Interval.mk 1 1 1 82800 79200)
        (Pg.availability_interval (Pg.tables Scenario.start_moved))
  /\ ~ Props.intervals_well_ordered Scenario.start_moved.
Proof.
  split; [|split; [|split]].
  - intros r Hin. vm_compute in Hin.
    repeat (destruct Hin as [<-|Hin]; [simpl; lia|]). destruct Hin.
  - vm_compute. reflexivity.
  - vm_compute. left. reflexivity.
  - intros H.
    assert (Hlt : Interval.start_time (Interval.mk 1 1 1 82800 79200)
                  < Interval.end_time (Interval.mk 1 1 1 82800 79200)).
    { apply H. vm_compute. left. reflexivity. }
    simpl in Hlt. lia.
Qed.

(** When both times are supplied the service does compare them. *)
Lemma updateInterval_compares_supplied_pair (intervalId : Z) (day : option Z)
    (s e : string) (db : Pg.DB) :
  Js.str_ge s e = true ->
  AvailabilityService.updateInterval intervalId (IntervalUpdate.mk day (Some s) (Some e)) db
  = (Pg.Throw (Pg.CustomError 400), db).
Proof.
  intros H. unfold AvailabilityService.updateInterval. unfold_monad. simpl.
  rewrite H. destruct day as [d|]; [|reflexivity].
  destruct ((d <? 1) || (d >? 7)); reflexivity.
Qed.

(* ================================================================== *)
(** ** Clock order of the submitted strings *)

(** A digit character compares like the digit it denotes. *)
Lemma digit_compare (c d : ascii) (a b : Z) :
  Sql.digit c = Some a -> Sql.digit d = Some b ->
  Ascii.compare c d = Z.compare a b /\ 0 <= a <= 9 /\ 0 <= b <= 9.
Proof.
  unfold Sql.digit, Ascii.compare. intros Hc Hd.
  destruct ((48 <=? Z.of_N (N_of_ascii c)) && (Z.of_N (N_of_ascii c) <=? 57)) eqn:Ec;
    [|discriminate].
  destruct ((48 <=? Z.of_N (N_of_ascii d)) && (Z.of_N (N_of_ascii d) <=? 57)) eqn:Ed;
    [|discriminate].
  assert (Ea : Z.of_N (N_of_ascii c) - 48 = a) by congruence.
  assert (Eb : Z.of_N (N_of_ascii d) - 48 = b) by congruence.
  clear Hc Hd. subst a b.
  apply andb_true_iff in Ec, Ed. rewrite !Z.leb_le in Ec, Ed.
  split; [|lia].
  rewrite <- N2Z.inj_compare.
  destruct (Z.compare_spec (Z.of_N (N_of_ascii c)) (Z.of_N (N_of_ascii d)));
    symmetry; [apply Z.compare_eq_iff | apply Z.compare_lt_iff | apply Z.compare_gt_iff]; lia.
Qed.

(** On two times written [HH:MM:SS] with two-digit hours, the comparison
    of the strings is the comparison of the clock values. *)
Lemma two_digit_hours_clock_order (s1 s2 : string) (t1 t2 : Z) :
  String.length s1 = 8%nat -> String.length s2 = 8%nat ->
  Sql.cast_time s1 = Some t1 -> Sql.cast_time s2 = Some t2 ->
  Js.str_lt s1 s2 = (t1 <? t2).
Proof.
  intros L1 L2.
  destruct s1 as [|a1 [|a2 [|a3 [|a4 [|a5 [|a6 [|a7 [|a8 [|? ?]]]]]]]]];
    try discriminate L1.
  destruct s2 as [|b1 [|b2 [|b3 [|b4 [|b5 [|b6 [|b7 [|b8 [|? ?]]]]]]]]];
    try discriminate L2.
  clear L1 L2.
  unfold Sql.cast_time; simpl list_ascii_of_string. cbv iota beta.
  unfold Sql.colon.
  destruct (Ascii.eqb_spec a3 ":"); [subst|discriminate].
  destruct (Ascii.eqb_spec a6 ":"); [subst|discriminate].
  destruct (Ascii.eqb_spec b3 ":"); [subst|discriminate].
  destruct (Ascii.eqb_spec b6 ":"); [subst|discriminate].
  simpl andb. cbv iota.
  unfold Sql.clock, Sql.two_digits.
  destruct (Sql.digit a1) as [x1|] eqn:A1; [|discriminate].
  destruct (Sql.digit a2) as [x2|] eqn:A2; [|discriminate].
  destruct (Sql.digit a4) as [x4|] eqn:A4; [|discriminate].
  destruct (Sql.digit a5) as [x5|] eqn:A5; [|discriminate].
  destruct (Sql.digit a7) as [x7|] eqn:A7; [|discriminate].
  destruct (Sql.digit a8) as [x8|] eqn:A8; [|discriminate].
  destruct (Sql.digit b1) as [y1|] eqn:B1; [|discriminate].
  destruct (Sql.digit b2) as [y2|] eqn:B2; [|discriminate].
  destruct (Sql.digit b4) as [y4|] eqn:B4; [|discriminate].
  destruct (Sql.digit b5) as [y5|] eqn:B5; [|discriminate].
  destruct (Sql.digit b7) as [y7|] eqn:B7; [|discriminate].
  destruct (Sql.digit b8) as [y8|] eqn:B8; [|discriminate].
  destruct ((10 * x1 + x2 <=? 23) && (10 * x4 + x5 <=? 59) && (10 * x7 + x8 <=? 59)) eqn:R1;
    [|discriminate].
  destruct ((10 * y1 + y2 <=? 23) && (10 * y4 + y5 <=? 59) && (10 * y7 + y8 <=? 59)) eqn:R2;
    [|discriminate].
  intros H1 H2.
  match type of H1 with Some ?e = _ => assert (E1 : e = t1) by congruence end.
  match type of H2 with Some ?e = _ => assert (E2 : e = t2) by congruence end.
  clear H1 H2. subst t1 t2.
  apply andb_true_iff in R1, R2. destruct R1 as [R1 R1c], R2 as [R2 R2c].
  apply andb_true_iff in R1, R2. rewrite !Z.leb_le in *.
  destruct (digit_compare _ _ _ _ A1 B1) as [C1 [? ?]].
  destruct (digit_compare _ _ _ _ A2 B2) as [C2 [? ?]].
  destruct (digit_compare _ _ _ _ A4 B4) as [C4 [? ?]].
  destruct (digit_compare _ _ _ _ A5 B5) as [C5 [? ?]].
  destruct (digit_compare _ _ _ _ A7 B7) as [C7 [? ?]].
  destruct (digit_compare _ _ _ _ A8 B8) as [C8 [? ?]].
  unfold Js.str_lt, String.ltb. simpl String.compare.
  rewrite C1, C2, C4, C5, C7, C8.
  change (Ascii.compare ":" ":") with Eq. cbv iota.
  destruct (Z.compare_spec x1 y1);
    [|symmetry; apply Z.ltb_lt; lia|symmetry; apply Z.ltb_ge; lia].
  destruct (Z.compare_spec x2 y2);
    [|symmetry; apply Z.ltb_lt; lia|symmetry; apply Z.ltb_ge; lia].
  destruct (Z.compare_spec x4 y4);
    [|symmetry; apply Z.ltb_lt; lia|symmetry; apply Z.ltb_ge; lia].
  destruct (Z.compare_spec x5 y5);
    [|symmetry; apply Z.ltb_lt; lia|symmetry; apply Z.ltb_ge; lia].
  destruct (Z.compare_spec x7 y7);
    [|symmetry; apply Z.ltb_lt; lia|symmetry; apply Z.ltb_ge; lia].
  destruct (Z.compare_spec x8 y8);
    [|symmetry; apply Z.ltb_lt; lia|symmetry; apply Z.ltb_ge; lia].
  symmetry; apply Z.ltb_ge; lia.
Qed.

(** The [TIME] column reads a text written [HH:MM:SS] as the time of
    day it spells. *)
Lemma digit_of_digit_char (d : Z) :
  0 <= d <= 9 -> Sql.digit (Props.digit_char d) = Some d.
Proof.
  intros H.
  assert (E : d = 0 \/ d = 1 \/ d = 2 \/ d = 3 \/ d = 4 \/ d = 5 \/ d = 6 \/ d = 7
              \/ d = 8 \/ d = 9) by lia.
  repeat (destruct E as [E|E]; [subst d; reflexivity|]). subst d. reflexivity.
Qed.

Lemma two_digits_of_text (n : Z) :
  0 <= n <= 99 ->
  Sql.two_digits (Props.digit_char (n / 10)) (Props.digit_char (n mod 10)) = Some n.
Proof.
  intros H. unfold Sql.two_digits.
  pose proof (Z.div_mod n 10 ltac:(lia)) as Hdm.
  pose proof (Z.mod_pos_bound n 10 ltac:(lia)) as Hm.
  assert (Hq : 0 <= n / 10 <= 9).
  { split; [apply Z.div_pos; lia|]. apply Z.lt_succ_r. apply Z.div_lt_upper_bound; lia. }
  rewrite !digit_of_digit_char by lia. f_equal. lia.
Qed.

Lemma cast_time_hh_mm_ss (h m s : Z) :
  0 <= h <= 23 -> 0 <= m <= 59 -> 0 <= s <= 59 ->
  Sql.cast_time (Props.hh_mm_ss h m s) = Some (h * 3600 + m * 60 + s).
Proof.
  intros Hh Hm Hs. unfold Props.hh_mm_ss, Props.two_digit_text, Sql.cast_time.
  simpl list_ascii_of_string. cbv iota beta.
  change (Sql.colon ":") with true. cbn [andb].
  rewrite !two_digits_of_text by lia. unfold Sql.clock.
  replace ((h <=? 23) && (m <=? 59) && (s <=? 59)) with true; [reflexivity|].
  symmetry. rewrite !andb_true_iff, !Z.leb_le. lia.
Qed.

Lemma written_hh_mm_ss_length (text : string) :
  Props.written_hh_mm_ss text -> String.length text = 8%nat.
Proof. intros [h [m [s [_ [_ [_ ->]]]]]]. reflexivity. Qed.

(** So an interval written [HH:MM:SS] whose start is not before its end
    on the clock is one the services refuse. *)
Lemma clock_disorder_is_rejected (i : IntervalData.t) :
  Props.two_digit_hours i ->
  Props.invalid_interval i ->
  Props.rejected_interval i.
Proof.
  intros [L1 L2] [Hd | [Hd | [t1 [t2 [H1 [H2 Hge]]]]]];
    [left; assumption | right; left; assumption|].
  right. right. unfold Js.str_ge.
  rewrite (two_digit_hours_clock_order _ _ t1 t2 (written_hh_mm_ss_length _ L1)
             (written_hh_mm_ss_length _ L2) H1 H2).
  apply negb_true_iff, Z.ltb_ge. lia.
Qed.

(** So [addInterval], on times written [HH:MM:SS], stores an interval
    that starts before it ends. *)
Lemma addInterval_two_digit_hours_ordered (availabilityId : Z) (i : IntervalData.t)
    (db db' : Pg.DB) (r : Interval.row) :
  Props.two_digit_hours i ->
  AvailabilityService.addInterval availabilityId i db = (Pg.Ok r, db') ->
  Interval.start_time r < Interval.end_time r.
Proof.
  intros [L1 L2]. unfold AvailabilityService.addInterval. unfold_monad.
  destruct (AvailabilityModel.findById availabilityId db); [|discriminate].
  destruct ((IntervalData.day_of_week i <? 1) || (IntervalData.day_of_week i >? 7));
    [discriminate|].
  destruct (Js.str_ge (IntervalData.start_time i) (IntervalData.end_time i)) eqn:Hge;
    [discriminate|].
  unfold AvailabilityModel.addInterval.
  destruct (Sql.insert_interval _ _ _ _ db) as [[row|e] db1] eqn:Hins;
    [|destruct e; discriminate].
  intros H. inversion H; subst; clear H.
  apply insert_interval_returns in Hins.
  destruct Hins as [t1 [t2 [H1 [H2 [Hr _]]]]].
  unfold Js.str_ge in Hge. apply negb_false_iff in Hge.
  rewrite (two_digit_hours_clock_order _ _ t1 t2 (written_hh_mm_ss_length _ L1)
             (written_hh_mm_ss_length _ L2) H1 H2) in Hge.
  apply Z.ltb_lt in Hge. rewrite Hr. simpl. exact Hge.
Qed.

(** Hence a create or an update of an existing availability whose list
    holds an invalid interval written [HH:MM:SS] fails with 400 before
    anything is written. *)
Lemma invalid_hh_mm_ss_intervals_rejected (db : Pg.DB) (ivs : list IntervalData.t) :
  Exists (fun i => Props.two_digit_hours i /\ Props.invalid_interval i) ivs ->
  (forall data,
     AvailabilityData.intervals data = Some ivs ->
     AvailabilityService.createAvailability data db = (Pg.Throw (Pg.CustomError 400), db))
  /\ (forall id data,
        AvailabilityModel.findById id db <> None ->
        AvailabilityUpdate.intervals data = Some ivs ->
        AvailabilityService.updateAvailability id data db
        = (Pg.Throw (Pg.CustomError 400), db)).
Proof.
  intros Hbad.
  assert (Hrej : Exists Props.rejected_interval ivs).
  { apply Exists_exists in Hbad. destruct Hbad as [i [Hin [H2 Hinv]]].
    apply Exists_exists. exists i. split; [assumption|].
    apply clock_disorder_is_rejected; assumption. }
  destruct (refused_intervals_fail_before_write db) as [Hcreate [Hupdate _]].
  split.
  - intros data Hivs. apply (Hcreate data ivs Hivs Hrej).
  - intros id data Hex Hivs. apply (Hupdate id data ivs Hex Hivs Hrej).
Qed.

(** C5. On the empty database [createAvailability] is called with one
    interval, day 1 from "10:00:00" to "9:00:00": an invalid interval, its
    start at ten o'clock being after its end at nine.  The call does not
    fail with 400: it returns, and it has stored the availability and the
    interval 10:00:00-09:00:00, which starts after it ends. *)
Theorem create_stores_interval_ending_before_start :
  AvailabilityData.intervals Scenario.ten_to_nine
  = Some [IntervalData.mk 1 "10:00:00" "9:00:00"]
  /\ Props.invalid_interval (IntervalData.mk 1 "10:00:00" "9:00:00")
  /\ (exists w,
        AvailabilityService.createAvailability Scenario.ten_to_nine Pg.empty
        = (Pg.Ok (Some w), Scenario.with_odd_hours))
  /\ Pg.availability (Pg.tables Scenario.with_odd_hours) = [Availability.mk 1 "Odd" "UTC"]
  /\ Pg.availability_interval (Pg.tables Scenario.with_odd_hours)
     = [Interval.mk 1 1 1 36000 32400]
  /\ ~ Props.intervals_well_ordered Scenario.with_odd_hours.
Proof.
  split; [reflexivity|]. split.
  { right. right. exists 36000, 32400. repeat split; [vm_compute; reflexivity ..|lia]. }
  split; [eexists; vm_compute; reflexivity|].
  split; [vm_compute; reflexivity|]. split; [vm_compute; reflexivity|].
  intros H.
  assert (Hlt : Interval.start_time (Interval.mk 1 1 1 36000 32400)
                < Interval.end_time (Interval.mk 1 1 1 36000 32400)).
  { apply H. vm_compute. left. reflexivity. }
  simpl in Hlt. lia.
Qed.

(** With a one-digit hour the two orders part: "10:00:00" to "9:00:00"
    passes the comparison, is stored, and starts after it ends. *)
Lemma one_digit_hour_passes_validation :
  exists r db',
    AvailabilityService.createAvailability Scenario.ten_to_nine Scenario.with_event_type
    = (Pg.Ok r, db')
    /\ In (Interval.mk 8 2 1 36000 32400) (Pg.availability_interval (Pg.tables db')).
Proof.
  eexists. eexists. split.
  - vm_compute. reflexivity.
  - vm_compute. right. right. right. right. right. right. right. left. reflexivity.
Qed.

(* ================================================================== *)
(** ** Updating a booking onto its own slot *)

(** [findById] on the id of a stored booking. *)
Lemma find_booking (db : Pg.DB) (b : Booking.row) :
  Props.primary_key db -> In b (Pg.bookings (Pg.tables db)) ->
  find (fun r => Z.eqb (Booking.id r) (Booking.id b)) (Pg.bookings (Pg.tables db)) = Some b.
Proof.
  intros Hpk Hin.
  destruct (find _ (Pg.bookings (Pg.tables db))) as [r|] eqn:Hf.
  - apply find_some in Hf. destruct Hf as [Hr Hid]. apply Z.eqb_eq in Hid.
    f_equal. apply Hpk; assumption.
  - exfalso. apply (find_none _ _ Hf) in Hin. rewrite Z.eqb_refl in Hin. discriminate.
Qed.

(** Excluding its own id, a booking that nothing else overlaps has no
    conflict with its own slot. *)
Lemma own_slot_is_free (db : Pg.DB) (b : Booking.row) :
  Props.bookings_well_formed db ->
  In b (Pg.bookings (Pg.tables db)) ->
  (forall r, In r (Pg.bookings (Pg.tables db)) ->
     Booking.id r <> Booking.id b ->
     Booking.booking_status r <> cancelled ->
     Booking.event_type_id r = Booking.event_type_id b ->
     Booking.date r = Booking.date b ->
     ~ Props.overlaps (Booking.start_time b) (Booking.end_time b) r) ->
  BookingsModel.checkConflict (Booking.event_type_id b) (Booking.date b)
    (Booking.start_time b) (Booking.end_time b) (Some (Booking.id b)) db = false.
Proof.
  intros Hwf Hin Hfree.
  destruct (BookingsModel.checkConflict _ _ _ _ _ db) eqn:Hc; [|reflexivity].
  exfalso. apply checkConflict_true_iff in Hc.
  - destruct Hc as [r [Hr [HE [HD [Hs [Hx Hov]]]]]].
    exact (Hfree r Hr (Hx _ eq_refl) Hs HE HD Hov).
  - apply (Hwf b Hin).
  - assumption.
Qed.

(** The service call on a stored booking whose merged slot is its own
    and is free of other bookings: both checks pass, and the outcome is
    that of the model's [updateBooking]. *)
Lemma updateBooking_own_slot_steps (db : Pg.DB) (b : Booking.row) (data : BookingUpdate.t) :
  Props.bookings_well_formed db ->
  Props.primary_key db ->
  In b (Pg.bookings (Pg.tables db)) ->
  Props.merged_is_own data b ->
  (forall r, In r (Pg.bookings (Pg.tables db)) ->
     Booking.id r <> Booking.id b ->
     Booking.booking_status r <> cancelled ->
     Booking.event_type_id r = Booking.event_type_id b ->
     Booking.date r = Booking.date b ->
     ~ Props.overlaps (Booking.start_time b) (Booking.end_time b) r) ->
  BookingsService.updateBooking (Booking.id b) data db
  = match BookingsModel.updateBooking (Booking.id b) data db with
    | (Pg.Ok (Some u), db') => (Pg.Ok (BookingsService.enrichBooking u db'), db')
    | (Pg.Ok None, db') => (Pg.Throw (Pg.CustomError 500), db')
    | (Pg.Throw (Pg.CustomError c), db') => (Pg.Throw (Pg.CustomError c), db')
    | (Pg.Throw _, db') => (Pg.Throw (Pg.CustomError 500), db')
    end.
Proof.
  intros Hwf Hpk Hin [HmE [HmD [HmS HmEe]]] Hfree.
  pose proof (own_slot_is_free db b Hwf Hin Hfree) as Hno.
  destruct (Hwf b Hin) as [_ Hord].
  assert (Hge : (Booking.start_time b >=? Booking.end_time b) = false)
    by (rewrite Z.geb_leb; apply Z.leb_gt; lia).
  unfold BookingsService.updateBooking. unfold_monad.
  unfold BookingsModel.findById. rewrite (find_booking db b Hpk Hin).
  destruct (BookingsService.touches_slot data); cbv beta iota;
    rewrite ?HmE, ?HmD, ?HmS, ?HmEe, ?Hno; cbv beta iota;
    destruct (BookingUpdate.start_time data) as [s|], (BookingUpdate.end_time data) as [e|];
    simpl in HmS, HmEe; subst; rewrite ?Hge; cbv beta iota;
    destruct (BookingsModel.updateBooking (Booking.id b) data db) as [[[u|]|x] db1];
    try reflexivity; destruct x; reflexivity.
Qed.

(** The [UPDATE] of a stored booking goes through when the new row fits
    the columns and takes no other booking's slot. *)
Lemma update_booking_succeeds (db : Pg.DB) (b : Booking.row)
    (assign : Booking.row -> Booking.row) :
  Props.primary_key db ->
  In b (Pg.bookings (Pg.tables db)) ->
  Props.booking_fits_columns (assign b) ->
  existsb (fun o => negb (Z.eqb (Booking.id o) (Booking.id b)) && Sql.same_slot (assign b) o)
          (Pg.bookings (Pg.tables db)) = false ->
  Sql.update_booking (Booking.id b) assign db
  = (Pg.Ok (Some (assign b)),
     Sql.set_bookings
       (map (fun o => if Z.eqb (Booking.id o) (Booking.id b) then assign b else o)
            (Pg.bookings (Pg.tables db))) db).
Proof.
  intros Hpk Hin [Hd [He [Hn Hl]]] Hslot.
  unfold Sql.update_booking. cbv zeta. rewrite (find_booking db b Hpk Hin).
  unfold Sql.is_date. rewrite Hd. cbn [negb].
  assert (Hv : Sql.varchar 255 (Booking.client_email (assign b))
               && Sql.varchar 255 (Booking.name (assign b))
               && Sql.varchar_or_null 500 (Booking.meeting_link (assign b)) = true).
  { unfold Sql.varchar_or_null, Sql.varchar.
    rewrite !andb_true_iff. split; [split|]; try (apply Nat.leb_le; assumption).
    destruct (Booking.meeting_link (assign b)) as [l|]; [|reflexivity].
    apply Nat.leb_le. apply Hl. reflexivity. }
  rewrite Hv, Hslot. reflexivity.
Qed.

(** The row a payload with fitting texts and the booking's own date
    makes of a stored booking fits the columns. *)
Lemma assign_fits_columns (data : BookingUpdate.t) (b : Booking.row) :
  Props.booking_fits_columns b ->
  Props.update_fits_columns data ->
  Booking.date (BookingsModel.assign data b) = Booking.date b ->
  Props.booking_fits_columns (BookingsModel.assign data b).
Proof.
  intros [Hd [He [Hn Hl]]] [Ue [Un Ul]] Hdate.
  unfold Props.booking_fits_columns. rewrite Hdate.
  split; [assumption|]. cbn [BookingsModel.assign Booking.client_email Booking.name
                               Booking.meeting_link].
  split; [|split].
  - destruct (BookingUpdate.client_email data) as [v|]; [apply (Ue v eq_refl) | assumption].
  - destruct (BookingUpdate.name data) as [v|]; [apply (Un v eq_refl) | assumption].
  - intros l. destruct (BookingUpdate.meeting_link data) as [v|]; [|apply Hl].
    unfold Js.or_null_str. destruct (Js.truthy_str v); [|discriminate].
    intros H. inversion H; subst. apply (Ul l eq_refl).
Qed.

(** The model's guard [updates.length === 1] holds exactly when the
    payload names none of the eight columns. *)
Lemma has_updates_false (data : BookingUpdate.t) :
  BookingsModel.has_updates data = false <-> Props.names_no_column data.
Proof.
  unfold BookingsModel.has_updates, Props.names_no_column. split.
  - destruct (BookingUpdate.client_email data), (BookingUpdate.name data),
      (BookingUpdate.additional_notes data), (BookingUpdate.start_time data),
      (BookingUpdate.end_time data), (BookingUpdate.date data),
      (BookingUpdate.meeting_link data), (BookingUpdate.booking_status data);
      try discriminate. intros _. repeat split.
  - intros [-> [-> [-> [-> [-> [-> [-> ->]]]]]]]. reflexivity.
Qed.

(** C9. For a stored booking [b] and a payload whose effective
    [event_type_id], [date], [start_time], [end_time] are [b]'s own, when
    no other non-cancelled booking of the same event type and date
    overlaps [b], [updateBooking(b.id, payload)] never fails with 409: the
    conflict query excludes [b] itself.  A payload that names no column
    the [UPDATE] can assign is refused with 500 and the database is left
    as it was.  The call returns when the payload names at least one such
    column, its [date], if present, is not the empty string, and the
    texts it supplies fit the columns, as those of [b] do. *)
Theorem updateBooking_excludes_itself (db : Pg.DB) (b : Booking.row) (data : BookingUpdate.t) :
  Props.bookings_well_formed db ->
  Props.primary_key db ->
  In b (Pg.bookings (Pg.tables db)) ->
  Props.merged_is_own data b ->
  (forall r, In r (Pg.bookings (Pg.tables db)) ->
     Booking.id r <> Booking.id b ->
     Booking.booking_status r <> cancelled ->
     Booking.event_type_id r = Booking.event_type_id b ->
     Booking.date r = Booking.date b ->
     ~ Props.overlaps (Booking.start_time b) (Booking.end_time b) r) ->
  fst (BookingsService.updateBooking (Booking.id b) data db) <> Pg.Throw (Pg.CustomError 409)
  /\ (Props.names_no_column data ->
      BookingsService.updateBooking (Booking.id b) data db
      = (Pg.Throw (Pg.CustomError 500), db))
  /\ (~ Props.names_no_column data ->
      BookingUpdate.date data <> Some EmptyString ->
      Props.slot_unique db ->
      Props.booking_fits_columns b ->
      Props.update_fits_columns data ->
      exists r db', BookingsService.updateBooking (Booking.id b) data db = (Pg.Ok r, db')).
Proof.
  intros Hwf Hpk Hin Hown Hfree.
  rewrite (updateBooking_own_slot_steps db b data Hwf Hpk Hin Hown Hfree).
  destruct Hown as [HmE [HmD [HmS HmEe]]].
  unfold BookingsModel.updateBooking, Pg.throw.
  split; [|split].
  - destruct (BookingsModel.has_updates data); [|simpl; congruence].
    unfold Sql.update_booking. cbv zeta. rewrite (find_booking db b Hpk Hin).
    repeat match goal with
           | |- context [if ?c then _ else _] => destruct c
           end; simpl; congruence.
  - intros Hnone. apply has_updates_false in Hnone. rewrite Hnone. reflexivity.
  - intros Hsome Hdate Huniq Hb Hdata.
    destruct (BookingsModel.has_updates data) eqn:Hup;
      [|exfalso; apply Hsome; apply has_updates_false; assumption].
    assert (Hd : Booking.date (BookingsModel.assign data b) = Booking.date b).
    { simpl. destruct (BookingUpdate.date data) as [d|]; [|reflexivity].
      unfold Js.or_str in HmD. destruct (Js.truthy_str d) eqn:Ht; [assumption|].
      unfold Js.truthy_str in Ht. apply negb_false_iff, String.eqb_eq in Ht.
      subst d. congruence. }
    rewrite (update_booking_succeeds db b (BookingsModel.assign data) Hpk Hin).
    + eexists. eexists. reflexivity.
    + apply assign_fits_columns; assumption.
    + destruct (existsb _ _) eqn:Hx; [|reflexivity]. exfalso.
      apply existsb_exists in Hx. destruct Hx as [o [Ho Hx]].
      apply andb_true_iff in Hx. destruct Hx as [Hne Hsame].
      apply negb_true_iff, Z.eqb_neq in Hne. apply Hne. symmetry.
      apply (Huniq b o Hin Ho).
      unfold Sql.same_slot in *. rewrite Hd in Hsame.
      simpl Booking.event_type_id in Hsame. simpl Booking.start_time in Hsame.
      rewrite HmS in Hsame. exact Hsame.
Qed.

(** C9 on booking 1: a payload that restates its two times, and one that
    carries its [event_type_id] only. *)
Lemma updateBooking_excludes_itself_witness :
  (fst (BookingsService.updateBooking 1 Scenario.same_times Scenario.one_booking)
   <> Pg.Throw (Pg.CustomError 409)
   /\ exists r db',
        BookingsService.updateBooking 1 Scenario.same_times Scenario.one_booking
        = (Pg.Ok r, db'))
  /\ BookingsService.updateBooking 1 Scenario.same_event_type Scenario.one_booking
     = (Pg.Throw (Pg.CustomError 500), Scenario.one_booking).
Proof.
  assert (Hwf : Props.bookings_well_formed Scenario.one_booking).
  { intros r Hin. vm_compute in Hin. destruct Hin as [<-|[]]. simpl. lia. }
  assert (Hpk : Props.primary_key Scenario.one_booking).
  { intros a b Ha Hb. vm_compute in Ha, Hb.
    destruct Ha as [<-|[]]; destruct Hb as [<-|[]]. reflexivity. }
  assert (Hin : In (Scenario.booking_1 confirmed)
                   (Pg.bookings (Pg.tables Scenario.one_booking))).
  { vm_compute. left. reflexivity. }
  assert (Hfree : forall r, In r (Pg.bookings (Pg.tables Scenario.one_booking)) ->
            Booking.id r <> Booking.id (Scenario.booking_1 confirmed) ->
            Booking.booking_status r <> cancelled ->
            Booking.event_type_id r = Booking.event_type_id (Scenario.booking_1 confirmed) ->
            Booking.date r = Booking.date (Scenario.booking_1 confirmed) ->
            ~ Props.overlaps (Booking.start_time (Scenario.booking_1 confirmed))
                (Booking.end_time (Scenario.booking_1 confirmed)) r).
  { intros r Hr. vm_compute in Hr. destruct Hr as [<-|[]]. simpl. congruence. }
  split.
  - destruct (updateBooking_excludes_itself Scenario.one_booking
                (Scenario.booking_1 confirmed) Scenario.same_times Hwf Hpk Hin)
      as [Hno [_ Hok]].
    + repeat split; reflexivity.
    + exact Hfree.
    + split; [exact Hno|]. apply Hok.
      * intros [_ [_ [_ [Hs _]]]]. discriminate Hs.
      * discriminate.
      * intros a b Ha Hb. vm_compute in Ha, Hb.
        destruct Ha as [<-|[]]; destruct Hb as [<-|[]]. reflexivity.
      * split; [vm_compute; reflexivity|].
        split; [simpl; lia|]. split; [simpl; lia | discriminate].
      * split; [discriminate|]. split; discriminate.
  - destruct (updateBooking_excludes_itself Scenario.one_booking
                (Scenario.booking_1 confirmed) Scenario.same_event_type Hwf Hpk Hin)
      as [_ [Hnone _]].
    + repeat split; reflexivity.
    + exact Hfree.
    + apply Hnone. repeat split.
Defined.

(** A payload that carries only [event_type_id], with the booking's own
    value: the merged values are the booking's own, the booking is alone
    in the table, no conflict is raised, and the call still does not
    succeed, the [UPDATE] having no column to assign. *)
Lemma updateBooking_own_event_type_only_fails :
  Props.merged_is_own Scenario.same_event_type (Scenario.booking_1 confirmed)
  /\ Pg.bookings (Pg.tables Scenario.one_booking) = [Scenario.booking_1 confirmed]
  /\ BookingsService.updateBooking 1 Scenario.same_event_type Scenario.one_booking
     = (Pg.Throw (Pg.CustomError 500), Scenario.one_booking)
  /\ forall r,
       fst (BookingsService.updateBooking 1 Scenario.same_event_type Scenario.one_booking)
       <> Pg.Ok r.
Proof.
  split; [|split; [|split]].
  - repeat split; reflexivity.
  - vm_compute. reflexivity.
  - vm_compute. reflexivity.
  - intros r. vm_compute. discriminate.
Qed.

(* ================================================================== *)
(** ** Looking an event type up by slug *)

(** Whatever [findBySlug] returns matches on [url_slug] or on [name]. *)
Lemma findBySlug_matches (slug : string) (db : Pg.DB) (e : EventType.row) :
  EventTypeModel.findBySlug slug db = Some e ->
  In e (Pg.event_types (Pg.tables db))
  /\ (EventType.url_slug e = Some slug \/ EventType.name e = slug).
Proof.
  unfold EventTypeModel.findBySlug. intros H. apply find_some in H.
  destruct H as [Hin Hm]. split; [assumption|].
  apply orb_true_iff in Hm. destruct Hm as [Hm|Hm].
  - left. unfold Sql.has_slug in Hm.
    destruct (EventType.url_slug e) as [s|]; [|discriminate].
    apply String.eqb_eq in Hm. congruence.
  - right. apply String.eqb_eq in Hm. assumption.
Qed.

(** It returns the first row of the table that matches on either column. *)
Lemma findBySlug_first_match (slug : string) (db : Pg.DB) (e : EventType.row)
    (rest : list EventType.row) :
  Pg.event_types (Pg.tables db) = e :: rest ->
  EventType.name e = slug ->
  EventTypeModel.findBySlug slug db = Some e.
Proof.
  intros Hrows Hname. unfold EventTypeModel.findBySlug. rewrite Hrows. simpl.
  rewrite Hname, String.eqb_refl, orb_true_r. reflexivity.
Qed.

(** C10. In the state with event type 1 named "intro" (slug "welcome") and
    event type 2 with slug "intro" (name "chat"), an event type whose
    [url_slug] is "intro" exists, and [findBySlug("intro")], hence
    [getEventTypeBySlug("intro")], returns event type 1, which matches on
    its name only. *)
Theorem findBySlug_name_match_comes_first :
  Pg.event_types (Pg.tables Scenario.two_event_types)
  = [EventType.mk 1 "intro" None 30 (Some "welcome"%string) None (Some 1);
     EventType.mk 2 "chat" None 15 (Some "intro"%string) None (Some 1)]
  /\ Props.slug_taken "intro" Scenario.two_event_types
  /\ EventTypeModel.findBySlug "intro" Scenario.two_event_types
     = Some (EventType.mk 1 "intro" None 30 (Some "welcome"%string) None (Some 1))
  /\ fst (EventTypeService.getEventTypeBySlug "intro" Scenario.two_event_types)
     = Pg.Ok (EventTypeService.mk
                (EventType.mk 1 "intro" None 30 (Some "welcome"%string) None (Some 1))
                "/book/welcome").
Proof.
  split; [|split; [|split]].
  - vm_compute. reflexivity.
  - exists (EventType.mk 2 "chat" None 15 (Some "intro"%string) None (Some 1)).
    split; [vm_compute; right; left; reflexivity | reflexivity].
  - vm_compute. reflexivity.
  - vm_compute. reflexivity.
Qed.

(** Both event types were created through the service. *)
Lemma two_event_types_reachable :
  Scenario.returned (EventTypeService.createEventType Scenario.intro) Pg.empty = true
  /\ Scenario.returned (EventTypeService.createEventType Scenario.chat)
       (Scenario.after (EventTypeService.createEventType Scenario.intro) Pg.empty) = true.
Proof. split; vm_compute; reflexivity. Qed.

(* ================================================================== *)
(** ** Sorting *)

Lemma insert_by_perm {A} (le : A -> A -> bool) (r : A) (l : list A) :
  Permutation (r :: l) (Sql.insert_by le r l).
Proof.
  induction l as [|x l IH]; simpl.
  - apply Permutation_refl.
  - destruct (le r x).
    + apply Permutation_refl.
    + eapply perm_trans; [apply perm_swap|]. apply perm_skip. exact IH.
Qed.

Lemma order_by_perm {A} (le : A -> A -> bool) (l : list A) :
  Permutation l (Sql.order_by le l).
Proof.
  induction l as [|x l IH]; simpl.
  - apply perm_nil.
  - eapply perm_trans; [apply perm_skip; exact IH|]. apply insert_by_perm.
Qed.

Lemma insert_by_sorted {A} (le : A -> A -> bool) (r : A) (l : list A) :
  (forall a b, le a b = false -> le b a = true) ->
  Sorted (fun a b => le a b = true) l ->
  Sorted (fun a b => le a b = true) (Sql.insert_by le r l).
Proof.
  intros Htot. induction l as [|x l IH]; simpl; intros Hs.
  - repeat constructor.
  - destruct (le r x) eqn:Hrx.
    + constructor; [assumption|]. constructor. assumption.
    + inversion Hs as [|? ? Hs' Hhd]; subst.
      constructor; [apply IH; assumption|].
      destruct l as [|y l']; simpl.
      * constructor. apply Htot. assumption.
      * destruct (le r y); constructor.
        -- apply Htot. assumption.
        -- inversion Hhd; assumption.
Qed.

Lemma order_by_sorted {A} (le : A -> A -> bool) (l : list A) :
  (forall a b, le a b = false -> le b a = true) ->
  Sorted (fun a b => le a b = true) (Sql.order_by le l).
Proof.
  intros Htot. induction l as [|x l IH]; simpl.
  - constructor.
  - apply insert_by_sorted; assumption.
Qed.

Lemma order_by_day_start_order_by (l : list Interval.row) :
  Sql.order_by_day_start l = Sql.order_by Sql.day_start_le l.
Proof.
  unfold Sql.order_by_day_start, Sql.order_by.
  induction l as [|x l IH]; simpl; [reflexivity|]. rewrite IH.
  generalize (fold_right (Sql.insert_by Sql.day_start_le) [] l). intros m.
  induction m as [|y m IHm]; simpl; [reflexivity|].
  destruct (Sql.day_start_le x y); [reflexivity|]. rewrite IHm. reflexivity.
Qed.

(** Text order on strings is transitive. *)
Lemma ascii_compare_lt_trans (a b c : ascii) :
  Ascii.compare a b = Lt -> Ascii.compare b c = Lt -> Ascii.compare a c = Lt.
Proof.
  unfold Ascii.compare. rewrite !N.compare_lt_iff. lia.
Qed.

Lemma string_compare_lt_trans (a : string) :
  forall b c, String.compare a b = Lt -> String.compare b c = Lt -> String.compare a c = Lt.
Proof.
  induction a as [|x a IH]; intros [|y b] [|z c]; simpl; try discriminate; try reflexivity.
  destruct (Ascii.compare x y) eqn:Hxy; try discriminate.
  - apply Ascii.compare_eq_iff in Hxy. subst y.
    destruct (Ascii.compare x z) eqn:Hxz; try discriminate; try reflexivity.
    apply IH.
  - intros _. destruct (Ascii.compare y z) eqn:Hyz; try discriminate.
    + apply Ascii.compare_eq_iff in Hyz. subst z. rewrite Hxy. reflexivity.
    + intros _. rewrite (ascii_compare_lt_trans x y z Hxy Hyz). reflexivity.
Qed.

Lemma string_compare_refl (a : string) : String.compare a a = Eq.
Proof.
  induction a as [|x a IH]; simpl; [reflexivity|].
  unfold Ascii.compare. rewrite N.compare_refl. exact IH.
Qed.

Lemma string_compare_gt_lt (a b : string) :
  String.compare a b = Gt <-> String.compare b a = Lt.
Proof.
  rewrite (String.compare_antisym b a).
  destruct (String.compare a b); simpl; split; congruence.
Qed.

Lemma date_start_ge_newest_first (a b : Booking.row) :
  Sql.date_start_ge a b = true <-> Props.newest_first a b.
Proof.
  unfold Sql.date_start_ge, Props.newest_first, String.ltb.
  destruct (String.compare (Booking.date a) (Booking.date b)) eqn:Hc.
  - apply String.compare_eq_iff in Hc. rewrite Hc, string_compare_refl, Z.leb_le.
    split; [intros H; right; split; [reflexivity|exact H]|].
    intros [H|[_ H]]; [discriminate | exact H].
  - assert (Hba : String.compare (Booking.date b) (Booking.date a) = Gt).
    { apply string_compare_gt_lt. exact Hc. }
    rewrite Hba. split; [discriminate|].
    intros [H|[H _]]; [discriminate|]. rewrite H, string_compare_refl in Hc. discriminate.
  - apply string_compare_gt_lt in Hc. rewrite Hc.
    split; [intros _; left; reflexivity | reflexivity].
Qed.

Lemma newest_first_trans (a b c : Booking.row) :
  Props.newest_first a b -> Props.newest_first b c -> Props.newest_first a c.
Proof.
  unfold Props.newest_first, String.ltb.
  intros [H1|[H1 H1']] [H2|[H2 H2']].
  - left.
    destruct (String.compare (Booking.date b) (Booking.date a)) eqn:Hba; try discriminate.
    destruct (String.compare (Booking.date c) (Booking.date b)) eqn:Hcb; try discriminate.
    rewrite (string_compare_lt_trans _ _ _ Hcb Hba). reflexivity.
  - left. rewrite <- H2. exact H1.
  - left. rewrite H1. exact H2.
  - right. split; [congruence | lia].
Qed.

Lemma date_start_ge_total (a b : Booking.row) :
  Sql.date_start_ge a b = false -> Sql.date_start_ge b a = true.
Proof.
  unfold Sql.date_start_ge. rewrite (String.compare_antisym (Booking.date a) (Booking.date b)).
  destruct (String.compare (Booking.date b) (Booking.date a)); simpl; try congruence.
  rewrite Z.leb_gt, Z.leb_le. lia.
Qed.

Lemma order_by_date_start_sorted (l : list Booking.row) :
  StronglySorted Props.newest_first (Sql.order_by Sql.date_start_ge l).
Proof.
  apply Sorted_StronglySorted.
  - intros a b c. apply newest_first_trans.
  - assert (H := order_by_sorted Sql.date_start_ge l date_start_ge_total).
    induction H as [|x m Hm IH Hhd]; constructor; [assumption|].
    destruct Hhd; constructor. apply date_start_ge_newest_first. assumption.
Qed.

(* ================================================================== *)
(** ** Listing bookings *)

Lemma truthy_str_true (s : string) : Js.truthy_str s = true <-> s <> EmptyString.
Proof.
  unfold Js.truthy_str. rewrite negb_true_iff. split.
  - intros H ->. discriminate.
  - intros H. destruct s; [congruence | reflexivity].
Qed.

Lemma truthy_num_true (n : Z) : Js.truthy_num n = true <-> n <> 0.
Proof. unfold Js.truthy_num. rewrite negb_true_iff, Z.eqb_neq. tauto. Qed.

(** A clause on a text column: appended when the filter is truthy. *)
Lemma clause_str_selects (x : option string) (v : string) :
  match BookingsModel.clause_str x with Some s => String.eqb v s | None => true end = true
  <-> (forall s, x = Some s -> s <> EmptyString -> v = s).
Proof.
  unfold BookingsModel.clause_str, Js.truthy_opt_str.
  destruct x as [s|].
  - destruct (Js.truthy_str s) eqn:Ht.
    + apply truthy_str_true in Ht. rewrite String.eqb_eq. split.
      * intros -> t Ht' _. congruence.
      * intros H. apply H; [reflexivity | assumption].
    + split; [|reflexivity]. intros _ t Ht' Hne. inversion Ht'; subst.
      apply truthy_str_true in Hne. congruence.
  - split; [intros _ s H; discriminate | reflexivity].
Qed.

Lemma clause_num_selects (x : option Z) (v : Z) :
  match BookingsModel.clause_num x with Some n => Z.eqb v n | None => true end = true
  <-> (forall n, x = Some n -> n <> 0 -> v = n).
Proof.
  unfold BookingsModel.clause_num, Js.truthy_opt_num.
  destruct x as [n|].
  - destruct (Js.truthy_num n) eqn:Ht.
    + apply truthy_num_true in Ht. rewrite Z.eqb_eq. split.
      * intros -> t Ht' _. congruence.
      * intros H. apply H; [reflexivity | assumption].
    + split; [|reflexivity]. intros _ t Ht' Hne. inversion Ht'; subst.
      apply truthy_num_true in Hne. congruence.
  - split; [intros _ s H; discriminate | reflexivity].
Qed.

Lemma where_bookings_selected (filters : BookingFilters.t) (r : Booking.row) :
  Sql.where_bookings
    (BookingsModel.clause_num (BookingFilters.event_type_id filters))
    (BookingsModel.clause_str (BookingFilters.date filters))
    (BookingsModel.clause_str (BookingFilters.booking_status filters))
    (BookingsModel.clause_str (BookingFilters.client_email filters)) r = true
  <-> Props.selected filters r.
Proof.
  unfold Sql.where_bookings, Props.selected.
  rewrite !andb_true_iff, clause_num_selects, !clause_str_selects. tauto.
Qed.

(** The query of a listing whose date clause, if any, casts. *)
Lemma select_bookings_valid_date (e : option Z) (d s m : option string) (db : Pg.DB) :
  (forall x, d = Some x -> Sql.cast_date x = Some x) ->
  Sql.select_bookings e d s m db
  = (Pg.Ok (Sql.order_by Sql.date_start_ge
              (filter (Sql.where_bookings e d s m) (Pg.bookings (Pg.tables db)))), db).
Proof.
  intros Hd. unfold Sql.select_bookings. destruct d as [x|]; [|reflexivity].
  rewrite (Hd x eq_refl). reflexivity.
Qed.

Lemma clause_date_casts (filters : BookingFilters.t) :
  Props.date_filter_valid filters ->
  forall x, BookingsModel.clause_str (BookingFilters.date filters) = Some x ->
    Sql.cast_date x = Some x.
Proof.
  unfold Props.date_filter_valid, BookingsModel.clause_str, Js.truthy_opt_str.
  intros Hv x. destruct (BookingFilters.date filters) as [d|]; [|discriminate].
  destruct (Js.truthy_str d) eqn:Ht; [|discriminate].
  intros H. inversion H; subst. apply Hv; [reflexivity|]. apply truthy_str_true. assumption.
Qed.

(** X1. With a date filter that is absent, empty or a day of the calendar,
    [getAllBookings] returns, changes nothing, and lists exactly the stored
    bookings that every non-empty, non-zero filter selects, each one once
    and enriched, the latest date first and on one date the latest start
    first; a filter that is [0] or the empty string selects nothing. *)
Theorem getAllBookings_selected_newest_first (filters : BookingFilters.t) (db : Pg.DB) :
  Props.date_filter_valid filters ->
  exists rows,
    BookingsService.getAllBookings filters db
    = (Pg.Ok (BookingsService.enrichBookings rows db), db)
    /\ StronglySorted Props.newest_first rows
    /\ exists p,
         (forall r, p r = true <-> Props.selected filters r)
         /\ Permutation rows (filter p (Pg.bookings (Pg.tables db))).
Proof.
  intros Hv.
  set (w := Sql.where_bookings
              (BookingsModel.clause_num (BookingFilters.event_type_id filters))
              (BookingsModel.clause_str (BookingFilters.date filters))
              (BookingsModel.clause_str (BookingFilters.booking_status filters))
              (BookingsModel.clause_str (BookingFilters.client_email filters))).
  exists (Sql.order_by Sql.date_start_ge (filter w (Pg.bookings (Pg.tables db)))).
  split; [|split].
  - unfold BookingsService.getAllBookings, BookingsModel.findAll. unfold_monad.
    rewrite select_bookings_valid_date by (apply clause_date_casts; assumption).
    reflexivity.
  - apply order_by_date_start_sorted.
  - exists w. split.
    + intros r. apply where_bookings_selected.
    + apply Permutation_sym, order_by_perm.
Qed.

Lemma getAllBookings_selected_newest_first_witness :
  exists rows,
    BookingsService.getAllBookings
      (BookingFilters.mk (Some 0) (Some "2025-01-15"%string) (Some "confirmed"%string) None)
      Scenario.slot_retaken
    = (Pg.Ok (BookingsService.enrichBookings rows Scenario.slot_retaken), Scenario.slot_retaken)
    /\ StronglySorted Props.newest_first rows
    /\ exists p,
         (forall r, p r = true
                    <-> Props.selected
                          (BookingFilters.mk (Some 0) (Some "2025-01-15"%string)
                             (Some "confirmed"%string) None) r)
         /\ Permutation rows (filter p (Pg.bookings (Pg.tables Scenario.slot_retaken))).
Proof.
  apply (getAllBookings_selected_newest_first
           (BookingFilters.mk (Some 0) (Some "2025-01-15"%string) (Some "confirmed"%string) None)
           Scenario.slot_retaken).
  intros d Hd _. inversion Hd. vm_compute. reflexivity.
Defined.

(** X2. [getBookingsByEventTypeId] answers 404 when the event type does
    not exist; otherwise it lists exactly the bookings of that event type
    that the [date] and [booking_status] filters select, each one once
    and enriched, newest first: the [event_type_id] and [client_email]
    properties of the filters are not read. *)
Theorem getBookingsByEventTypeId_own_bookings (eventTypeId : Z)
    (filters : BookingFilters.t) (db : Pg.DB) :
  Props.date_filter_valid filters ->
  (EventTypeModel.findById eventTypeId db = None ->
   BookingsService.getBookingsByEventTypeId eventTypeId filters db
   = (Pg.Throw (Pg.CustomError 404), db))
  /\ (EventTypeModel.findById eventTypeId db <> None ->
      exists rows,
        BookingsService.getBookingsByEventTypeId eventTypeId filters db
        = (Pg.Ok (BookingsService.enrichBookings rows db), db)
        /\ StronglySorted Props.newest_first rows
        /\ exists p,
             (forall r, p r = true
                        <-> Booking.event_type_id r = eventTypeId
                            /\ Props.selected
                                 (BookingFilters.mk None (BookingFilters.date filters)
                                    (BookingFilters.booking_status filters) None) r)
             /\ Permutation rows (filter p (Pg.bookings (Pg.tables db)))).
Proof.
  intros Hv. split.
  - intros Hnone. unfold BookingsService.getBookingsByEventTypeId. unfold_monad.
    rewrite Hnone. reflexivity.
  - intros Hsome.
    set (w := Sql.where_bookings (Some eventTypeId)
                (BookingsModel.clause_str (BookingFilters.date filters))
                (BookingsModel.clause_str (BookingFilters.booking_status filters)) None).
    exists (Sql.order_by Sql.date_start_ge (filter w (Pg.bookings (Pg.tables db)))).
    split; [|split].
    + unfold BookingsService.getBookingsByEventTypeId, BookingsModel.findByEventTypeId.
      unfold_monad.
      destruct (EventTypeModel.findById eventTypeId db); [|congruence].
      rewrite select_bookings_valid_date by (apply clause_date_casts; assumption).
      reflexivity.
    + apply order_by_date_start_sorted.
    + exists w. split.
      * intros r. unfold w, Sql.where_bookings, Props.selected. simpl.
        rewrite !andb_true_iff, !clause_str_selects, Z.eqb_eq.
        split.
        -- intros [[[H1 H2] H3] _]. repeat split; try assumption; intros; discriminate.
        -- intros [H1 [_ [H2 [H3 _]]]]. repeat split; assumption.
      * apply Permutation_sym, order_by_perm.
Qed.

Lemma getBookingsByEventTypeId_own_bookings_witness :
  (EventTypeModel.findById 1 Scenario.slot_retaken = None ->
   BookingsService.getBookingsByEventTypeId 1
     (BookingFilters.mk (Some 7) (Some "2025-01-15"%string) None (Some "x@y.z"%string))
     Scenario.slot_retaken
   = (Pg.Throw (Pg.CustomError 404), Scenario.slot_retaken))
  /\ (EventTypeModel.findById 1 Scenario.slot_retaken <> None ->
      exists rows,
        BookingsService.getBookingsByEventTypeId 1
          (BookingFilters.mk (Some 7) (Some "2025-01-15"%string) None (Some "x@y.z"%string))
          Scenario.slot_retaken
        = (Pg.Ok (BookingsService.enrichBookings rows Scenario.slot_retaken),
           Scenario.slot_retaken)
        /\ StronglySorted Props.newest_first rows
        /\ exists p,
             (forall r, p r = true
                        <-> Booking.event_type_id r = 1
                            /\ Props.selected
                                 (BookingFilters.mk None
                                    (BookingFilters.date
                                       (BookingFilters.mk (Some 7)
                                          (Some "2025-01-15"%string) None
                                          (Some "x@y.z"%string)))
                                    (BookingFilters.booking_status
                                       (BookingFilters.mk (Some 7)
                                          (Some "2025-01-15"%string) None
                                          (Some "x@y.z"%string)))
                                    None) r)
             /\ Permutation rows (filter p (Pg.bookings (Pg.tables Scenario.slot_retaken)))).
Proof.
  apply (getBookingsByEventTypeId_own_bookings 1
           (BookingFilters.mk (Some 7) (Some "2025-01-15"%string) None (Some "x@y.z"%string))
           Scenario.slot_retaken).
  intros d Hd _. inversion Hd. vm_compute. reflexivity.
Defined.

(* ================================================================== *)
(** ** Booking writes *)

Lemma or_null_str_cases (x : option string) :
  Js.or_null_str x
  = match x with
    | Some EmptyString | None => None
    | Some s => Some s
    end.
Proof. destruct x as [[|c s]|]; reflexivity. Qed.

(** What a [createBooking] that returned went through. *)
Lemma createBooking_returned (db db' : Pg.DB) (data : BookingData.t)
    (e : BookingsService.enriched) :
  BookingsService.createBooking data db = (Pg.Ok e, db') ->
  EventTypeModel.findById (BookingData.event_type_id data) db <> None
  /\ BookingsModel.checkConflict (BookingData.event_type_id data) (BookingData.date data)
       (BookingData.start_time data) (BookingData.end_time data) None db = false
  /\ BookingData.start_time data < BookingData.end_time data
  /\ exists r,
       BookingsModel.createBooking data db = (Pg.Ok r, db')
       /\ e = BookingsService.enrichBooking r db'.
Proof.
  unfold BookingsService.createBooking. unfold_monad.
  destruct (EventTypeModel.findById (BookingData.event_type_id data) db) as [et|];
    [|discriminate].
  destruct (BookingsModel.checkConflict _ _ _ _ None db); [discriminate|].
  destruct (BookingData.start_time data >=? BookingData.end_time data) eqn:Hord; [discriminate|].
  rewrite Z.geb_leb in Hord. apply Z.leb_gt in Hord.
  destruct (BookingsModel.createBooking data db) as [[r|x] db1] eqn:Hc.
  - intros H. inversion H; subst. repeat split; try discriminate; try assumption.
    exists r. split; reflexivity.
  - destruct x; discriminate.
Qed.

(** What a [createBooking] that threw left behind. *)
Lemma createBooking_threw (db db' : Pg.DB) (data : BookingData.t) (x : Pg.exn) :
  BookingsService.createBooking data db = (Pg.Throw x, db') ->
  Pg.tables db' = Pg.tables db /\ exists c, x = Pg.CustomError c.
Proof.
  unfold BookingsService.createBooking. unfold_monad.
  destruct (EventTypeModel.findById (BookingData.event_type_id data) db) as [et|];
    [|intros H; inversion H; subst; split; [reflexivity | eexists; reflexivity]].
  destruct (BookingsModel.checkConflict _ _ _ _ None db);
    [intros H; inversion H; subst; split; [reflexivity | eexists; reflexivity]|].
  destruct (BookingData.start_time data >=? BookingData.end_time data);
    [intros H; inversion H; subst; split; [reflexivity | eexists; reflexivity]|].
  destruct (BookingsModel.createBooking data db) as [[r|y] db1] eqn:Hc; [discriminate|].
  unfold BookingsModel.createBooking in Hc. apply insert_booking_throws in Hc.
  intros H. assert (db' = db1) by (destruct y; inversion H; reflexivity). subst db1.
  split; [assumption|]. destruct y; inversion H; eexists; reflexivity.
Qed.

Lemma same_slot_true (a b : Booking.row) :
  Sql.same_slot a b = true
  <-> Booking.event_type_id a = Booking.event_type_id b
      /\ Booking.date a = Booking.date b
      /\ Booking.start_time a = Booking.start_time b.
Proof.
  unfold Sql.same_slot. rewrite !andb_true_iff, !Z.eqb_eq, String.eqb_eq. tauto.
Qed.

Lemma existsb_false_forall {A} (p : A -> bool) (l : list A) :
  existsb p l = false <-> forall x, In x l -> p x = false.
Proof.
  induction l as [|a l IH]; simpl.
  - split; [intros _ x [] | reflexivity].
  - rewrite orb_false_iff, IH. split.
    + intros [Ha Hl] x [<-|Hx]; auto.
    + intros H. split; [apply H; left; reflexivity | intros x Hx; apply H; right; assumption].
Qed.

Lemma event_type_exists_findById (id : Z) (db : Pg.DB) :
  Sql.event_type_exists id db = true <-> EventTypeModel.findById id db <> None.
Proof.
  unfold Sql.event_type_exists, EventTypeModel.findById.
  induction (Pg.event_types (Pg.tables db)) as [|a l IH]; simpl.
  - split; [discriminate | congruence].
  - destruct (EventType.id a =? id); simpl; [split; [discriminate | reflexivity] | exact IH].
Qed.

(** [enrichBooking] reads the event types and the availabilities only. *)
Lemma enrichBooking_same_tables (b : Booking.row) (db db' : Pg.DB) :
  Props.same_other_tables db db' ->
  BookingsService.enrichBooking b db' = BookingsService.enrichBooking b db.
Proof.
  intros [Ha [Hi He]].
  unfold BookingsService.enrichBooking, EventTypeModel.findById,
         AvailabilityModel.findById, AvailabilityModel.getIntervalsByAvailabilityId.
  rewrite Ha, Hi, He. reflexivity.
Qed.

(** X3. When the event type exists, the request's [date] is a day of
    the calendar written [YYYY-MM-DD] and its texts fit the columns
    ([client_email] and [name] of at most 255 characters, [meeting_link]
    of at most 500), no stored booking conflicts, the request starts
    before it ends and no stored booking has its [(event_type_id, date,
    start_time)], [createBooking] returns: it has appended exactly one
    row, under the next id of the sequence, with the request's columns
    ([additional_notes] and [meeting_link] null unless non-empty,
    [booking_status] confirmed unless given), it returns that row
    enriched, and the other three tables are untouched. *)
Theorem createBooking_stores_request (db : Pg.DB) (data : BookingData.t) :
  EventTypeModel.findById (BookingData.event_type_id data) db <> None ->
  Props.request_fits_columns data ->
  BookingsModel.checkConflict (BookingData.event_type_id data) (BookingData.date data)
    (BookingData.start_time data) (BookingData.end_time data) None db = false ->
  BookingData.start_time data < BookingData.end_time data ->
  Props.slot_free data db ->
  exists db',
    BookingsService.createBooking data db
    = (Pg.Ok (BookingsService.enrichBooking
                (Props.requested_booking (Pg.bookings_id_seq (Pg.sequences db)) data) db),
       db')
    /\ Pg.bookings (Pg.tables db')
       = Pg.bookings (Pg.tables db)
         ++ [Props.requested_booking (Pg.bookings_id_seq (Pg.sequences db)) data]
    /\ Props.same_other_tables db db'.
Proof.
  intros Het [Hd [He [Hn Hl]]] Hc Hord Hfree.
  set (r := Props.requested_booking (Pg.bookings_id_seq (Pg.sequences db)) data).
  set (db1 := Sql.set_bookings (Pg.bookings (Pg.tables db) ++ [r])
                (snd (Sql.nextval_bookings db))).
  assert (Hv : Sql.varchar 255 (BookingData.client_email data)
               && Sql.varchar 255 (BookingData.name data)
               && Sql.varchar_or_null 500 (Js.or_null_str (BookingData.meeting_link data))
               = true).
  { unfold Sql.varchar_or_null, Sql.varchar.
    rewrite !andb_true_iff. split; [split|]; try (apply Nat.leb_le; assumption).
    unfold Js.or_null_str. destruct (BookingData.meeting_link data) as [l|]; [|reflexivity].
    destruct (Js.truthy_str l); [|reflexivity]. apply Nat.leb_le. apply Hl. reflexivity. }
  assert (Hins : BookingsModel.createBooking data db = (Pg.Ok r, db1)).
  { unfold BookingsModel.createBooking, Sql.insert_booking, Sql.nextval_bookings.
    cbv zeta iota beta. simpl Pg.tables.
    unfold Sql.is_date. rewrite Hd, Hv. cbn [negb]. rewrite !or_null_str_cases.
    fold (Props.requested_booking (Pg.bookings_id_seq (Pg.sequences db)) data). fold r.
    assert (Hu : existsb (Sql.same_slot r) (Pg.bookings (Pg.tables db)) = false).
    { apply existsb_false_forall. intros o Ho.
      destruct (Sql.same_slot r o) eqn:Hs; [|reflexivity].
      apply same_slot_true in Hs. destruct Hs as [H1 [H2 H3]].
      exfalso. apply (Hfree o Ho). simpl in H1, H2, H3. repeat split; congruence. }
    rewrite Hu.
    assert (Hfk : Sql.event_type_exists (BookingData.event_type_id data)
                    (Pg.mkDB (Pg.tables db)
                       (Pg.mkSequences (Pg.availability_id_seq (Pg.sequences db))
                          (Pg.availability_interval_id_seq (Pg.sequences db))
                          (Pg.event_types_id_seq (Pg.sequences db))
                          (Pg.bookings_id_seq (Pg.sequences db) + 1))) = true).
    { apply (event_type_exists_findById _ db) in Het. exact Het. }
    rewrite Hfk. reflexivity. }
  assert (Hsame : Props.same_other_tables db db1).
  { repeat split. }
  exists db1. split; [|split].
  - unfold BookingsService.createBooking. unfold_monad.
    destruct (EventTypeModel.findById (BookingData.event_type_id data) db) as [et|];
      [|congruence].
    rewrite Hc.
    assert (Hge : (BookingData.start_time data >=? BookingData.end_time data) = false).
    { rewrite Z.geb_leb. apply Z.leb_gt. assumption. }
    rewrite Hge, Hins. rewrite (enrichBooking_same_tables r db db1 Hsame). reflexivity.
  - reflexivity.
  - exact Hsame.
Qed.

Lemma createBooking_stores_request_witness :
  exists db',
    BookingsService.createBooking (Scenario.request 630 660) Scenario.one_booking
    = (Pg.Ok (BookingsService.enrichBooking
                (Props.requested_booking
                   (Pg.bookings_id_seq (Pg.sequences Scenario.one_booking))
                   (Scenario.request 630 660)) Scenario.one_booking),
       db')
    /\ Pg.bookings (Pg.tables db')
       = Pg.bookings (Pg.tables Scenario.one_booking)
         ++ [Props.requested_booking
               (Pg.bookings_id_seq (Pg.sequences Scenario.one_booking))
               (Scenario.request 630 660)]
    /\ Props.same_other_tables Scenario.one_booking db'.
Proof.
  apply (createBooking_stores_request Scenario.one_booking (Scenario.request 630 660)).
  - vm_compute. discriminate.
  - split; [vm_compute; reflexivity|].
    split; [simpl; lia|]. split; [simpl; lia | discriminate].
  - vm_compute. reflexivity.
  - vm_compute. reflexivity.
  - intros o Ho [_ [_ H]]. vm_compute in Ho. destruct Ho as [<-|[]].
    vm_compute in H. discriminate.
Defined.

(** What an [updateBooking] that threw left behind. *)
Lemma updateBooking_threw (db db' : Pg.DB) (id : Z) (data : BookingUpdate.t) (x : Pg.exn) :
  BookingsService.updateBooking id data db = (Pg.Throw x, db') ->
  db' = db /\ exists c, x = Pg.CustomError c.
Proof.
  unfold BookingsService.updateBooking. unfold_monad.
  destruct (BookingsModel.findById id db) as [existing|];
    [|intros H; inversion H; subst; split; [reflexivity | eexists; reflexivity]].
  destruct (BookingsService.touches_slot data).
  - destruct (BookingsModel.checkConflict _ _ _ _ (Some id) db);
      [intros H; inversion H; subst; split; [reflexivity | eexists; reflexivity]|].
    cbv beta iota.
    destruct (BookingUpdate.start_time data) as [s|], (BookingUpdate.end_time data) as [e|];
      cbv beta iota;
      repeat match goal with
             | |- context [if ?c then _ else _] => destruct c; cbv beta iota
             end;
      try (intros H; inversion H; subst; split; [reflexivity | eexists; reflexivity]);
      unfold BookingsModel.updateBooking, Sql.update_booking;
      repeat match goal with
             | |- context [if ?c then _ else _] => destruct c; cbv beta iota
             | |- context [match find ?p ?l with _ => _ end] => destruct (find p l); cbv beta iota
             end;
      try (intros H; inversion H; subst; split; [reflexivity | eexists; reflexivity]);
      try discriminate.
  - cbv beta iota.
    destruct (BookingUpdate.start_time data) as [s|], (BookingUpdate.end_time data) as [e|];
      cbv beta iota;
      repeat match goal with
             | |- context [if ?c then _ else _] => destruct c; cbv beta iota
             end;
      try (intros H; inversion H; subst; split; [reflexivity | eexists; reflexivity]);
      unfold BookingsModel.updateBooking, Sql.update_booking;
      repeat match goal with
             | |- context [if ?c then _ else _] => destruct c; cbv beta iota
             | |- context [match find ?p ?l with _ => _ end] => destruct (find p l); cbv beta iota
             end;
      try (intros H; inversion H; subst; split; [reflexivity | eexists; reflexivity]);
      try discriminate.
Qed.

Lemma find_some_id {A} (id : A -> Z) (i : Z) (l : list A) (a : A) :
  find (fun r => Z.eqb (id r) i) l = Some a -> In a l /\ id a = i.
Proof.
  intros H. apply find_some in H. destruct H as [Hin Heq].
  split; [assumption | apply Z.eqb_eq; assumption].
Qed.

(** What a [deleteBooking] did. *)
Lemma deleteBooking_cases (db : Pg.DB) (id : Z) :
  match BookingsModel.findById id db with
  | None => BookingsService.deleteBooking id db = (Pg.Throw (Pg.CustomError 404), db)
  | Some b =>
      BookingsService.deleteBooking id db
      = (Pg.Ok b,
         Sql.set_bookings
           (filter (fun r => negb (Z.eqb (Booking.id r) id)) (Pg.bookings (Pg.tables db))) db)
  end.
Proof.
  unfold BookingsService.deleteBooking, BookingsModel.deleteBooking, Sql.delete_booking.
  unfold_monad. unfold BookingsModel.findById. cbv beta zeta.
  destruct (find (fun r => Z.eqb (Booking.id r) id) (Pg.bookings (Pg.tables db)))
    as [b|] eqn:Hf; cbv beta iota zeta; rewrite ?Hf; reflexivity.
Qed.

(** X4. A [createBooking], [updateBooking] or [deleteBooking] that throws
    leaves the four tables as they were, and what it throws is a
    [CustomError] (for [deleteBooking], the 404). *)
Theorem booking_writes_fail_cleanly (db db' : Pg.DB) (x : Pg.exn) :
  (forall data, BookingsService.createBooking data db = (Pg.Throw x, db') ->
     Pg.tables db' = Pg.tables db /\ exists c, x = Pg.CustomError c)
  /\ (forall id data, BookingsService.updateBooking id data db = (Pg.Throw x, db') ->
        Pg.tables db' = Pg.tables db /\ exists c, x = Pg.CustomError c)
  /\ (forall id, BookingsService.deleteBooking id db = (Pg.Throw x, db') ->
        Pg.tables db' = Pg.tables db /\ x = Pg.CustomError 404).
Proof.
  split; [|split].
  - intros data H. apply (createBooking_threw db db' data x H).
  - intros id data H. apply updateBooking_threw in H. destruct H as [-> H].
    split; [reflexivity | assumption].
  - intros id H. assert (Hc := deleteBooking_cases db id).
    destruct (BookingsModel.findById id db) as [b|]; rewrite Hc in H; inversion H.
    split; reflexivity.
Qed.

Lemma booking_writes_fail_cleanly_witness :
  (Pg.tables Scenario.one_booking = Pg.tables Scenario.one_booking
   /\ exists c, Pg.CustomError 409 = Pg.CustomError c)
  /\ (Pg.tables Scenario.slot_retaken = Pg.tables Scenario.slot_retaken
      /\ exists c, Pg.CustomError 409 = Pg.CustomError c).
Proof.
  split.
  - apply (proj1 (booking_writes_fail_cleanly
                    Scenario.one_booking Scenario.one_booking (Pg.CustomError 409))
             (Scenario.request 620 610)).
    vm_compute. reflexivity.
  - apply (proj1 (proj2 (booking_writes_fail_cleanly
                           Scenario.slot_retaken Scenario.slot_retaken (Pg.CustomError 409)))
             1 (BookingUpdate.mk None None None None (Some 610) (Some 640) None None
                  (Some confirmed))).
    vm_compute. reflexivity.
Defined.

Lemma find_app_new {A} (id : A -> Z) (i : Z) (l : list A) (a : A) :
  (forall r, In r l -> id r <> i) -> id a = i ->
  find (fun r => Z.eqb (id r) i) (l ++ [a]) = Some a.
Proof.
  intros Hl Ha. induction l as [|x l IH]; simpl.
  - rewrite Ha, Z.eqb_refl. reflexivity.
  - destruct (Z.eqb_spec (id x) i) as [Heq|Hne].
    + exfalso. apply (Hl x); [left; reflexivity | assumption].
    + apply IH. intros r Hr. apply Hl. right. assumption.
Qed.

(** X5. What [createBooking] returned is what [getBookingById] returns for
    the new id right after, on a table whose ids were drawn from the
    sequence. *)
Theorem getBookingById_after_createBooking (db db' : Pg.DB) (data : BookingData.t)
    (e : BookingsService.enriched) :
  Props.booking_ids_drawn db ->
  BookingsService.createBooking data db = (Pg.Ok e, db') ->
  BookingsService.getBookingById (Booking.id (BookingsService.booking e)) db'
  = (Pg.Ok e, db').
Proof.
  intros Hids H. apply createBooking_returned in H.
  destruct H as [_ [_ [_ [r [Hc ->]]]]].
  unfold BookingsModel.createBooking in Hc. apply insert_booking_returns in Hc.
  destruct Hc as [Hr Hrows].
  assert (Hb : BookingsService.booking (BookingsService.enrichBooking r db') = r).
  { unfold BookingsService.enrichBooking, BookingsService.bare.
    destruct (negb (Js.truthy_num (Booking.event_type_id r))); [reflexivity|].
    destruct (EventTypeModel.findById (Booking.event_type_id r) db'); reflexivity. }
  rewrite Hb.
  unfold BookingsService.getBookingById, BookingsModel.findById. unfold_monad.
  rewrite Hrows.
  rewrite (find_app_new Booking.id (Booking.id r) (Pg.bookings (Pg.tables db)) r).
  - reflexivity.
  - intros o Ho. specialize (Hids o Ho). rewrite Hr. simpl. lia.
  - reflexivity.
Qed.

Lemma getBookingById_after_createBooking_witness :
  BookingsService.getBookingById
    (Booking.id (BookingsService.booking
                   (BookingsService.enrichBooking Scenario.booking_2 Scenario.slot_retaken)))
    Scenario.slot_retaken
  = (Pg.Ok (BookingsService.enrichBooking Scenario.booking_2 Scenario.slot_retaken),
     Scenario.slot_retaken).
Proof.
  apply (getBookingById_after_createBooking Scenario.one_cancelled Scenario.slot_retaken
           (Scenario.request 615 645)).
  - intros r Hr. vm_compute in Hr. destruct Hr as [<-|[]]. vm_compute. split; reflexivity.
  - vm_compute. reflexivity.
Defined.

(** X6. If every stored booking starts before it ends, this is still so
    after any [createBooking], [updateBooking] or [deleteBooking], for every
    payload and whether the call returns or throws: [updateBooking] holds a
    single supplied time against the stored counterpart. *)
Theorem booking_writes_keep_time_order (db db' : Pg.DB) :
  Props.bookings_time_ordered db ->
  (forall data res, BookingsService.createBooking data db = (res, db') ->
     Props.bookings_time_ordered db')
  /\ (forall id data res, BookingsService.updateBooking id data db = (res, db') ->
        Props.bookings_time_ordered db')
  /\ (forall id res, BookingsService.deleteBooking id db = (res, db') ->
        Props.bookings_time_ordered db').
Proof.
  intros Hord. split; [|split].
  - intros data [e|x] H.
    + apply createBooking_returned in H.
      destruct H as [_ [_ [Hlt [r [Hc _]]]]].
      unfold BookingsModel.createBooking in Hc. apply insert_booking_returns in Hc.
      destruct Hc as [Hr Hrows].
      intros o Ho. rewrite Hrows in Ho. apply in_app_or in Ho.
      destruct Ho as [Ho|[<-|[]]]; [apply Hord; assumption|].
      rewrite Hr. simpl. assumption.
    + apply createBooking_threw in H. destruct H as [Ht _].
      intros o Ho. rewrite Ht in Ho. apply Hord. assumption.
  - intros id data res H. apply updateBooking_effect in H.
    destruct H as [->|[existing [Hf [_ [Hlt Hrows]]]]]; [assumption|].
    intros o Ho. rewrite Hrows in Ho. apply in_map_iff in Ho.
    destruct Ho as [o' [Ho' Hin]].
    destruct (Booking.id o' =? id).
    + subst o. apply Hlt. apply Hord.
      unfold BookingsModel.findById in Hf. apply find_some in Hf. apply Hf.
    + subst o. apply Hord. assumption.
  - intros id res H. assert (Hc := deleteBooking_cases db id).
    destruct (BookingsModel.findById id db) as [b|]; rewrite Hc in H; inversion H; subst.
    + intros o Ho. simpl in Ho. apply filter_In in Ho. apply Hord. apply Ho.
    + assumption.
Qed.

Lemma booking_writes_keep_time_order_witness :
  Props.bookings_time_ordered
    (Scenario.after
       (BookingsService.updateBooking 1
          (BookingUpdate.mk None None None None (Some 540) None None None None))
       Scenario.one_booking).
Proof.
  refine (proj1 (proj2 (booking_writes_keep_time_order Scenario.one_booking _ _))
            1 (BookingUpdate.mk None None None None (Some 540) None None None None)
            (fst (BookingsService.updateBooking 1
                    (BookingUpdate.mk None None None None (Some 540) None None None None)
                    Scenario.one_booking)) _).
  - intros r Hr. vm_compute in Hr. destruct Hr as [<-|[]]. vm_compute. reflexivity.
  - apply surjective_pairing.
Defined.

Lemma find_map_replace {A} (id : A -> Z) (i : Z) (r old : A) (l : list A) :
  id r = i ->
  find (fun o => Z.eqb (id o) i) l = Some old ->
  find (fun o => Z.eqb (id o) i) (map (fun o => if Z.eqb (id o) i then r else o) l) = Some r.
Proof.
  intros Hr. induction l as [|x l IH]; simpl; [discriminate|].
  destruct (Z.eqb (id x) i) eqn:Hx.
  - intros _. rewrite Hr, Z.eqb_refl. reflexivity.
  - rewrite Hx. exact IH.
Qed.

Lemma find_filter_other {A} (id : A -> Z) (i : Z) (l : list A) :
  find (fun o => Z.eqb (id o) i) (filter (fun o => negb (Z.eqb (id o) i)) l) = None.
Proof.
  induction l as [|x l IH]; simpl; [reflexivity|].
  destruct (Z.eqb (id x) i) eqn:Hx; simpl; [exact IH|]. rewrite Hx. exact IH.
Qed.

(** What an [updateBooking] that returned went through. *)
Lemma updateBooking_returned (db db' : Pg.DB) (id : Z) (data : BookingUpdate.t)
    (e : BookingsService.enriched) :
  BookingsService.updateBooking id data db = (Pg.Ok e, db') ->
  exists old,
    BookingsModel.findById id db = Some old
    /\ e = BookingsService.enrichBooking (BookingsModel.assign data old) db'
    /\ db' = Sql.set_bookings
               (map (fun o => if Z.eqb (Booking.id o) id
                              then BookingsModel.assign data old else o)
                    (Pg.bookings (Pg.tables db))) db.
Proof.
  unfold BookingsService.updateBooking. unfold_monad.
  destruct (BookingsModel.findById id db) as [existing|] eqn:Hf; [|discriminate].
  unfold BookingsModel.findById in Hf.
  intros H. exists existing. split; [reflexivity|]. revert H.
  destruct (BookingsService.touches_slot data);
    try (destruct (BookingsModel.checkConflict _ _ _ _ (Some id) db); [discriminate|]);
    cbv beta iota;
    (destruct (BookingUpdate.start_time data) as [s|] eqn:Hs,
              (BookingUpdate.end_time data) as [en|] eqn:He;
     cbv beta iota;
     repeat match goal with
            | |- context [if ?c then _ else _] => destruct c; cbv beta iota
            end;
     try discriminate;
     unfold BookingsModel.updateBooking, Sql.update_booking;
     repeat first
       [ rewrite Hf
       | match goal with
         | |- context [if ?c then _ else _] => destruct c
         end
       | progress cbv beta iota zeta ];
     try discriminate;
     intros H; inversion H; subst; split; reflexivity).
Qed.

(** X7. An [updateBooking] that returns has rewritten the row of that
    id and left every other row and the other three tables alone.  The
    new row keeps the id and the [event_type_id] (also when the payload
    carries another [event_type_id]); each of [client_email], [name],
    [additional_notes], [start_time], [end_time], [date] and
    [booking_status] has the payload's value when the payload names it
    and the stored value when not; [meeting_link] likewise, an empty
    string in the payload being stored as null.  The booking returned is
    the row now stored. *)
Theorem updateBooking_rewrites_one_row (db db' : Pg.DB) (id : Z) (data : BookingUpdate.t)
    (e : BookingsService.enriched) :
  BookingsService.updateBooking id data db = (Pg.Ok e, db') ->
  exists old,
    BookingsModel.findById id db = Some old
    /\ BookingsService.booking e
       = Booking.mk id (Booking.event_type_id old)
           (Props.supplied (BookingUpdate.client_email data) (Booking.client_email old))
           (Props.supplied (BookingUpdate.name data) (Booking.name old))
           (match BookingUpdate.additional_notes data with
            | Some notes => Some notes
            | None => Booking.additional_notes old
            end)
           (Props.supplied (BookingUpdate.start_time data) (Booking.start_time old))
           (Props.supplied (BookingUpdate.end_time data) (Booking.end_time old))
           (Props.supplied (BookingUpdate.date data) (Booking.date old))
           (match BookingUpdate.meeting_link data with
            | Some EmptyString => None
            | Some link => Some link
            | None => Booking.meeting_link old
            end)
           (Props.supplied (BookingUpdate.booking_status data) (Booking.booking_status old))
    /\ Pg.bookings (Pg.tables db')
       = map (fun o => if Z.eqb (Booking.id o) id then BookingsService.booking e else o)
             (Pg.bookings (Pg.tables db))
    /\ BookingsModel.findById id db' = Some (BookingsService.booking e)
    /\ Props.same_other_tables db db'.
Proof.
  intros H. apply updateBooking_returned in H. destruct H as [old [Hf [He Hdb]]].
  exists old.
  assert (Hb : BookingsService.booking e = BookingsModel.assign data old).
  { rewrite He. unfold BookingsService.enrichBooking, BookingsService.bare.
    destruct (negb (Js.truthy_num _)); [reflexivity|].
    destruct (EventTypeModel.findById _ db'); reflexivity. }
  assert (Hid : Booking.id old = id).
  { unfold BookingsModel.findById in Hf. apply find_some_id in Hf. apply Hf. }
  split; [assumption|]. split; [|rewrite Hb; subst db'; repeat split].
  - rewrite Hb. unfold BookingsModel.assign, Props.supplied. rewrite Hid. f_equal.
    destruct (BookingUpdate.meeting_link data) as [[|c link]|]; reflexivity.
  - unfold BookingsModel.findById. simpl.
    apply (find_map_replace Booking.id id _ old); [assumption | exact Hf].
Qed.

(** X7 on booking 1: a payload with a new [client_email], [name],
    [additional_notes] and [booking_status], an empty [meeting_link], and
    the [event_type_id] 7. *)
Lemma updateBooking_rewrites_one_row_witness :
  exists old,
    BookingsModel.findById 1 Scenario.one_booking = Some old
    /\ BookingsService.booking
         (BookingsService.enrichBooking
            (Booking.mk 1 1 "c@d.com" "C" (Some "slides"%string) 600 630 "2025-01-15"
               None pending)
            (Scenario.after (BookingsService.updateBooking 1 Scenario.new_contact)
               Scenario.one_booking))
       = Booking.mk 1 (Booking.event_type_id old) "c@d.com" "C" (Some "slides"%string)
           (Booking.start_time old) (Booking.end_time old) (Booking.date old) None pending.
Proof.
  assert (H : BookingsService.updateBooking 1 Scenario.new_contact Scenario.one_booking
              = (Pg.Ok (BookingsService.enrichBooking
                          (Booking.mk 1 1 "c@d.com" "C" (Some "slides"%string) 600 630
                             "2025-01-15" None pending)
                          (Scenario.after
                             (BookingsService.updateBooking 1 Scenario.new_contact)
                             Scenario.one_booking)),
                 Scenario.after (BookingsService.updateBooking 1 Scenario.new_contact)
                   Scenario.one_booking)).
  { vm_compute. reflexivity. }
  destruct (updateBooking_rewrites_one_row _ _ _ _ _ H) as [old [Hf [Hb _]]].
  exists old. split; [exact Hf | exact Hb].
Defined.

(** X8. [deleteBooking] answers 404 and changes nothing when no booking
    has the id; otherwise it returns the stored row, removes the rows of
    that id and nothing else, and [getBookingById] then answers 404. *)
Theorem deleteBooking_removes_the_booking (db : Pg.DB) (id : Z) :
  (BookingsModel.findById id db = None ->
   BookingsService.deleteBooking id db = (Pg.Throw (Pg.CustomError 404), db))
  /\ (forall b, BookingsModel.findById id db = Some b ->
        exists db',
          BookingsService.deleteBooking id db = (Pg.Ok b, db')
          /\ Pg.bookings (Pg.tables db')
             = filter (fun r => negb (Z.eqb (Booking.id r) id)) (Pg.bookings (Pg.tables db))
          /\ Props.same_other_tables db db'
          /\ BookingsService.getBookingById id db' = (Pg.Throw (Pg.CustomError 404), db')).
Proof.
  assert (Hc := deleteBooking_cases db id). split.
  - intros Hn. rewrite Hn in Hc. exact Hc.
  - intros b Hb. rewrite Hb in Hc.
    exists (Sql.set_bookings
              (filter (fun r => negb (Z.eqb (Booking.id r) id)) (Pg.bookings (Pg.tables db)))
              db).
    split; [exact Hc|].
    split; [reflexivity|]. split; [repeat split|].
    unfold BookingsService.getBookingById, BookingsModel.findById. unfold_monad.
    unfold Sql.set_bookings, Sql.set_tables. cbn [Pg.tables Pg.bookings].
    rewrite (find_filter_other Booking.id id). reflexivity.
Qed.

Lemma deleteBooking_removes_the_booking_witness :
  BookingsService.deleteBooking 7 Scenario.slot_retaken
  = (Pg.Throw (Pg.CustomError 404), Scenario.slot_retaken)
  /\ exists db',
       BookingsService.deleteBooking 1 Scenario.slot_retaken
       = (Pg.Ok (Scenario.booking_1 cancelled), db')
       /\ Pg.bookings (Pg.tables db')
          = filter (fun r => negb (Z.eqb (Booking.id r) 1))
                   (Pg.bookings (Pg.tables Scenario.slot_retaken))
       /\ Props.same_other_tables Scenario.slot_retaken db'
       /\ BookingsService.getBookingById 1 db' = (Pg.Throw (Pg.CustomError 404), db').
Proof.
  split.
  - apply (proj1 (deleteBooking_removes_the_booking Scenario.slot_retaken 7)).
    vm_compute. reflexivity.
  - apply (proj2 (deleteBooking_removes_the_booking Scenario.slot_retaken 1)).
    vm_compute. reflexivity.
Defined.

Lemma or_str_nonempty (x : option string) (d : string) :
  d <> EmptyString -> Js.or_str x d <> EmptyString.
Proof.
  intros Hd. unfold Js.or_str. destruct x as [s|]; [|assumption].
  destruct (Js.truthy_str s) eqn:Ht; [|assumption]. apply truthy_str_true. assumption.
Qed.

(** X9. On a store whose bookings reference existing event types with ids
    drawn from the sequence, [enrichBooking] gives every stored booking,
    unchanged, the summary of its event type, the location "Cal Video", a
    non-empty timezone and a non-empty meeting link, which is the row's own
    or the placeholder. *)
Theorem stored_booking_is_enriched (db : Pg.DB) (b : Booking.row) :
  Props.bookings_owned db ->
  Props.event_type_ids_drawn db ->
  In b (Pg.bookings (Pg.tables db)) ->
  exists et tz link,
    EventTypeModel.findById (Booking.event_type_id b) db = Some et
    /\ BookingsService.enrichBooking b db
       = BookingsService.mkEnriched b
           (Some (BookingsService.mkSummary (EventType.id et) (EventType.name et)
                    (EventType.description et) (EventType.duration et)
                    (EventType.url_slug et)))
           (Some tz) (Some "Cal Video"%string) (Some link)
    /\ tz <> EmptyString
    /\ link <> EmptyString
    /\ (Booking.meeting_link b = Some link \/ link = "https://cal.com/video"%string).
Proof.
  intros Hfk Hids Hb.
  specialize (Hfk b Hb). apply event_type_exists_findById in Hfk.
  destruct (EventTypeModel.findById (Booking.event_type_id b) db) as [et|] eqn:Hf;
    [clear Hfk | congruence].
  assert (Het : In et (Pg.event_types (Pg.tables db)) /\ EventType.id et = Booking.event_type_id b).
  { unfold EventTypeModel.findById in Hf. apply find_some_id in Hf. exact Hf. }
  destruct Het as [Hin Hid]. specialize (Hids et Hin).
  assert (Ht : Js.truthy_num (Booking.event_type_id b) = true).
  { apply truthy_num_true. lia. }
  unfold BookingsService.enrichBooking. rewrite Ht, Hf. simpl negb. cbv iota.
  eexists et, _, _. split; [reflexivity|]. split; [reflexivity|].
  split; [apply or_str_nonempty; discriminate|].
  split; [apply or_str_nonempty; discriminate|].
  unfold Js.or_str. destruct (Booking.meeting_link b) as [l|]; [|right; reflexivity].
  destruct (Js.truthy_str l); [left; reflexivity | right; reflexivity].
Qed.

Lemma stored_booking_is_enriched_witness :
  exists et tz link,
    EventTypeModel.findById (Booking.event_type_id Scenario.booking_2) Scenario.slot_retaken
    = Some et
    /\ BookingsService.enrichBooking Scenario.booking_2 Scenario.slot_retaken
       = BookingsService.mkEnriched Scenario.booking_2
           (Some (BookingsService.mkSummary (EventType.id et) (EventType.name et)
                    (EventType.description et) (EventType.duration et)
                    (EventType.url_slug et)))
           (Some tz) (Some "Cal Video"%string) (Some link)
    /\ tz <> EmptyString
    /\ link <> EmptyString
    /\ (Booking.meeting_link Scenario.booking_2 = Some link
        \/ link = "https://cal.com/video"%string).
Proof.
  apply (stored_booking_is_enriched Scenario.slot_retaken Scenario.booking_2).
  - intros b Hb. vm_compute in Hb. destruct Hb as [<-|[<-|[]]]; vm_compute; reflexivity.
  - intros r Hr. vm_compute in Hr. destruct Hr as [<-|[]]. vm_compute. split; reflexivity.
  - vm_compute. right. left. reflexivity.
Defined.

(** X10. [createBooking] and [deleteBooking] keep the invariant that no
    two non-cancelled bookings of one event type and date overlap, whether
    they return or throw. *)
Theorem create_and_delete_keep_no_double_booking (db db' : Pg.DB) :
  Props.bookings_well_formed db ->
  Props.no_double_booking db ->
  (forall data res, BookingsService.createBooking data db = (res, db') ->
     Props.no_double_booking db')
  /\ (forall id res, BookingsService.deleteBooking id db = (res, db') ->
        Props.no_double_booking db').
Proof.
  intros Hwf Hinv. split.
  - intros data res H. apply (createBooking_keeps_no_double_booking db db' data res); assumption.
  - intros id res H. apply (deleteBooking_keeps_no_double_booking db db' id res); assumption.
Qed.

Lemma create_and_delete_keep_no_double_booking_witness :
  Props.no_double_booking
    (Scenario.after (BookingsService.createBooking (Scenario.request 630 660))
       Scenario.one_booking).
Proof.
  refine (proj1 (create_and_delete_keep_no_double_booking Scenario.one_booking _ _ _)
            (Scenario.request 630 660)
            (fst (BookingsService.createBooking (Scenario.request 630 660)
                    Scenario.one_booking)) _).
  - intros r Hr. vm_compute in Hr. destruct Hr as [<-|[]]. vm_compute. split; reflexivity.
  - intros a b Ha Hb. vm_compute in Ha, Hb.
    destruct Ha as [<-|[]]; destruct Hb as [<-|[]].
    intros Hne. exfalso. apply Hne. reflexivity.
  - apply surjective_pairing.
Defined.

(* ================================================================== *)
(** ** Event types *)

(** [createEventType], step by step. *)
Lemma createEventType_steps (data : EventTypeData.t) (db : Pg.DB) :
  EventTypeService.createEventType data db
  = match EventTypeModel.findByName (EventTypeData.name data) db with
    | Some _ => (Pg.Throw (Pg.CustomError 409), db)
    | None =>
        match Props.resolve_availability data db with
        | (Pg.Ok availabilityId, db1) =>
            match EventTypeModel.createEventType
                    (EventTypeData.mk (EventTypeData.name data)
                       (EventTypeData.description data) (EventTypeData.duration data)
                       (EventTypeData.url_slug data) (EventTypeData.user_id data)
                       availabilityId) db1 with
            | (Pg.Ok e, db2) => (Pg.Ok (EventTypeService.add_bookingUrl e), db2)
            | (Pg.Throw (Pg.CustomError c), db2) => (Pg.Throw (Pg.CustomError c), db2)
            | (Pg.Throw _, db2) => (Pg.Throw (Pg.CustomError 500), db2)
            end
        | (Pg.Throw (Pg.CustomError c), db1) => (Pg.Throw (Pg.CustomError c), db1)
        | (Pg.Throw _, db1) => (Pg.Throw (Pg.CustomError 500), db1)
        end
    end.
Proof.
  unfold EventTypeService.createEventType, Props.resolve_availability. unfold_monad.
  destruct (EventTypeModel.findByName (EventTypeData.name data) db); [reflexivity|].
  match goal with
  | |- (let (r, db') := let (r0, db0) := ?m in _ in _) = _ => destruct m as [[a|x] db1]
  end.
  - destruct (EventTypeModel.createEventType _ db1) as [[e|x] db2]; [reflexivity|].
    destruct x; reflexivity.
  - destruct x; reflexivity.
Qed.

Lemma insert_interval_throws_database_error (aid day : Z) (st en : string)
    (db db' : Pg.DB) (e : Pg.exn) :
  Sql.insert_interval aid day st en db = (Pg.Throw e, db') ->
  exists c, e = Pg.DatabaseError c.
Proof.
  unfold Sql.insert_interval, Sql.nextval_availability_interval. cbv zeta iota beta.
  destruct (Sql.cast_time st) as [t1|], (Sql.cast_time en) as [t2|];
    repeat match goal with
           | |- context [if ?c then _ else _] => destruct c
           end;
    intros H; inversion H; eexists; reflexivity.
Qed.

Lemma insert_days_throws_database_error (n : nat) (aid d : Z) (db db' : Pg.DB) (e : Pg.exn) :
  EventTypeService.insert_days aid d n db = (Pg.Throw e, db') ->
  exists c, e = Pg.DatabaseError c.
Proof.
  revert d db. induction n as [|n IH]; intros d db; simpl.
  - unfold_monad. discriminate.
  - unfold_monad.
    destruct (Sql.insert_interval aid d "14:00:00" "22:00:00" db) as [[r|x] db1] eqn:Hi.
    + apply IH.
    + intros H. inversion H; subst. apply insert_interval_throws_database_error in Hi. exact Hi.
Qed.

(** What provisioning the default availability does to the tables. *)
Lemma provision_default_effect (db db1 : Pg.DB) (res : Pg.result Z) :
  EventTypeService.provision_default db = (res, db1) ->
  Pg.event_types (Pg.tables db1) = Pg.event_types (Pg.tables db)
  /\ Pg.bookings (Pg.tables db1) = Pg.bookings (Pg.tables db)
  /\ match res with
     | Pg.Ok i =>
         i = Pg.availability_id_seq (Pg.sequences db)
         /\ Pg.availability (Pg.tables db1)
            = Pg.availability (Pg.tables db)
              ++ [Availability.mk i "Default Availability" "UTC"]
         /\ exists rows,
              map Props.window rows = Props.default_windows i
              /\ Pg.availability_interval (Pg.tables db1)
                 = Pg.availability_interval (Pg.tables db) ++ rows
     | Pg.Throw e => Pg.tables db1 = Pg.tables db /\ exists c, e = Pg.DatabaseError c
     end.
Proof.
  unfold EventTypeService.provision_default. unfold_monad.
  unfold Sql.insert_availability, Sql.nextval_availability. cbv zeta iota beta.
    rewrite default_availability_fits. cbv iota.
  simpl Availability.id.
  match goal with
  | |- context [EventTypeService.insert_days ?a 1 7 ?d] =>
      destruct (EventTypeService.insert_days a 1 7 d) as [[u|x] db2] eqn:Hdays
  end.
  - intros H. inversion H; subst; clear H.
    apply insert_days_returns in Hdays. destruct Hdays as [rows [Hw Hdb]].
    rewrite Hdb. simpl. repeat split; try reflexivity.
    exists rows. split; [exact Hw | reflexivity].
  - intros H. inversion H; subst; clear H.
    apply insert_days_throws_database_error in Hdays.
    unfold Pg.rollback. simpl. repeat split; try reflexivity. exact Hdays.
Qed.

(** What settling [availability_id] does to the tables. *)
Lemma resolve_availability_effect (data : EventTypeData.t) (db db1 : Pg.DB)
    (res : Pg.result (option Z)) :
  Props.resolve_availability data db = (res, db1) ->
  Pg.event_types (Pg.tables db1) = Pg.event_types (Pg.tables db)
  /\ Pg.bookings (Pg.tables db1) = Pg.bookings (Pg.tables db)
  /\ (Js.truthy_opt_num (EventTypeData.availability_id data) = true
      \/ Pg.availability (Pg.tables db) <> [] -> db1 = db)
  /\ (Js.truthy_opt_num (EventTypeData.availability_id data) = true ->
      res = Pg.Ok (EventTypeData.availability_id data))
  /\ (forall e, res = Pg.Throw e ->
        Pg.tables db1 = Pg.tables db /\ exists c, e = Pg.DatabaseError c).
Proof.
  unfold Props.resolve_availability.
  destruct (Js.truthy_opt_num (EventTypeData.availability_id data)) eqn:Ht; cbn [negb];
    cbv beta iota.
  - unfold_monad. intros H. inversion H; subst.
    split; [reflexivity|]. split; [reflexivity|]. split; [reflexivity|].
    split; [reflexivity|]. intros x Hx. discriminate.
  - unfold Pg.bind at 1. unfold Pg.query, AvailabilityModel.getDefaultAvailability.
    cbv beta iota.
    destruct (AvailabilityModel.lowest_id (Pg.availability (Pg.tables db))) as [m|] eqn:Hlow.
    + apply lowest_id_some in Hlow. destruct Hlow as [Hin _].
      destruct (findById_of_member db m Hin) as [d [Hfind _]].
      cbv beta iota. rewrite Hfind.
      unfold Pg.ret. intros H. inversion H; subst.
      split; [reflexivity|]. split; [reflexivity|]. split; [reflexivity|].
      split; [discriminate|]. intros x Hx. discriminate.
    + apply lowest_id_none in Hlow. unfold Pg.bind, Pg.ret. cbv beta iota.
      destruct (EventTypeService.provision_default db) as [[i|x] db2] eqn:Hp;
        apply provision_default_effect in Hp; destruct Hp as [He [Hb Hres]];
        intros H; inversion H; subst; clear H.
      * split; [assumption|]. split; [assumption|].
        split; [intros [Hc|Hc]; [discriminate | congruence]|].
        split; [discriminate|]. intros y Hy. discriminate.
      * split; [assumption|]. split; [assumption|].
        split; [intros [Hc|Hc]; [discriminate | congruence]|].
        split; [discriminate|]. intros y Hy. inversion Hy; subst. exact Hres.
Qed.

Lemma existsb_has_slug_true (slug : string) (rows : list EventType.row) :
  (exists e, In e rows /\ EventType.url_slug e = Some slug) ->
  existsb (Sql.has_slug slug) rows = true.
Proof.
  intros [e [Hin Hs]]. apply existsb_exists. exists e. split; [assumption|].
  unfold Sql.has_slug. rewrite Hs. apply String.eqb_refl.
Qed.

Lemma or_str_stored_slug (data : EventTypeData.t) :
  Js.or_str (EventTypeData.url_slug data) (EventTypeData.name data) = Props.stored_slug data.
Proof.
  unfold Props.stored_slug, Js.or_str. destruct (EventTypeData.url_slug data) as [[|c s]|];
    reflexivity.
Qed.

(** With the slug taken the [INSERT] is refused, whatever else is wrong
    with the row, and the tables stay as they were. *)
Lemma insert_event_type_slug_taken (data : EventTypeData.t) (db : Pg.DB) :
  Props.slug_taken (Props.stored_slug data) db ->
  exists c db2,
    EventTypeModel.createEventType data db = (Pg.Throw (Pg.DatabaseError c), db2)
    /\ Pg.tables db2 = Pg.tables db.
Proof.
  intros Hs.
  unfold EventTypeModel.createEventType, Sql.insert_event_type, Sql.nextval_event_types.
  cbv zeta iota beta. simpl Pg.tables.
  rewrite or_str_stored_slug, (existsb_has_slug_true _ _ Hs).
  repeat match goal with
         | |- context [if ?c then _ else _] => destruct c
         end; eexists; eexists; split; reflexivity.
Qed.

(** X11. [createEventType] answers 409 and changes nothing when the name
    is taken.  When the name is free but the slug it would store is the
    [url_slug] of a stored event type, it answers 500 (the refused
    [INSERT], not a 409), and stores no event type; the other tables are
    untouched as well when an [availability_id] was given or an
    availability existed. *)
Theorem createEventType_refusals (db : Pg.DB) (data : EventTypeData.t) :
  (EventTypeModel.findByName (EventTypeData.name data) db <> None ->
   EventTypeService.createEventType data db = (Pg.Throw (Pg.CustomError 409), db))
  /\ (EventTypeModel.findByName (EventTypeData.name data) db = None ->
      Props.slug_taken (Props.stored_slug data) db ->
      exists db',
        EventTypeService.createEventType data db = (Pg.Throw (Pg.CustomError 500), db')
        /\ Pg.event_types (Pg.tables db') = Pg.event_types (Pg.tables db)
        /\ Pg.bookings (Pg.tables db') = Pg.bookings (Pg.tables db)
        /\ (Js.truthy_opt_num (EventTypeData.availability_id data) = true
            \/ Pg.availability (Pg.tables db) <> [] ->
            Pg.tables db' = Pg.tables db)).
Proof.
  split.
  - intros Hn. rewrite createEventType_steps.
    destruct (EventTypeModel.findByName (EventTypeData.name data) db); [reflexivity|congruence].
  - intros Hn Hs. rewrite createEventType_steps, Hn.
    destruct (Props.resolve_availability data db) as [[aid|x] db1] eqn:Hr;
      apply resolve_availability_effect in Hr;
      destruct Hr as [He [Hb [Hsame [_ Hthrow]]]].
    + destruct (insert_event_type_slug_taken
                  (EventTypeData.mk (EventTypeData.name data) (EventTypeData.description data)
                     (EventTypeData.duration data) (EventTypeData.url_slug data)
                     (EventTypeData.user_id data) aid) db1)
        as [c [db2 [Hins Ht]]].
      { destruct Hs as [e [Hin Hslug]]. exists e. split; [rewrite He; assumption|].
        exact Hslug. }
      rewrite Hins.
      exists db2. split; [reflexivity|]. rewrite Ht.
      split; [assumption|]. split; [assumption|].
      intros Hc. rewrite (Hsame Hc). reflexivity.
    + destruct (Hthrow x eq_refl) as [Ht [c ->]].
      exists db1. split; [reflexivity|].
      split; [assumption|]. split; [assumption|]. intros _. assumption.
Qed.

Lemma createEventType_refusals_witness :
  EventTypeService.createEventType Scenario.intro Scenario.two_event_types
  = (Pg.Throw (Pg.CustomError 409), Scenario.two_event_types)
  /\ exists db',
       EventTypeService.createEventType
         (EventTypeData.mk "hello" None 30 (Some "welcome"%string) None None)
         Scenario.two_event_types
       = (Pg.Throw (Pg.CustomError 500), db')
       /\ Pg.event_types (Pg.tables db') = Pg.event_types (Pg.tables Scenario.two_event_types)
       /\ Pg.bookings (Pg.tables db') = Pg.bookings (Pg.tables Scenario.two_event_types)
       /\ (Js.truthy_opt_num
             (EventTypeData.availability_id
                (EventTypeData.mk "hello" None 30 (Some "welcome"%string) None None)) = true
           \/ Pg.availability (Pg.tables Scenario.two_event_types) <> [] ->
           Pg.tables db' = Pg.tables Scenario.two_event_types).
Proof.
  split.
  - apply (proj1 (createEventType_refusals Scenario.two_event_types Scenario.intro)).
    vm_compute. discriminate.
  - apply (proj2 (createEventType_refusals Scenario.two_event_types
                    (EventTypeData.mk "hello" None 30 (Some "welcome"%string) None None))).
    + vm_compute. reflexivity.
    + eexists. split; [vm_compute; left; reflexivity | vm_compute; reflexivity].
Defined.

(** Provisioning succeeds on a store without availabilities. *)
Lemma provision_default_succeeds (db : Pg.DB) :
  Props.intervals_owned db ->
  Pg.availability (Pg.tables db) = [] ->
  exists db1,
    EventTypeService.provision_default db
    = (Pg.Ok (Pg.availability_id_seq (Pg.sequences db)), db1).
Proof.
  intros Hown Hnil.
  pose proof (no_availability_no_interval db Hown Hnil) as Hivs.
  unfold EventTypeService.provision_default. unfold_monad.
  unfold Sql.insert_availability, Sql.nextval_availability. cbv zeta iota beta.
    rewrite default_availability_fits. cbv iota.
  simpl Availability.id.
  match goal with
  | |- context [EventTypeService.insert_days ?a 1 7 ?d] =>
      destruct (insert_days_succeeds 7 a 1 d) as [db1 Hdays]
  end.
  - lia.
  - simpl. lia.
  - unfold Sql.availability_exists. simpl. rewrite Hnil. simpl.
    rewrite Z.eqb_refl. reflexivity.
  - simpl. rewrite Hivs. intros o [].
  - rewrite Hdays. eexists. reflexivity.
Qed.

(** X12. [createEventType] is not one transaction: called without
    [availability_id] on a store with no availability, with a free name and
    a slug that is taken, it answers 500, stores no event type, and leaves
    behind the "Default Availability" it has provisioned on the way, with
    its seven windows. *)
Theorem createEventType_failure_keeps_default_availability (db : Pg.DB)
    (data : EventTypeData.t) :
  Props.intervals_owned db ->
  Pg.availability (Pg.tables db) = [] ->
  Js.truthy_opt_num (EventTypeData.availability_id data) = false ->
  EventTypeModel.findByName (EventTypeData.name data) db = None ->
  Props.slug_taken (Props.stored_slug data) db ->
  exists db' a,
    EventTypeService.createEventType data db = (Pg.Throw (Pg.CustomError 500), db')
    /\ Pg.event_types (Pg.tables db') = Pg.event_types (Pg.tables db)
    /\ Pg.availability (Pg.tables db') = [a]
    /\ Availability.name a = "Default Availability"%string
    /\ map Props.window (Pg.availability_interval (Pg.tables db'))
       = Props.default_windows (Availability.id a).
Proof.
  intros Hown Hnil Ht Hn Hs.
  pose proof (no_availability_no_interval db Hown Hnil) as Hivs.
  destruct (provision_default_succeeds db Hown Hnil) as [db1 Hp].
  pose proof Hp as Hshape. apply provision_default_effect in Hshape.
  destruct Hshape as [He [Hb [_ [Ha [rows [Hw Hi]]]]]].
  rewrite Hnil in Ha. rewrite Hivs in Hi. simpl in Ha, Hi.
  assert (Hr : Props.resolve_availability data db
               = (Pg.Ok (Some (Pg.availability_id_seq (Pg.sequences db))), db1)).
  { unfold Props.resolve_availability. rewrite Ht. cbn [negb]. cbv beta iota.
    unfold Pg.bind at 1. unfold Pg.query, AvailabilityModel.getDefaultAvailability.
    rewrite Hnil. cbn [AvailabilityModel.lowest_id]. cbv beta iota.
    unfold Pg.bind, Pg.ret. cbv beta iota. rewrite Hp. reflexivity. }
  rewrite createEventType_steps, Hn, Hr.
  destruct (insert_event_type_slug_taken
              (EventTypeData.mk (EventTypeData.name data) (EventTypeData.description data)
                 (EventTypeData.duration data) (EventTypeData.url_slug data)
                 (EventTypeData.user_id data)
                 (Some (Pg.availability_id_seq (Pg.sequences db)))) db1)
    as [c [db2 [Hins Htab]]].
  { destruct Hs as [e [Hin Hslug]]. exists e. split; [rewrite He; assumption|].
    exact Hslug. }
  rewrite Hins.
  exists db2, (Availability.mk (Pg.availability_id_seq (Pg.sequences db))
                 "Default Availability" "UTC").
  rewrite Htab. split; [reflexivity|]. split; [assumption|]. split; [assumption|].
  split; [reflexivity|]. rewrite Hi. exact Hw.
Qed.

(** What a [createEventType] that returned went through. *)
Lemma createEventType_returned (db db' : Pg.DB) (data : EventTypeData.t)
    (r : EventTypeService.with_bookingUrl) :
  EventTypeService.createEventType data db = (Pg.Ok r, db') ->
  exists aid db1,
    Props.resolve_availability data db = (Pg.Ok aid, db1)
    /\ r = EventTypeService.add_bookingUrl
             (EventType.mk (Pg.event_types_id_seq (Pg.sequences db1))
                (EventTypeData.name data) (EventTypeData.description data)
                (EventTypeData.duration data) (Some (Props.stored_slug data))
                (Js.or_null_num (EventTypeData.user_id data)) (Js.or_null_num aid))
    /\ db' = Sql.set_event_types
               (Pg.event_types (Pg.tables db1) ++ [EventTypeService.eventType r])
               (snd (Sql.nextval_event_types db1)).
Proof.
  rewrite createEventType_steps.
  destruct (EventTypeModel.findByName (EventTypeData.name data) db); [discriminate|].
  destruct (Props.resolve_availability data db) as [[aid|x] db1] eqn:Hr;
    [|destruct x; discriminate].
  destruct (EventTypeModel.createEventType _ db1) as [[e|x] db2] eqn:Hc;
    [|destruct x; discriminate].
  intros H. inversion H; subst; clear H.
  unfold EventTypeModel.createEventType in Hc.
  cbn [EventTypeData.name EventTypeData.description EventTypeData.duration
       EventTypeData.url_slug EventTypeData.user_id EventTypeData.availability_id] in Hc.
  rewrite or_str_stored_slug in Hc.
  apply insert_event_type_returns in Hc. destruct Hc as [He Hdb].
  exists aid, db1. split; [reflexivity|]. split.
  - rewrite He. reflexivity.
  - rewrite Hdb. reflexivity.
Qed.

Lemma provision_default_event_types_seq (db db1 : Pg.DB) (i : Z) :
  EventTypeService.provision_default db = (Pg.Ok i, db1) ->
  Pg.event_types_id_seq (Pg.sequences db1) = Pg.event_types_id_seq (Pg.sequences db).
Proof.
  unfold EventTypeService.provision_default. unfold_monad.
  unfold Sql.insert_availability, Sql.nextval_availability. cbv zeta iota beta.
    rewrite default_availability_fits. cbv iota.
  simpl Availability.id.
  match goal with
  | |- context [EventTypeService.insert_days ?a 1 7 ?d] =>
      destruct (EventTypeService.insert_days a 1 7 d) as [[u|x] db2] eqn:Hdays
  end; [|discriminate].
  intros H. inversion H; subst; clear H.
  apply insert_days_returns in Hdays. destruct Hdays as [rows [_ Hdb]].
  rewrite Hdb. reflexivity.
Qed.

Lemma resolve_availability_event_types_seq (data : EventTypeData.t) (db db1 : Pg.DB)
    (aid : option Z) :
  Props.resolve_availability data db = (Pg.Ok aid, db1) ->
  Pg.event_types_id_seq (Pg.sequences db1) = Pg.event_types_id_seq (Pg.sequences db).
Proof.
  unfold Props.resolve_availability.
  destruct (Js.truthy_opt_num (EventTypeData.availability_id data)); cbn [negb];
    cbv beta iota.
  - unfold_monad. intros H. inversion H; subst. reflexivity.
  - unfold Pg.bind at 1. unfold Pg.query. cbv beta iota.
    destruct (AvailabilityModel.getDefaultAvailability db) as [d|].
    + unfold Pg.ret. intros H. inversion H; subst. reflexivity.
    + unfold Pg.bind, Pg.ret. cbv beta iota.
      destruct (EventTypeService.provision_default db) as [[i|x] db2] eqn:Hp; [|discriminate].
      intros H. inversion H; subst. apply (provision_default_event_types_seq _ _ _ Hp).
Qed.

Lemma bookingUrl_stored_slug (data : EventTypeData.t) :
  Js.or_str (Some (Props.stored_slug data)) (EventTypeData.name data)
  = Props.stored_slug data.
Proof.
  unfold Props.stored_slug, Js.or_str.
  destruct (EventTypeData.url_slug data) as [[|c s]|]; simpl;
    destruct (EventTypeData.name data); reflexivity.
Qed.

(** X13. A [createEventType] that returns has appended one event type,
    under the next id of the sequence, with the submitted name, description
    and duration; its [url_slug] is the submitted one, or the name when
    [url_slug] is absent or empty, and [bookingUrl] is "/book/" followed by
    that slug; [bookings] is untouched, and with an [availability_id] given
    the new row links to it and no availability or interval is written. *)
Theorem createEventType_stores_slug_and_url (db db' : Pg.DB) (data : EventTypeData.t)
    (r : EventTypeService.with_bookingUrl) :
  EventTypeService.createEventType data db = (Pg.Ok r, db') ->
  EventType.id (EventTypeService.eventType r) = Pg.event_types_id_seq (Pg.sequences db)
  /\ EventType.name (EventTypeService.eventType r) = EventTypeData.name data
  /\ EventType.description (EventTypeService.eventType r) = EventTypeData.description data
  /\ EventType.duration (EventTypeService.eventType r) = EventTypeData.duration data
  /\ EventType.url_slug (EventTypeService.eventType r) = Some (Props.stored_slug data)
  /\ EventTypeService.bookingUrl r = ("/book/" ++ Props.stored_slug data)%string
  /\ Pg.event_types (Pg.tables db')
     = Pg.event_types (Pg.tables db) ++ [EventTypeService.eventType r]
  /\ Pg.bookings (Pg.tables db') = Pg.bookings (Pg.tables db)
  /\ (Js.truthy_opt_num (EventTypeData.availability_id data) = true ->
      EventType.availability_id (EventTypeService.eventType r)
      = EventTypeData.availability_id data
      /\ Pg.availability (Pg.tables db') = Pg.availability (Pg.tables db)
      /\ Pg.availability_interval (Pg.tables db')
         = Pg.availability_interval (Pg.tables db)).
Proof.
  intros H. apply createEventType_returned in H.
  destruct H as [aid [db1 [Hr [-> ->]]]].
  pose proof (resolve_availability_event_types_seq _ _ _ _ Hr) as Hseq.
  apply resolve_availability_effect in Hr.
  destruct Hr as [He [Hb [Hsame [Hgiven _]]]].
  unfold EventTypeService.add_bookingUrl.
  cbn [EventTypeService.eventType EventTypeService.bookingUrl EventType.id EventType.name
       EventType.description EventType.duration EventType.url_slug
       EventType.availability_id].
  split; [assumption|]. split; [reflexivity|]. split; [reflexivity|].
  split; [reflexivity|]. split; [reflexivity|].
  split; [rewrite bookingUrl_stored_slug; reflexivity|].
  split; [simpl; rewrite He; reflexivity|].
  split; [simpl; assumption|].
  intros Ht. rewrite (Hsame (or_introl Ht)).
  specialize (Hgiven Ht). inversion Hgiven; subst.
  split; [|split; reflexivity].
  unfold Js.truthy_opt_num in Ht. unfold Js.or_null_num.
  destruct (EventTypeData.availability_id data) as [a|]; [|discriminate].
  rewrite Ht. reflexivity.
Qed.

Lemma createEventType_stores_slug_and_url_witness :
  EventType.url_slug
    (EventTypeService.eventType
       (EventTypeService.add_bookingUrl
          (EventType.mk 2 "1-hour" None 60 (Some "1-hour"%string) None (Some 1))))
  = Some (Props.stored_slug Scenario.one_hour)
  /\ EventTypeService.bookingUrl
       (EventTypeService.add_bookingUrl
          (EventType.mk 2 "1-hour" None 60 (Some "1-hour"%string) None (Some 1)))
     = ("/book/" ++ Props.stored_slug Scenario.one_hour)%string.
Proof.
  assert (H : EventTypeService.createEventType Scenario.one_hour Scenario.with_event_type
              = (Pg.Ok (EventTypeService.add_bookingUrl
                          (EventType.mk 2 "1-hour" None 60 (Some "1-hour"%string) None
                             (Some 1))),
                 Scenario.after (EventTypeService.createEventType Scenario.one_hour)
                   Scenario.with_event_type)).
  { vm_compute. reflexivity. }
  destruct (createEventType_stores_slug_and_url _ _ _ _ H)
    as [_ [_ [_ [_ [Hslug [Hurl _]]]]]].
  split; assumption.
Defined.

(** X14. What [createEventType] returned is what [getEventTypeById]
    returns for the new id right after, on a table whose ids were drawn
    from the sequence. *)
Theorem getEventTypeById_after_createEventType (db db' : Pg.DB) (data : EventTypeData.t)
    (r : EventTypeService.with_bookingUrl) :
  Props.event_type_ids_drawn db ->
  EventTypeService.createEventType data db = (Pg.Ok r, db') ->
  EventTypeService.getEventTypeById (EventType.id (EventTypeService.eventType r)) db'
  = (Pg.Ok r, db').
Proof.
  intros Hids H.
  apply createEventType_returned in H. destruct H as [aid [db1 [Hres [Hr Hdb]]]].
  pose proof (resolve_availability_event_types_seq _ _ _ _ Hres) as Hseq.
  apply resolve_availability_effect in Hres. destruct Hres as [He _].
  assert (Hid : EventType.id (EventTypeService.eventType r)
                = Pg.event_types_id_seq (Pg.sequences db)).
  { rewrite Hr. simpl. assumption. }
  assert (Hrows : Pg.event_types (Pg.tables db')
                  = Pg.event_types (Pg.tables db) ++ [EventTypeService.eventType r]).
  { rewrite Hdb. simpl. rewrite He. reflexivity. }
  assert (Hr' : r = EventTypeService.add_bookingUrl (EventTypeService.eventType r)).
  { rewrite Hr at 1. rewrite Hr. reflexivity. }
  clear Hr. rename Hr' into Hr.
  unfold EventTypeService.getEventTypeById, EventTypeModel.findById. unfold_monad.
  rewrite Hrows.
  rewrite (find_app_new EventType.id _ _ (EventTypeService.eventType r)).
  - rewrite <- Hr. reflexivity.
  - intros o Ho. specialize (Hids o Ho). rewrite Hid. lia.
  - reflexivity.
Qed.

Lemma getEventTypeById_after_createEventType_witness :
  EventTypeService.getEventTypeById
    (EventType.id
       (EventTypeService.eventType
          (EventTypeService.add_bookingUrl
             (EventType.mk 2 "1-hour" None 60 (Some "1-hour"%string) None (Some 1)))))
    (Scenario.after (EventTypeService.createEventType Scenario.one_hour)
       Scenario.with_event_type)
  = (Pg.Ok (EventTypeService.add_bookingUrl
              (EventType.mk 2 "1-hour" None 60 (Some "1-hour"%string) None (Some 1))),
     Scenario.after (EventTypeService.createEventType Scenario.one_hour)
       Scenario.with_event_type).
Proof.
  apply (getEventTypeById_after_createEventType Scenario.with_event_type _ Scenario.one_hour).
  - intros r Hr. vm_compute in Hr. destruct Hr as [<-|[]]. vm_compute. split; reflexivity.
  - vm_compute. reflexivity.
Defined.

Lemma createEventType_failure_keeps_default_availability_witness :
  exists db' a,
    EventTypeService.createEventType
      (EventTypeData.mk "hello" None 30 (Some "30min"%string) None None)
      (Scenario.after (AvailabilityService.deleteAvailability 1) Scenario.with_event_type)
    = (Pg.Throw (Pg.CustomError 500), db')
    /\ Pg.event_types (Pg.tables db')
       = Pg.event_types
           (Pg.tables (Scenario.after (AvailabilityService.deleteAvailability 1)
                         Scenario.with_event_type))
    /\ Pg.availability (Pg.tables db') = [a]
    /\ Availability.name a = "Default Availability"%string
    /\ map Props.window (Pg.availability_interval (Pg.tables db'))
       = Props.default_windows (Availability.id a).
Proof.
  apply (createEventType_failure_keeps_default_availability
           (Scenario.after (AvailabilityService.deleteAvailability 1) Scenario.with_event_type)
           (EventTypeData.mk "hello" None 30 (Some "30min"%string) None None)).
  - intros i Hi. vm_compute in Hi. destruct Hi.
  - vm_compute. reflexivity.
  - vm_compute. reflexivity.
  - vm_compute. reflexivity.
  - eexists. split; [vm_compute; left; reflexivity | vm_compute; reflexivity].
Defined.

(** [updateEventType], step by step. *)
Lemma updateEventType_steps (id : Z) (data : EventTypeUpdate.t) (db : Pg.DB) :
  EventTypeService.updateEventType id data db
  = match EventTypeModel.findById id db with
    | None => (Pg.Throw (Pg.CustomError 404), db)
    | Some existing =>
        if match EventTypeUpdate.name data with
           | Some n =>
               Js.truthy_str n && negb (String.eqb n (EventType.name existing))
               && match EventTypeModel.findByName n db with Some _ => true | None => false end
           | None => false
           end
        then (Pg.Throw (Pg.CustomError 409), db)
        else if negb (EventTypeModel.has_updates data)
        then (Pg.Throw (Pg.CustomError 500), db)
        else
          match Sql.update_event_type id (EventTypeModel.assign data) db with
          | (Pg.Ok (Some u), db') => (Pg.Ok (EventTypeService.add_bookingUrl u), db')
          | (Pg.Throw (Pg.CustomError c), db') => (Pg.Throw (Pg.CustomError c), db')
          | (_, db') => (Pg.Throw (Pg.CustomError 500), db')
          end
    end.
Proof.
  unfold EventTypeService.updateEventType, EventTypeModel.updateEventType. unfold_monad.
  destruct (EventTypeModel.findById id db) as [existing|]; [|reflexivity].
  destruct (EventTypeUpdate.name data) as [n|] eqn:Hn.
  - destruct (Js.truthy_str n && negb (String.eqb n (EventType.name existing))); cbn [andb].
    + destruct (EventTypeModel.findByName n db); [reflexivity|].
      destruct (EventTypeModel.has_updates data); cbn [negb]; [|reflexivity].
      destruct (Sql.update_event_type id (EventTypeModel.assign data) db) as [[[u|]|x] db'];
        try reflexivity. destruct x; reflexivity.
    + destruct (EventTypeModel.has_updates data); cbn [negb]; [|reflexivity].
      destruct (Sql.update_event_type id (EventTypeModel.assign data) db) as [[[u|]|x] db'];
        try reflexivity. destruct x; reflexivity.
  - destruct (EventTypeModel.has_updates data); cbn [negb]; [|reflexivity].
    destruct (Sql.update_event_type id (EventTypeModel.assign data) db) as [[[u|]|x] db'];
      try reflexivity. destruct x; reflexivity.
Qed.

(** What a returning [UPDATE] of [event_types] has done. *)
Lemma update_event_type_returns (id : Z) (assign : EventType.row -> EventType.row)
    (db db' : Pg.DB) (u : EventType.row) :
  Sql.update_event_type id assign db = (Pg.Ok (Some u), db') ->
  exists old,
    find (fun r => Z.eqb (EventType.id r) id) (Pg.event_types (Pg.tables db)) = Some old
    /\ u = assign old
    /\ db' = Sql.set_event_types
               (map (fun o => if Z.eqb (EventType.id o) id then u else o)
                    (Pg.event_types (Pg.tables db))) db.
Proof.
  unfold Sql.update_event_type. cbv zeta.
  destruct (find _ (Pg.event_types (Pg.tables db))) as [old|]; [|discriminate].
  repeat match goal with
         | |- context [if ?c then _ else _] => destruct c
         end; try discriminate.
  intros H. inversion H; subst. exists old. repeat split.
Qed.

(** An [UPDATE] of [event_types] that does not return a row leaves the
    database alone. *)
Lemma update_event_type_refused (id : Z) (assign : EventType.row -> EventType.row)
    (db db' : Pg.DB) (res : Pg.result (option EventType.row)) :
  Sql.update_event_type id assign db = (res, db') ->
  (forall u, res <> Pg.Ok (Some u)) ->
  db' = db.
Proof.
  unfold Sql.update_event_type. cbv zeta.
  destruct (find _ (Pg.event_types (Pg.tables db))) as [old|];
    [|intros H; inversion H; reflexivity].
  repeat match goal with
         | |- context [if ?c then _ else _] => destruct c
         end; intros H; inversion H; subst; try reflexivity.
  intros Hno. exfalso. apply (Hno (assign old)). reflexivity.
Qed.

(** X15. [updateEventType] answers 404 for an unknown id; 409 when the
    payload carries a non-empty name, different from the stored one, that
    another lookup by name finds; 500 for a payload that names no column.
    Whenever it throws, the database is what it was and the error is a
    [CustomError]. *)
Theorem updateEventType_refusals (db : Pg.DB) (id : Z) (data : EventTypeUpdate.t) :
  (EventTypeModel.findById id db = None ->
   EventTypeService.updateEventType id data db = (Pg.Throw (Pg.CustomError 404), db))
  /\ (forall existing n,
        EventTypeModel.findById id db = Some existing ->
        EventTypeUpdate.name data = Some n ->
        n <> EmptyString -> n <> EventType.name existing ->
        EventTypeModel.findByName n db <> None ->
        EventTypeService.updateEventType id data db = (Pg.Throw (Pg.CustomError 409), db))
  /\ (EventTypeModel.findById id db <> None ->
      data = EventTypeUpdate.none ->
      EventTypeService.updateEventType id data db = (Pg.Throw (Pg.CustomError 500), db))
  /\ (forall x db',
        EventTypeService.updateEventType id data db = (Pg.Throw x, db') ->
        db' = db /\ exists c, x = Pg.CustomError c).
Proof.
  split; [|split; [|split]].
  - intros Hn. rewrite updateEventType_steps, Hn. reflexivity.
  - intros existing n Hf Hname Hne Hdiff Htaken.
    rewrite updateEventType_steps, Hf, Hname.
    assert (H1 : Js.truthy_str n = true) by (apply truthy_str_true; assumption).
    assert (H2 : String.eqb n (EventType.name existing) = false)
      by (apply String.eqb_neq; assumption).
    rewrite H1, H2. cbn [negb andb].
    destruct (EventTypeModel.findByName n db); [reflexivity | congruence].
  - intros Hf ->. rewrite updateEventType_steps.
    destruct (EventTypeModel.findById id db) as [existing|]; [|congruence]. reflexivity.
  - intros x db'. rewrite updateEventType_steps.
    destruct (EventTypeModel.findById id db) as [existing|];
      [|intros H; inversion H; split; [reflexivity | eexists; reflexivity]].
    match goal with
    | |- context [if ?c then _ else _] => destruct c
    end; [intros H; inversion H; split; [reflexivity | eexists; reflexivity]|].
    destruct (negb (EventTypeModel.has_updates data));
      [intros H; inversion H; split; [reflexivity | eexists; reflexivity]|].
    destruct (Sql.update_event_type id (EventTypeModel.assign data) db)
      as [res db1] eqn:Hu.
    destruct res as [[u|]|y]; [discriminate| |destruct y];
      intros H; inversion H; subst;
      (split; [|eexists; reflexivity]);
      apply (update_event_type_refused _ _ _ _ _ Hu); intros u; discriminate.
Qed.

(** X16. An [updateEventType] that returns has rewritten only the row
    of that id.  The new row keeps the id; each of [name], [description],
    [duration], [url_slug] and [user_id] has the payload's value when the
    payload names it and the stored value when not; [availability_id] is
    cleared by [null], replaced by a number and kept when absent.  The
    [bookingUrl] returned is [/book/] followed by the new row's
    [url_slug], or by its name when it has no slug or an empty one.  Every
    other row and the other three tables are untouched. *)
Theorem updateEventType_rewrites_one_row (db db' : Pg.DB) (id : Z)
    (data : EventTypeUpdate.t) (r : EventTypeService.with_bookingUrl) :
  EventTypeService.updateEventType id data db = (Pg.Ok r, db') ->
  exists old,
    EventTypeModel.findById id db = Some old
    /\ EventTypeService.eventType r
       = EventType.mk id
           (Props.supplied (EventTypeUpdate.name data) (EventType.name old))
           (match EventTypeUpdate.description data with
            | Some text => Some text
            | None => EventType.description old
            end)
           (Props.supplied (EventTypeUpdate.duration data) (EventType.duration old))
           (match EventTypeUpdate.url_slug data with
            | Some slug => Some slug
            | None => EventType.url_slug old
            end)
           (match EventTypeUpdate.user_id data with
            | Some user => Some user
            | None => EventType.user_id old
            end)
           (Props.supplied (EventTypeUpdate.availability_id data)
              (EventType.availability_id old))
    /\ EventTypeService.bookingUrl r
       = ("/book/"
          ++ match EventType.url_slug (EventTypeService.eventType r) with
             | Some EmptyString | None => EventType.name (EventTypeService.eventType r)
             | Some slug => slug
             end)%string
    /\ Pg.event_types (Pg.tables db')
       = map (fun o => if Z.eqb (EventType.id o) id then EventTypeService.eventType r else o)
             (Pg.event_types (Pg.tables db))
    /\ Pg.availability (Pg.tables db') = Pg.availability (Pg.tables db)
    /\ Pg.availability_interval (Pg.tables db') = Pg.availability_interval (Pg.tables db)
    /\ Pg.bookings (Pg.tables db') = Pg.bookings (Pg.tables db).
Proof.
  rewrite updateEventType_steps.
  destruct (EventTypeModel.findById id db) as [existing|] eqn:Hf; [|discriminate].
  match goal with
  | |- context [if ?c then _ else _] => destruct c
  end; [discriminate|].
  destruct (negb (EventTypeModel.has_updates data)); [discriminate|].
  destruct (Sql.update_event_type id (EventTypeModel.assign data) db)
    as [res db1] eqn:Hu.
  destruct res as [[u|]|y]; try discriminate; [|destruct y; discriminate].
  intros H. inversion H; subst; clear H.
  apply update_event_type_returns in Hu. destruct Hu as [old [Hfind [Hu Hdb]]].
  unfold EventTypeModel.findById in Hf. rewrite Hfind in Hf. inversion Hf; subst existing.
  exists old. cbn [EventTypeService.add_bookingUrl EventTypeService.eventType
                     EventTypeService.bookingUrl].
  split; [reflexivity|]. split.
  { rewrite Hu. unfold EventTypeModel.assign, Props.supplied.
    apply find_some_id in Hfind. destruct Hfind as [_ ->]. reflexivity. }
  split.
  { unfold Js.or_str, Js.truthy_str.
    destruct (EventType.url_slug u) as [[|c slug]|]; reflexivity. }
  rewrite Hdb. repeat split.
Qed.

Lemma updateEventType_refusals_witness :
  EventTypeService.updateEventType 2
    (EventTypeUpdate.mk (Some "intro"%string) None None None None None)
    Scenario.two_event_types
  = (Pg.Throw (Pg.CustomError 409), Scenario.two_event_types)
  /\ EventTypeService.updateEventType 2 EventTypeUpdate.none Scenario.two_event_types
     = (Pg.Throw (Pg.CustomError 500), Scenario.two_event_types).
Proof.
  split.
  - apply (proj1 (proj2 (updateEventType_refusals Scenario.two_event_types 2
                           (EventTypeUpdate.mk (Some "intro"%string) None None None None None)))
             (EventType.mk 2 "chat" None 15 (Some "intro"%string) None (Some 1))
             "intro"%string).
    + vm_compute. reflexivity.
    + reflexivity.
    + discriminate.
    + vm_compute. discriminate.
    + vm_compute. discriminate.
  - apply (proj1 (proj2 (proj2 (updateEventType_refusals Scenario.two_event_types 2
                                  EventTypeUpdate.none)))).
    + vm_compute. discriminate.
    + reflexivity.
Defined.

(** X16 on event type 1: a payload with a new [name], [description] and
    [duration] that clears [availability_id]. *)
Lemma updateEventType_rewrites_one_row_witness :
  exists old,
    EventTypeModel.findById 1 Scenario.with_event_type = Some old
    /\ EventTypeService.eventType
         (EventTypeService.mk
            (EventType.mk 1 "intro-call" (Some "First call"%string) 45
               (Some "30min"%string) None None)
            "/book/30min")
       = EventType.mk 1 "intro-call" (Some "First call"%string) 45
           (EventType.url_slug old) (EventType.user_id old) None
    /\ EventTypeService.bookingUrl
         (EventTypeService.mk
            (EventType.mk 1 "intro-call" (Some "First call"%string) 45
               (Some "30min"%string) None None)
            "/book/30min")
       = "/book/30min"%string.
Proof.
  assert (H : EventTypeService.updateEventType 1 Scenario.intro_call
                Scenario.with_event_type
              = (Pg.Ok (EventTypeService.mk
                          (EventType.mk 1 "intro-call" (Some "First call"%string) 45
                             (Some "30min"%string) None None)
                          "/book/30min"),
                 Scenario.after (EventTypeService.updateEventType 1 Scenario.intro_call)
                   Scenario.with_event_type)).
  { vm_compute. reflexivity. }
  destruct (updateEventType_rewrites_one_row _ _ _ _ _ H) as [old [Hf [He [Hb _]]]].
  exists old. split; [exact Hf|]. split; [exact He | exact Hb].
Defined.

Lemma deleteEventType_cases (db : Pg.DB) (id : Z) :
  match EventTypeModel.findById id db with
  | None => EventTypeService.deleteEventType id db = (Pg.Throw (Pg.CustomError 404), db)
  | Some e =>
      EventTypeService.deleteEventType id db
      = (Pg.Ok e,
         Sql.set_tables
           (Pg.mkTables (Pg.availability (Pg.tables db))
              (Pg.availability_interval (Pg.tables db))
              (filter (fun r => negb (Z.eqb (EventType.id r) id))
                      (Pg.event_types (Pg.tables db)))
              (filter (fun b => negb (Z.eqb (Booking.event_type_id b) id))
                      (Pg.bookings (Pg.tables db)))) db)
  end.
Proof.
  unfold EventTypeService.deleteEventType, EventTypeModel.deleteEventType,
         Sql.delete_event_type.
  unfold_monad. unfold EventTypeModel.findById. cbv beta zeta.
  destruct (find (fun r => Z.eqb (EventType.id r) id) (Pg.event_types (Pg.tables db)))
    as [e|] eqn:Hf; cbv beta iota zeta; rewrite ?Hf; reflexivity.
Qed.

(** X17. [deleteEventType] answers 404 and changes nothing for an unknown
    id; otherwise it returns the stored row, removes it together with every
    booking of that event type ([ON DELETE CASCADE]) and nothing else,
    [getEventTypeById] then answers 404, and no booking is left without its
    event type. *)
Theorem deleteEventType_cascades (db : Pg.DB) (id : Z) :
  (EventTypeModel.findById id db = None ->
   EventTypeService.deleteEventType id db = (Pg.Throw (Pg.CustomError 404), db))
  /\ (forall e, EventTypeModel.findById id db = Some e ->
        exists db',
          EventTypeService.deleteEventType id db = (Pg.Ok e, db')
          /\ Pg.event_types (Pg.tables db')
             = filter (fun r => negb (Z.eqb (EventType.id r) id))
                      (Pg.event_types (Pg.tables db))
          /\ Pg.bookings (Pg.tables db')
             = filter (fun b => negb (Z.eqb (Booking.event_type_id b) id))
                      (Pg.bookings (Pg.tables db))
          /\ Pg.availability (Pg.tables db') = Pg.availability (Pg.tables db)
          /\ Pg.availability_interval (Pg.tables db')
             = Pg.availability_interval (Pg.tables db)
          /\ EventTypeService.getEventTypeById id db' = (Pg.Throw (Pg.CustomError 404), db')
          /\ (Props.bookings_owned db -> Props.bookings_owned db')).
Proof.
  assert (Hc := deleteEventType_cases db id). split.
  - intros Hn. rewrite Hn in Hc. exact Hc.
  - intros e He. rewrite He in Hc.
    eexists. split; [exact Hc|].
    split; [reflexivity|]. split; [reflexivity|]. split; [reflexivity|].
    split; [reflexivity|]. split.
    + unfold EventTypeService.getEventTypeById, EventTypeModel.findById. unfold_monad.
      unfold Sql.set_tables. cbn [Pg.tables Pg.event_types].
      rewrite (find_filter_other EventType.id id). reflexivity.
    + intros Hown b Hb. unfold Sql.set_tables in Hb. cbn [Pg.tables Pg.bookings] in Hb.
      apply filter_In in Hb. destruct Hb as [Hb Hne].
      specialize (Hown b Hb). unfold Sql.event_type_exists in *.
      unfold Sql.set_tables. cbn [Pg.tables Pg.event_types].
      apply existsb_exists in Hown. destruct Hown as [t [Ht Hid]].
      apply existsb_exists. exists t. split; [|assumption].
      apply filter_In. split; [assumption|].
      apply Z.eqb_eq in Hid. rewrite Hid. assumption.
Qed.

Lemma deleteEventType_cascades_witness :
  exists db',
    EventTypeService.deleteEventType 1 Scenario.slot_retaken
    = (Pg.Ok (EventType.mk 1 "30min" None 30 (Some "30min"%string) None (Some 1)), db')
    /\ Pg.event_types (Pg.tables db')
       = filter (fun r => negb (Z.eqb (EventType.id r) 1))
                (Pg.event_types (Pg.tables Scenario.slot_retaken))
    /\ Pg.bookings (Pg.tables db')
       = filter (fun b => negb (Z.eqb (Booking.event_type_id b) 1))
                (Pg.bookings (Pg.tables Scenario.slot_retaken))
    /\ Pg.availability (Pg.tables db') = Pg.availability (Pg.tables Scenario.slot_retaken)
    /\ Pg.availability_interval (Pg.tables db')
       = Pg.availability_interval (Pg.tables Scenario.slot_retaken)
    /\ EventTypeService.getEventTypeById 1 db' = (Pg.Throw (Pg.CustomError 404), db')
    /\ (Props.bookings_owned Scenario.slot_retaken -> Props.bookings_owned db').
Proof.
  apply (proj2 (deleteEventType_cascades Scenario.slot_retaken 1)).
  vm_compute. reflexivity.
Defined.

(* ================================================================== *)
(** ** Availability *)

Lemma day_start_le_day_then_start (a b : Interval.row) :
  Sql.day_start_le a b = true <-> Props.day_then_start a b.
Proof.
  unfold Sql.day_start_le, Props.day_then_start.
  rewrite orb_true_iff, andb_true_iff, Z.ltb_lt, Z.eqb_eq, Z.leb_le. tauto.
Qed.

Lemma day_start_le_total (a b : Interval.row) :
  Sql.day_start_le a b = false -> Sql.day_start_le b a = true.
Proof.
  intros H. apply day_start_le_day_then_start.
  assert (Hn : ~ Props.day_then_start a b).
  { intros Hc. apply day_start_le_day_then_start in Hc. congruence. }
  unfold Props.day_then_start in *. lia.
Qed.

Lemma order_by_day_start_sorted (l : list Interval.row) :
  StronglySorted Props.day_then_start (Sql.order_by_day_start l).
Proof.
  rewrite order_by_day_start_order_by.
  apply Sorted_StronglySorted.
  - intros a b c. unfold Props.day_then_start. lia.
  - assert (H := order_by_sorted Sql.day_start_le l day_start_le_total).
    induction H as [|x m Hm IH Hhd]; constructor; [assumption|].
    destruct Hhd; constructor. apply day_start_le_day_then_start. assumption.
Qed.

Lemma order_by_day_start_perm (l : list Interval.row) :
  Permutation l (Sql.order_by_day_start l).
Proof. rewrite order_by_day_start_order_by. apply order_by_perm. Qed.

(** The object [findById] builds. *)
Lemma findById_shape (id : Z) (db : Pg.DB) (w : AvailabilityModel.with_intervals) :
  AvailabilityModel.findById id db = Some w ->
  In (AvailabilityModel.availability w) (Pg.availability (Pg.tables db))
  /\ Availability.id (AvailabilityModel.availability w) = id
  /\ AvailabilityModel.intervals w = Sql.order_by_day_start (Props.intervals_of id db).
Proof.
  unfold AvailabilityModel.findById.
  destruct (filter _ (Pg.availability (Pg.tables db))) as [|a l] eqn:Hf; [discriminate|].
  intros H. inversion H; subst; clear H. simpl.
  assert (Hin : In a (filter (fun a0 => Z.eqb (Availability.id a0) id)
                        (Pg.availability (Pg.tables db)))).
  { rewrite Hf. left. reflexivity. }
  apply filter_In in Hin. destruct Hin as [Hin Hid]. apply Z.eqb_eq in Hid.
  repeat split; assumption.
Qed.

(** X18. [getAvailabilityById] answers 404 when no availability has the
    id; what it returns otherwise is a stored availability of that id with
    exactly its own interval rows, sorted by day of week and then by start
    time, and the database is untouched. *)
Theorem getAvailabilityById_sorted_intervals (db : Pg.DB) (id : Z) :
  (AvailabilityModel.findById id db = None ->
   AvailabilityService.getAvailabilityById id db = (Pg.Throw (Pg.CustomError 404), db))
  /\ (forall w db',
        AvailabilityService.getAvailabilityById id db = (Pg.Ok w, db') ->
        db' = db
        /\ In (AvailabilityModel.availability w) (Pg.availability (Pg.tables db))
        /\ Availability.id (AvailabilityModel.availability w) = id
        /\ Permutation (AvailabilityModel.intervals w) (Props.intervals_of id db)
        /\ StronglySorted Props.day_then_start (AvailabilityModel.intervals w)).
Proof.
  unfold AvailabilityService.getAvailabilityById. unfold_monad. split.
  - intros ->. reflexivity.
  - intros w db'.
    destruct (AvailabilityModel.findById id db) as [w0|] eqn:Hf; [|discriminate].
    intros H. inversion H; subst; clear H.
    apply findById_shape in Hf. destruct Hf as [Hin [Hid Hi]].
    split; [reflexivity|]. split; [assumption|]. split; [assumption|].
    rewrite Hi. split.
    + apply Permutation_sym, order_by_day_start_perm.
    + apply order_by_day_start_sorted.
Qed.

Lemma getAvailabilityById_sorted_intervals_witness :
  Scenario.with_office_hours = Scenario.with_office_hours
  /\ In (AvailabilityModel.availability
           (AvailabilityModel.mk (Availability.mk 1 "Office" "UTC")
              [Interval.mk 8 1 1 32400 43200; Interval.mk 9 1 1 46800 61200]))
        (Pg.availability (Pg.tables Scenario.with_office_hours))
  /\ Availability.id
       (AvailabilityModel.availability
          (AvailabilityModel.mk (Availability.mk 1 "Office" "UTC")
             [Interval.mk 8 1 1 32400 43200; Interval.mk 9 1 1 46800 61200])) = 1
  /\ Permutation
       (AvailabilityModel.intervals
          (AvailabilityModel.mk (Availability.mk 1 "Office" "UTC")
             [Interval.mk 8 1 1 32400 43200; Interval.mk 9 1 1 46800 61200]))
       (Props.intervals_of 1 Scenario.with_office_hours)
  /\ StronglySorted Props.day_then_start
       (AvailabilityModel.intervals
          (AvailabilityModel.mk (Availability.mk 1 "Office" "UTC")
             [Interval.mk 8 1 1 32400 43200; Interval.mk 9 1 1 46800 61200])).
Proof.
  apply (proj2 (getAvailabilityById_sorted_intervals Scenario.with_office_hours 1)).
  vm_compute. reflexivity.
Defined.

(** What an [INSERT] into [availability] does. *)
Lemma insert_availability_effect (name timezone : string) (db : Pg.DB) :
  Sql.insert_availability name timezone db
  = if negb (Sql.varchar 255 name && Sql.varchar 50 timezone)
    then (Pg.Throw (Pg.DatabaseError Pg.string_data_right_truncation),
          snd (Sql.nextval_availability db))
    else
      (Pg.Ok (Availability.mk (Pg.availability_id_seq (Pg.sequences db)) name timezone),
       Sql.set_availability
         (Pg.availability (Pg.tables db)
          ++ [Availability.mk (Pg.availability_id_seq (Pg.sequences db)) name timezone])
         (snd (Sql.nextval_availability db))).
Proof. reflexivity. Qed.

Lemma insert_intervals_throws_database_error (l : list IntervalData.t) (aid : Z)
    (db db' : Pg.DB) (e : Pg.exn) :
  AvailabilityModel.insert_intervals aid l db = (Pg.Throw e, db') ->
  exists c, e = Pg.DatabaseError c.
Proof.
  revert db. induction l as [|i l IH]; intros db.
  - simpl. unfold Pg.ret. discriminate.
  - cbn [AvailabilityModel.insert_intervals]. unfold Pg.bind.
    destruct (Sql.insert_interval aid _ _ _ db) as [[r|x] db1] eqn:Hi.
    + apply IH.
    + intros H. inversion H; subst. apply insert_interval_throws_database_error in Hi.
      exact Hi.
Qed.

(** The model's [createAvailability], returning or throwing. *)
Lemma model_createAvailability_effect (data : AvailabilityData.t) (db db' : Pg.DB)
    (res : Pg.result (option AvailabilityModel.with_intervals)) :
  AvailabilityModel.createAvailability data db = (res, db') ->
  match res with
  | Pg.Throw e => Pg.tables db' = Pg.tables db /\ exists c, e = Pg.DatabaseError c
  | Pg.Ok w =>
      let a := Availability.mk (Pg.availability_id_seq (Pg.sequences db))
                 (AvailabilityData.name data)
                 (match AvailabilityData.timezone data with Some z => z | None => "UTC"%string end) in
      exists rows,
        Forall2 (Props.stores (Availability.id a))
          (match AvailabilityData.intervals data with Some l => l | None => [] end) rows
        /\ Pg.tables db'
           = Pg.mkTables (Pg.availability (Pg.tables db) ++ [a])
               (Pg.availability_interval (Pg.tables db) ++ rows)
               (Pg.event_types (Pg.tables db)) (Pg.bookings (Pg.tables db))
        /\ w = AvailabilityModel.findById (Availability.id a) db'
  end.
Proof.
  unfold AvailabilityModel.createAvailability. unfold_monad.
  rewrite insert_availability_effect.
  destruct (negb (Sql.varchar 255 _ && Sql.varchar 50 _));
    [intros H; inversion H; subst; split; [reflexivity | eexists; reflexivity]|].
  cbn [Availability.id].
  match goal with
  | |- context [AvailabilityModel.insert_intervals ?i ?l ?d] =>
      destruct (AvailabilityModel.insert_intervals i l d) as [[u|x] db1] eqn:Hins
  end.
  - intros H. inversion H; subst; clear H.
    apply insert_intervals_returns in Hins. destruct Hins as [rows [Hrows Hdb]].
    exists rows. split; [exact Hrows|]. split; [|reflexivity].
    rewrite Hdb. reflexivity.
  - intros H. inversion H; subst; clear H.
    apply insert_intervals_throws_database_error in Hins.
    split; [reflexivity | exact Hins].
Qed.

(** [validate_supplied] reads nothing and writes nothing. *)
Lemma validate_supplied_pure (l : option (list IntervalData.t)) (db : Pg.DB) :
  AvailabilityService.validate_supplied l db = (Pg.Ok tt, db)
  \/ AvailabilityService.validate_supplied l db = (Pg.Throw (Pg.CustomError 400), db).
Proof.
  destruct l as [l|]; simpl; [apply validate_intervals_pure | left; reflexivity].
Qed.

(** X19. A [createAvailability] that throws has stored nothing, neither
    the availability nor any interval of the list, also when it is the
    database that refuses one of the intervals; the error is a
    [CustomError] 400 or 500. *)
Theorem createAvailability_is_atomic (db db' : Pg.DB) (data : AvailabilityData.t)
    (x : Pg.exn) :
  AvailabilityService.createAvailability data db = (Pg.Throw x, db') ->
  Pg.tables db' = Pg.tables db /\ (x = Pg.CustomError 400 \/ x = Pg.CustomError 500).
Proof.
  unfold AvailabilityService.createAvailability. unfold Pg.wrap500, Pg.try_catch.
  unfold Pg.bind at 1.
  destruct (validate_supplied_pure (AvailabilityData.intervals data) db) as [Hv|Hv];
    rewrite Hv.
  - destruct (AvailabilityModel.createAvailability data db) as [[w|y] db1] eqn:Hc;
      [discriminate|].
    apply model_createAvailability_effect in Hc. destruct Hc as [Ht [c ->]].
    unfold Pg.throw. intros H. inversion H; subst. split; [assumption | right; reflexivity].
  - unfold Pg.throw. intros H. inversion H; subst. split; [reflexivity | left; reflexivity].
Qed.

Lemma createAvailability_is_atomic_witness :
  Pg.tables
    (Scenario.after
       (AvailabilityService.createAvailability
          (AvailabilityData.mk "Twice" None
             (Some [IntervalData.mk 1 "09:00:00" "12:00:00";
                    IntervalData.mk 1 "09:00:00" "12:00:00"])))
       Scenario.with_event_type)
  = Pg.tables Scenario.with_event_type
  /\ (Pg.CustomError 500 = Pg.CustomError 400 \/ Pg.CustomError 500 = Pg.CustomError 500).
Proof.
  apply (createAvailability_is_atomic Scenario.with_event_type _
           (AvailabilityData.mk "Twice" None
              (Some [IntervalData.mk 1 "09:00:00" "12:00:00";
                     IntervalData.mk 1 "09:00:00" "12:00:00"]))).
  vm_compute. reflexivity.
Defined.

Lemma filter_none {A} (p : A -> bool) (l : list A) :
  (forall x, In x l -> p x = false) -> filter p l = [].
Proof.
  induction l as [|a l IH]; simpl; intros H; [reflexivity|].
  rewrite (H a (or_introl eq_refl)). apply IH. intros x Hx. apply H. right. assumption.
Qed.

(** X20. A [createAvailability] that returns has appended one
    availability, under the next id of the sequence, with the submitted
    name and the timezone given or "UTC", and one interval row per
    submitted interval; it returns that availability with exactly these
    rows, sorted by day and start, and [getAvailabilityById] returns the
    same object right after. *)
Theorem createAvailability_round_trip (db db' : Pg.DB) (data : AvailabilityData.t)
    (w : option AvailabilityModel.with_intervals) :
  Props.availability_ids_drawn db ->
  Props.intervals_owned db ->
  AvailabilityService.createAvailability data db = (Pg.Ok w, db') ->
  exists created rows,
    w = Some created
    /\ AvailabilityModel.availability created
       = Availability.mk (Pg.availability_id_seq (Pg.sequences db))
           (AvailabilityData.name data)
           (match AvailabilityData.timezone data with Some z => z | None => "UTC"%string end)
    /\ Forall2 (Props.stores (Pg.availability_id_seq (Pg.sequences db)))
         (match AvailabilityData.intervals data with Some l => l | None => [] end) rows
    /\ Permutation (AvailabilityModel.intervals created) rows
    /\ StronglySorted Props.day_then_start (AvailabilityModel.intervals created)
    /\ Pg.availability (Pg.tables db')
       = Pg.availability (Pg.tables db) ++ [AvailabilityModel.availability created]
    /\ Pg.availability_interval (Pg.tables db')
       = Pg.availability_interval (Pg.tables db) ++ rows
    /\ AvailabilityService.getAvailabilityById (Pg.availability_id_seq (Pg.sequences db)) db'
       = (Pg.Ok created, db').
Proof.
  intros Hids Hown.
  unfold AvailabilityService.createAvailability. unfold Pg.wrap500, Pg.try_catch.
  unfold Pg.bind at 1.
  destruct (validate_supplied_pure (AvailabilityData.intervals data) db) as [Hv|Hv];
    rewrite Hv; [|discriminate].
  destruct (AvailabilityModel.createAvailability data db) as [[w0|y] db1] eqn:Hc;
    [|destruct y; discriminate].
  intros H. inversion H; subst; clear H.
  apply model_createAvailability_effect in Hc. cbv zeta in Hc. cbn [Availability.id] in Hc.
  destruct Hc as [rows [Hrows [Ht Hw]]].
  set (i := Pg.availability_id_seq (Pg.sequences db)) in *.
  set (a := Availability.mk i (AvailabilityData.name data)
              (match AvailabilityData.timezone data with
               | Some z => z | None => "UTC"%string end)) in *.
  assert (Hold : filter (fun r => Z.eqb (Availability.id r) i) (Pg.availability (Pg.tables db))
                 = []).
  { apply filter_none. intros r Hr. specialize (Hids r Hr). apply Z.eqb_neq. unfold i. lia. }
  assert (Hivs : filter (fun r => Z.eqb (Interval.availability_id r) i)
                   (Pg.availability_interval (Pg.tables db)) = []).
  { apply filter_none. intros r Hr. specialize (Hown r Hr).
    unfold Sql.availability_exists in Hown. apply existsb_exists in Hown.
    destruct Hown as [o [Ho Hid]]. apply Z.eqb_eq in Hid. specialize (Hids o Ho).
    apply Z.eqb_neq. unfold i. lia. }
  assert (Hfind : AvailabilityModel.findById i db'
                  = Some (AvailabilityModel.mk a (Sql.order_by_day_start rows))).
  { unfold AvailabilityModel.findById, AvailabilityModel.getIntervalsByAvailabilityId.
    rewrite Ht. cbn [Pg.availability Pg.availability_interval].
    rewrite !filter_app, Hold, Hivs.
    destruct (filter_all_stored i _ rows Hrows) as [F1 _]. rewrite F1.
    simpl. rewrite Z.eqb_refl. reflexivity. }
  exists (AvailabilityModel.mk a (Sql.order_by_day_start rows)), rows.
  split; [rewrite Hw; exact Hfind|].
  split; [reflexivity|]. split; [exact Hrows|].
  split; [apply Permutation_sym, order_by_day_start_perm|].
  split; [apply order_by_day_start_sorted|].
  split; [rewrite Ht; reflexivity|]. split; [rewrite Ht; reflexivity|].
  unfold AvailabilityService.getAvailabilityById. unfold_monad. rewrite Hfind. reflexivity.
Qed.

Lemma intervals_owned_with_event_type : Props.intervals_owned Scenario.with_event_type.
Proof.
  intros i Hi. vm_compute in Hi.
  repeat (destruct Hi as [<-|Hi]; [vm_compute; reflexivity|]). destruct Hi.
Qed.

Lemma availability_ids_drawn_with_event_type :
  Props.availability_ids_drawn Scenario.with_event_type.
Proof.
  intros r Hr. vm_compute in Hr. destruct Hr as [<-|[]]. vm_compute. split; reflexivity.
Qed.

Lemma createAvailability_round_trip_witness :
  exists created rows,
    Some (AvailabilityModel.mk (Availability.mk 2 "Office" "UTC")
            [Interval.mk 10 2 1 32400 43200; Interval.mk 9 2 1 46800 61200;
             Interval.mk 8 2 2 32400 43200])
    = Some created
    /\ AvailabilityModel.availability created
       = Availability.mk (Pg.availability_id_seq (Pg.sequences Scenario.with_event_type))
           "Office" "UTC"
    /\ Forall2 (Props.stores (Pg.availability_id_seq (Pg.sequences Scenario.with_event_type)))
         [IntervalData.mk 2 "09:00:00" "12:00:00"; IntervalData.mk 1 "13:00:00" "17:00:00";
          IntervalData.mk 1 "09:00:00" "12:00:00"] rows
    /\ Permutation (AvailabilityModel.intervals created) rows
    /\ StronglySorted Props.day_then_start (AvailabilityModel.intervals created).
Proof.
  destruct (createAvailability_round_trip Scenario.with_event_type
              (Scenario.after
                 (AvailabilityService.createAvailability
                    (AvailabilityData.mk "Office" None
                       (Some [IntervalData.mk 2 "09:00:00" "12:00:00";
                              IntervalData.mk 1 "13:00:00" "17:00:00";
                              IntervalData.mk 1 "09:00:00" "12:00:00"])))
                 Scenario.with_event_type)
              (AvailabilityData.mk "Office" None
                 (Some [IntervalData.mk 2 "09:00:00" "12:00:00";
                        IntervalData.mk 1 "13:00:00" "17:00:00";
                        IntervalData.mk 1 "09:00:00" "12:00:00"]))
              (Some (AvailabilityModel.mk (Availability.mk 2 "Office" "UTC")
                       [Interval.mk 10 2 1 32400 43200; Interval.mk 9 2 1 46800 61200;
                        Interval.mk 8 2 2 32400 43200]))
              availability_ids_drawn_with_event_type
              intervals_owned_with_event_type)
    as [created [rows [H1 [H2 [H3 [H4 [H5 _]]]]]]].
  - vm_compute. reflexivity.
  - exists created, rows. repeat split; assumption.
Defined.

(* ------------------------------------------------------------------ *)

Lemma deleteAvailability_cases (db : Pg.DB) (id : Z) :
  match AvailabilityModel.findById id db with
  | None => AvailabilityService.deleteAvailability id db = (Pg.Throw (Pg.CustomError 404), db)
  | Some w =>
      AvailabilityService.deleteAvailability id db
      = (Pg.Ok w,
         Sql.set_tables
           (Pg.mkTables
              (filter (fun r => negb (Z.eqb (Availability.id r) id))
                      (Pg.availability (Pg.tables db)))
              (filter (fun r => negb (Z.eqb (Interval.availability_id r) id))
                      (Pg.availability_interval (Pg.tables db)))
              (map (Sql.set_null_availability id) (Pg.event_types (Pg.tables db)))
              (Pg.bookings (Pg.tables db))) db)
  end.
Proof.
  unfold AvailabilityService.deleteAvailability, AvailabilityModel.deleteAvailability.
  unfold_monad.
  destruct (AvailabilityModel.findById id db) as [w|] eqn:Hf; [|reflexivity].
  assert (Hex : exists a, find (fun a => Z.eqb (Availability.id a) id)
                            (Pg.availability (Pg.tables db)) = Some a).
  { apply findById_shape in Hf. destruct Hf as [Hin [Hid _]].
    destruct (find (fun a => Z.eqb (Availability.id a) id)
                (Pg.availability (Pg.tables db))) as [a|] eqn:Hfind; [eexists; reflexivity|].
    exfalso. apply (find_none _ _ Hfind) in Hin. rewrite Hid, Z.eqb_refl in Hin.
    discriminate. }
  destruct Hex as [a Ha]. cbv beta iota. rewrite Hf. unfold Sql.delete_availability.
  cbv beta iota zeta. rewrite Ha. reflexivity.
Qed.

Lemma availability_exists_true (id : Z) (db : Pg.DB) :
  Sql.availability_exists id db = true
  <-> exists a, In a (Pg.availability (Pg.tables db)) /\ Availability.id a = id.
Proof.
  unfold Sql.availability_exists. rewrite existsb_exists.
  split; intros [a [Ha Hid]]; exists a; (split; [assumption|]); apply Z.eqb_eq; assumption.
Qed.

(** The cascade leaves no interval without its availability. *)
Lemma delete_availability_keeps_owned (db : Pg.DB) (id : Z) :
  Props.intervals_owned db ->
  Props.intervals_owned
    (Sql.set_tables
       (Pg.mkTables
          (filter (fun r => negb (Z.eqb (Availability.id r) id))
                  (Pg.availability (Pg.tables db)))
          (filter (fun r => negb (Z.eqb (Interval.availability_id r) id))
                  (Pg.availability_interval (Pg.tables db)))
          (map (Sql.set_null_availability id) (Pg.event_types (Pg.tables db)))
          (Pg.bookings (Pg.tables db))) db).
Proof.
  intros Hown i Hi. unfold Sql.set_tables in Hi.
  cbn [Pg.tables Pg.availability_interval] in Hi.
  apply filter_In in Hi. destruct Hi as [Hi Hne].
  specialize (Hown i Hi). apply availability_exists_true in Hown.
  destruct Hown as [a [Ha Hid]]. apply availability_exists_true.
  exists a. split; [|assumption]. unfold Sql.set_tables. cbn [Pg.tables Pg.availability].
  apply filter_In. split; [assumption|]. rewrite Hid. assumption.
Qed.

(** X21. [deleteAvailability] answers 404 and changes nothing for an
    unknown id; otherwise it returns the availability as it was read before
    the [DELETE], removes it with all its intervals, clears the link of
    every event type that pointed to it and leaves the other intervals and
    the bookings alone; afterwards the id is not found and no interval or
    event type refers to a missing availability. *)
Theorem deleteAvailability_cascades (db : Pg.DB) (id : Z) :
  (AvailabilityModel.findById id db = None ->
   AvailabilityService.deleteAvailability id db = (Pg.Throw (Pg.CustomError 404), db))
  /\ (forall w, AvailabilityModel.findById id db = Some w ->
        exists db',
          AvailabilityService.deleteAvailability id db = (Pg.Ok w, db')
          /\ Pg.availability (Pg.tables db')
             = filter (fun r => negb (Z.eqb (Availability.id r) id))
                      (Pg.availability (Pg.tables db))
          /\ Props.intervals_of id db' = []
          /\ Props.intervals_of_others id db' = Props.intervals_of_others id db
          /\ Pg.event_types (Pg.tables db')
             = map (Sql.set_null_availability id) (Pg.event_types (Pg.tables db))
          /\ (forall e, In e (Pg.event_types (Pg.tables db')) ->
                EventType.availability_id e <> Some id)
          /\ Pg.bookings (Pg.tables db') = Pg.bookings (Pg.tables db)
          /\ AvailabilityService.getAvailabilityById id db'
             = (Pg.Throw (Pg.CustomError 404), db')
          /\ (Props.intervals_owned db -> Props.intervals_owned db')
          /\ (Props.event_types_linked db -> Props.event_types_linked db')).
Proof.
  assert (Hc := deleteAvailability_cases db id). split.
  - intros Hn. rewrite Hn in Hc. exact Hc.
  - intros w Hw. rewrite Hw in Hc. eexists. split; [exact Hc|].
    unfold Props.intervals_of, Props.intervals_of_others, Sql.set_tables.
    cbn [Pg.tables Pg.availability Pg.availability_interval Pg.event_types Pg.bookings].
    destruct (filter_filter_negb (fun r => Z.eqb (Interval.availability_id r) id)
                (Pg.availability_interval (Pg.tables db))) as [G1 G2].
    split; [reflexivity|]. split; [exact G1|]. split; [exact G2|].
    split; [reflexivity|]. split.
    { intros e He. apply in_map_iff in He. destruct He as [o [Ho _]]. subst e.
      unfold Sql.set_null_availability.
      destruct (EventType.availability_id o) as [a|] eqn:Ha; [|rewrite Ha; discriminate].
      destruct (Z.eqb_spec a id) as [->|Hne]; simpl; [discriminate|].
      rewrite Ha. congruence. }
    split; [reflexivity|]. split.
    { unfold AvailabilityService.getAvailabilityById, AvailabilityModel.findById.
      unfold_monad. cbn [Pg.tables Pg.availability].
      destruct (filter_filter_negb (fun r => Z.eqb (Availability.id r) id)
                  (Pg.availability (Pg.tables db))) as [F1 _].
      rewrite F1. reflexivity. }
    split.
    { apply delete_availability_keeps_owned. }
    { intros Hl e a He Ha. cbn [Pg.tables Pg.event_types] in He.
      apply in_map_iff in He. destruct He as [o [Ho Hin]]. subst e.
      unfold Sql.set_null_availability in Ha.
      destruct (EventType.availability_id o) as [b|] eqn:Hb; [|congruence].
      destruct (Z.eqb_spec b id) as [->|Hne]; [simpl in Ha; discriminate|].
      assert (a = b) by congruence. subst b.
      specialize (Hl o a Hin Hb). apply availability_exists_true in Hl.
      destruct Hl as [r [Hr Hid]]. apply availability_exists_true.
      exists r. split; [|assumption]. cbn [Pg.tables Pg.availability].
      apply filter_In. split; [assumption|]. rewrite Hid.
      apply negb_true_iff. apply Z.eqb_neq. assumption. }
Qed.

Lemma deleteAvailability_cascades_witness :
  exists db',
    AvailabilityService.deleteAvailability 1 Scenario.slot_retaken
    = (Pg.Ok (AvailabilityModel.mk (Availability.mk 1 "Default Availability" "UTC")
                [Interval.mk 1 1 1 50400 79200; Interval.mk 2 1 2 50400 79200;
                 Interval.mk 3 1 3 50400 79200; Interval.mk 4 1 4 50400 79200;
                 Interval.mk 5 1 5 50400 79200; Interval.mk 6 1 6 50400 79200;
                 Interval.mk 7 1 7 50400 79200]), db')
    /\ Pg.availability (Pg.tables db') = []
    /\ Pg.availability_interval (Pg.tables db') = []
    /\ Pg.event_types (Pg.tables db')
       = [EventType.mk 1 "30min" None 30 (Some "30min"%string) None None]
    /\ Pg.bookings (Pg.tables db') = Pg.bookings (Pg.tables Scenario.slot_retaken).
Proof.
  destruct (proj2 (deleteAvailability_cascades Scenario.slot_retaken 1)
              (AvailabilityModel.mk (Availability.mk 1 "Default Availability" "UTC")
                 [Interval.mk 1 1 1 50400 79200; Interval.mk 2 1 2 50400 79200;
                  Interval.mk 3 1 3 50400 79200; Interval.mk 4 1 4 50400 79200;
                  Interval.mk 5 1 5 50400 79200; Interval.mk 6 1 6 50400 79200;
                  Interval.mk 7 1 7 50400 79200]))
    as [db' [H1 _]].
  - vm_compute. reflexivity.
  - exists db'. split; [exact H1|].
    assert (Hdb : db' = Scenario.after (AvailabilityService.deleteAvailability 1)
                          Scenario.slot_retaken).
    { unfold Scenario.after. rewrite H1. reflexivity. }
    rewrite Hdb. vm_compute. repeat split; reflexivity.
Defined.

(* ------------------------------------------------------------------ *)
(** *** Single intervals *)

(** [addInterval], step by step. *)
Lemma addInterval_steps (availabilityId : Z) (interval : IntervalData.t) (db : Pg.DB) :
  AvailabilityService.addInterval availabilityId interval db
  = match AvailabilityModel.findById availabilityId db with
    | None => (Pg.Throw (Pg.CustomError 404), db)
    | Some _ =>
        if (IntervalData.day_of_week interval <? 1) || (IntervalData.day_of_week interval >? 7)
        then (Pg.Throw (Pg.CustomError 400), db)
        else if Js.str_ge (IntervalData.start_time interval) (IntervalData.end_time interval)
        then (Pg.Throw (Pg.CustomError 400), db)
        else
          match Sql.insert_interval availabilityId (IntervalData.day_of_week interval)
                  (IntervalData.start_time interval) (IntervalData.end_time interval) db with
          | (Pg.Ok r, db') => (Pg.Ok r, db')
          | (Pg.Throw (Pg.CustomError c), db') => (Pg.Throw (Pg.CustomError c), db')
          | (Pg.Throw _, db') => (Pg.Throw (Pg.CustomError 500), db')
          end
    end.
Proof.
  unfold AvailabilityService.addInterval, AvailabilityModel.addInterval. unfold_monad.
  destruct (AvailabilityModel.findById availabilityId db) as [w|]; [|reflexivity].
  destruct ((IntervalData.day_of_week interval <? 1)
            || (IntervalData.day_of_week interval >? 7)); [reflexivity|].
  destruct (Js.str_ge (IntervalData.start_time interval) (IntervalData.end_time interval));
    [reflexivity|].
  destruct (Sql.insert_interval _ _ _ _ db) as [[r|x] db']; [reflexivity|].
  destruct x; reflexivity.
Qed.

Lemma day_out_of_range (d : Z) :
  ((d <? 1) || (d >? 7)) = true <-> (d < 1 \/ d > 7).
Proof. rewrite orb_true_iff, Z.ltb_lt, Z.gtb_lt. lia. Qed.

(** X22. [addInterval] checks in this order: the availability exists
    (404), the interval is acceptable (400), then it inserts.  When it
    returns, exactly one row has been appended, under the next id, holding
    the submitted interval with a day within 1..7; whenever it throws the
    four tables are what they were. *)
Theorem addInterval_checks_then_inserts (db : Pg.DB) (availabilityId : Z)
    (interval : IntervalData.t) :
  (AvailabilityModel.findById availabilityId db = None ->
   AvailabilityService.addInterval availabilityId interval db
   = (Pg.Throw (Pg.CustomError 404), db))
  /\ (AvailabilityModel.findById availabilityId db <> None ->
      Props.rejected_interval interval ->
      AvailabilityService.addInterval availabilityId interval db
      = (Pg.Throw (Pg.CustomError 400), db))
  /\ (forall r db',
        AvailabilityService.addInterval availabilityId interval db = (Pg.Ok r, db') ->
        Props.stores availabilityId interval r
        /\ Interval.id r = Pg.availability_interval_id_seq (Pg.sequences db)
        /\ 1 <= Interval.day_of_week r <= 7
        /\ Pg.availability_interval (Pg.tables db')
           = Pg.availability_interval (Pg.tables db) ++ [r]
        /\ Pg.availability (Pg.tables db') = Pg.availability (Pg.tables db)
        /\ Pg.event_types (Pg.tables db') = Pg.event_types (Pg.tables db)
        /\ Pg.bookings (Pg.tables db') = Pg.bookings (Pg.tables db))
  /\ (forall x db',
        AvailabilityService.addInterval availabilityId interval db = (Pg.Throw x, db') ->
        Pg.tables db' = Pg.tables db /\ exists c, x = Pg.CustomError c).
Proof.
  rewrite addInterval_steps. split; [|split; [|split]].
  - intros ->. reflexivity.
  - intros Hf Hrej.
    destruct (AvailabilityModel.findById availabilityId db) as [w|]; [|congruence].
    destruct ((IntervalData.day_of_week interval <? 1)
              || (IntervalData.day_of_week interval >? 7)) eqn:Hd; [reflexivity|].
    destruct Hrej as [H|[H|H]].
    + assert (Ht : ((IntervalData.day_of_week interval <? 1)
                    || (IntervalData.day_of_week interval >? 7)) = true)
        by (apply day_out_of_range; left; assumption).
      congruence.
    + assert (Ht : ((IntervalData.day_of_week interval <? 1)
                    || (IntervalData.day_of_week interval >? 7)) = true)
        by (apply day_out_of_range; right; assumption).
      congruence.
    + rewrite H. reflexivity.
  - intros r db'.
    destruct (AvailabilityModel.findById availabilityId db) as [w|]; [|discriminate].
    destruct ((IntervalData.day_of_week interval <? 1)
              || (IntervalData.day_of_week interval >? 7)) eqn:Hd; [discriminate|].
    destruct (Js.str_ge (IntervalData.start_time interval) (IntervalData.end_time interval));
      [discriminate|].
    destruct (Sql.insert_interval _ _ _ _ db) as [[r0|x] db1] eqn:Hins;
      [|destruct x; discriminate].
    intros H. inversion H; subst; clear H.
    apply insert_interval_returns in Hins.
    destruct Hins as [t1 [t2 [H1 [H2 [Hr [_ [_ [_ Hdb]]]]]]]].
    assert (Hday : 1 <= IntervalData.day_of_week interval <= 7).
    { destruct (Z.ltb_spec (IntervalData.day_of_week interval) 1);
        destruct (Z.gtb_spec (IntervalData.day_of_week interval) 7);
        simpl in Hd; try discriminate. lia. }
    rewrite Hdb, Hr. unfold Props.stores. simpl.
    repeat split; try assumption; try reflexivity; lia.
  - intros x db'.
    destruct (AvailabilityModel.findById availabilityId db) as [w|];
      [|intros H; inversion H; split; [reflexivity | eexists; reflexivity]].
    destruct ((IntervalData.day_of_week interval <? 1)
              || (IntervalData.day_of_week interval >? 7));
      [intros H; inversion H; split; [reflexivity | eexists; reflexivity]|].
    destruct (Js.str_ge (IntervalData.start_time interval) (IntervalData.end_time interval));
      [intros H; inversion H; split; [reflexivity | eexists; reflexivity]|].
    destruct (Sql.insert_interval _ _ _ _ db) as [[r0|y] db1] eqn:Hins; [discriminate|].
    apply insert_interval_throws in Hins.
    intros H. destruct y; inversion H; subst; (split; [assumption | eexists; reflexivity]).
Qed.

Lemma addInterval_checks_then_inserts_witness :
  AvailabilityService.addInterval 9 (IntervalData.mk 1 "09:00:00" "08:00:00")
    Scenario.with_event_type
  = (Pg.Throw (Pg.CustomError 404), Scenario.with_event_type)
  /\ AvailabilityService.addInterval 1 (IntervalData.mk 1 "09:00:00" "08:00:00")
       Scenario.with_event_type
     = (Pg.Throw (Pg.CustomError 400), Scenario.with_event_type)
  /\ (Props.stores 1 (IntervalData.mk 1 "09:00:00" "12:00:00")
        (Interval.mk 8 1 1 32400 43200)
      /\ Interval.id (Interval.mk 8 1 1 32400 43200)
         = Pg.availability_interval_id_seq (Pg.sequences Scenario.with_event_type))
  /\ (Pg.tables (Scenario.after
                   (AvailabilityService.addInterval 1
                      (IntervalData.mk 1 "14:00:00" "22:00:00"))
                   Scenario.with_event_type)
      = Pg.tables Scenario.with_event_type
      /\ exists c, Pg.CustomError 500 = Pg.CustomError c).
Proof.
  split; [|split; [|split]].
  - apply (proj1 (addInterval_checks_then_inserts Scenario.with_event_type 9
                    (IntervalData.mk 1 "09:00:00" "08:00:00"))).
    vm_compute. reflexivity.
  - apply (proj1 (proj2 (addInterval_checks_then_inserts Scenario.with_event_type 1
                           (IntervalData.mk 1 "09:00:00" "08:00:00")))).
    + vm_compute. discriminate.
    + right. right. vm_compute. reflexivity.
  - destruct (proj1 (proj2 (proj2 (addInterval_checks_then_inserts Scenario.with_event_type 1
                                     (IntervalData.mk 1 "09:00:00" "12:00:00"))))
                (Interval.mk 8 1 1 32400 43200)
                (Scenario.after
                   (AvailabilityService.addInterval 1
                      (IntervalData.mk 1 "09:00:00" "12:00:00"))
                   Scenario.with_event_type))
      as [H1 [H2 _]].
    + vm_compute. reflexivity.
    + split; assumption.
  - apply (proj2 (proj2 (proj2 (addInterval_checks_then_inserts Scenario.with_event_type 1
                                  (IntervalData.mk 1 "14:00:00" "22:00:00"))))).
    vm_compute. reflexivity.
Defined.

Lemma filter_all {A} (p : A -> bool) (l : list A) :
  (forall x, In x l -> p x = true) -> filter p l = l.
Proof.
  induction l as [|a l IH]; simpl; intros H; [reflexivity|].
  rewrite (H a (or_introl eq_refl)). f_equal. apply IH. intros x Hx. apply H. right.
  assumption.
Qed.

Lemma set_availability_interval_same (db : Pg.DB) :
  Sql.set_availability_interval (Pg.availability_interval (Pg.tables db)) db = db.
Proof. destruct db as [[a i e b] s]. reflexivity. Qed.

(** X23. [deleteInterval] answers 404 and changes nothing when no interval
    has the id; otherwise it returns the stored row and removes the rows of
    that id and nothing else, after which the same call answers 404. *)
Theorem deleteInterval_removes_the_interval (db : Pg.DB) (intervalId : Z) :
  (find (fun r => Z.eqb (Interval.id r) intervalId)
        (Pg.availability_interval (Pg.tables db)) = None ->
   AvailabilityService.deleteInterval intervalId db = (Pg.Throw (Pg.CustomError 404), db))
  /\ (forall r,
        find (fun r => Z.eqb (Interval.id r) intervalId)
             (Pg.availability_interval (Pg.tables db)) = Some r ->
        exists db',
          AvailabilityService.deleteInterval intervalId db = (Pg.Ok r, db')
          /\ Pg.availability_interval (Pg.tables db')
             = filter (fun o => negb (Z.eqb (Interval.id o) intervalId))
                      (Pg.availability_interval (Pg.tables db))
          /\ Pg.availability (Pg.tables db') = Pg.availability (Pg.tables db)
          /\ Pg.event_types (Pg.tables db') = Pg.event_types (Pg.tables db)
          /\ Pg.bookings (Pg.tables db') = Pg.bookings (Pg.tables db)
          /\ AvailabilityService.deleteInterval intervalId db'
             = (Pg.Throw (Pg.CustomError 404), db')).
Proof.
  assert (Hnone : forall d,
            find (fun r => Z.eqb (Interval.id r) intervalId)
                 (Pg.availability_interval (Pg.tables d)) = None ->
            AvailabilityService.deleteInterval intervalId d
            = (Pg.Throw (Pg.CustomError 404), d)).
  { intros d Hn.
    unfold AvailabilityService.deleteInterval, AvailabilityModel.deleteInterval,
           Sql.delete_interval.
    unfold_monad. cbv beta zeta. rewrite Hn. cbv beta iota.
    rewrite filter_all.
    - rewrite set_availability_interval_same. reflexivity.
    - intros x Hx. apply (find_none _ _ Hn) in Hx. rewrite Hx. reflexivity. }
  split; [apply Hnone|].
  intros r Hr.
  exists (Sql.set_availability_interval
            (filter (fun o => negb (Z.eqb (Interval.id o) intervalId))
                    (Pg.availability_interval (Pg.tables db))) db).
  split.
  - unfold AvailabilityService.deleteInterval, AvailabilityModel.deleteInterval,
           Sql.delete_interval.
    unfold_monad. cbv beta zeta. rewrite Hr. reflexivity.
  - split; [reflexivity|]. split; [reflexivity|]. split; [reflexivity|].
    split; [reflexivity|]. apply Hnone.
    unfold Sql.set_availability_interval, Sql.set_tables.
    cbn [Pg.tables Pg.availability_interval].
    apply (find_filter_other Interval.id intervalId).
Qed.

Lemma deleteInterval_removes_the_interval_witness :
  AvailabilityService.deleteInterval 42 Scenario.with_event_type
  = (Pg.Throw (Pg.CustomError 404), Scenario.with_event_type)
  /\ exists db',
       AvailabilityService.deleteInterval 3 Scenario.with_event_type
       = (Pg.Ok (Interval.mk 3 1 3 50400 79200), db')
       /\ Pg.availability_interval (Pg.tables db')
          = filter (fun o => negb (Z.eqb (Interval.id o) 3))
                   (Pg.availability_interval (Pg.tables Scenario.with_event_type))
       /\ Pg.availability (Pg.tables db') = Pg.availability (Pg.tables Scenario.with_event_type)
       /\ Pg.event_types (Pg.tables db') = Pg.event_types (Pg.tables Scenario.with_event_type)
       /\ Pg.bookings (Pg.tables db') = Pg.bookings (Pg.tables Scenario.with_event_type)
       /\ AvailabilityService.deleteInterval 3 db' = (Pg.Throw (Pg.CustomError 404), db').
Proof.
  split.
  - apply (proj1 (deleteInterval_removes_the_interval Scenario.with_event_type 42)).
    vm_compute. reflexivity.
  - apply (proj2 (deleteInterval_removes_the_interval Scenario.with_event_type 3)).
    vm_compute. reflexivity.
Defined.

(** What an [UPDATE] of [availability_interval] does. *)
Lemma update_interval_effect (id : Z) (day : option Z) (st en : option string)
    (db db' : Pg.DB) (res : Pg.result (option Interval.row)) :
  Sql.update_interval id day st en db = (res, db') ->
  match res with
  | Pg.Ok (Some r) =>
      exists old,
        find (fun o => Z.eqb (Interval.id o) id) (Pg.availability_interval (Pg.tables db))
        = Some old
        /\ Interval.id r = Interval.id old
        /\ Interval.availability_id r = Interval.availability_id old
        /\ Sql.day_check r = true
        /\ db' = Sql.set_availability_interval
                   (map (fun o => if Z.eqb (Interval.id o) id then r else o)
                        (Pg.availability_interval (Pg.tables db))) db
  | Pg.Ok None =>
      db' = db
      /\ find (fun o => Z.eqb (Interval.id o) id) (Pg.availability_interval (Pg.tables db))
         = None
  | Pg.Throw e => db' = db /\ exists c, e = Pg.DatabaseError c
  end.
Proof.
  unfold Sql.update_interval.
  destruct (Sql.cast_opt_time st) as [s|]; [destruct (Sql.cast_opt_time en) as [e|]|];
    cbv zeta; try (intros H; inversion H; split; [reflexivity | eexists; reflexivity]).
  destruct (find _ (Pg.availability_interval (Pg.tables db))) as [old|] eqn:Hf;
    [|intros H; inversion H; split; reflexivity].
  destruct (negb (Sql.day_check _)) eqn:Hd;
    [intros H; inversion H; split; [reflexivity | eexists; reflexivity]|].
  destruct (existsb _ _);
    [intros H; inversion H; split; [reflexivity | eexists; reflexivity]|].
  intros H. inversion H; subst; clear H. exists old.
  apply negb_false_iff in Hd. repeat split; try reflexivity. exact Hd.
Qed.

Lemma day_check_range (r : Interval.row) :
  Sql.day_check r = true <-> 1 <= Interval.day_of_week r <= 7.
Proof. unfold Sql.day_check. rewrite andb_true_iff, !Z.leb_le. tauto. Qed.

(** [updateInterval], step by step. *)
Lemma updateInterval_steps (intervalId : Z) (interval : IntervalUpdate.t) (db : Pg.DB) :
  AvailabilityService.updateInterval intervalId interval db
  = if match IntervalUpdate.day_of_week interval with
       | Some d => (d <? 1) || (d >? 7)
       | None => false
       end
    then (Pg.Throw (Pg.CustomError 400), db)
    else if match IntervalUpdate.start_time interval, IntervalUpdate.end_time interval with
            | Some s, Some e => Js.str_ge s e
            | _, _ => false
            end
    then (Pg.Throw (Pg.CustomError 400), db)
    else
      match AvailabilityModel.updateInterval intervalId interval db with
      | (Pg.Ok (Some u), db') => (Pg.Ok u, db')
      | (Pg.Ok None, db') => (Pg.Throw (Pg.CustomError 404), db')
      | (Pg.Throw (Pg.CustomError c), db') => (Pg.Throw (Pg.CustomError c), db')
      | (Pg.Throw _, db') => (Pg.Throw (Pg.CustomError 500), db')
      end.
Proof.
  unfold AvailabilityService.updateInterval. unfold_monad.
  destruct (IntervalUpdate.day_of_week interval) as [d|].
  - destruct ((d <? 1) || (d >? 7)); [reflexivity|].
    destruct (IntervalUpdate.start_time interval) as [s|],
             (IntervalUpdate.end_time interval) as [e|];
      try destruct (Js.str_ge s e); try reflexivity;
      destruct (AvailabilityModel.updateInterval intervalId interval db)
        as [[[u|]|x] db']; try reflexivity; destruct x; reflexivity.
  - destruct (IntervalUpdate.start_time interval) as [s|],
             (IntervalUpdate.end_time interval) as [e|];
      try destruct (Js.str_ge s e); try reflexivity;
      destruct (AvailabilityModel.updateInterval intervalId interval db)
        as [[[u|]|x] db']; try reflexivity; destruct x; reflexivity.
Qed.

(** The model's [updateInterval], returning or throwing. *)
Lemma model_updateInterval_effect (intervalId : Z) (interval : IntervalUpdate.t)
    (db db' : Pg.DB) (res : Pg.result (option Interval.row)) :
  AvailabilityModel.updateInterval intervalId interval db = (res, db') ->
  match res with
  | Pg.Ok (Some r) =>
      exists old,
        find (fun o => Z.eqb (Interval.id o) intervalId)
             (Pg.availability_interval (Pg.tables db)) = Some old
        /\ Interval.id r = Interval.id old
        /\ Interval.availability_id r = Interval.availability_id old
        /\ Sql.day_check r = true
        /\ db' = Sql.set_availability_interval
                   (map (fun o => if Z.eqb (Interval.id o) intervalId then r else o)
                        (Pg.availability_interval (Pg.tables db))) db
  | Pg.Ok None =>
      db' = db
      /\ find (fun o => Z.eqb (Interval.id o) intervalId)
              (Pg.availability_interval (Pg.tables db)) = None
  | Pg.Throw e => db' = db
  end.
Proof.
  unfold AvailabilityModel.updateInterval.
  destruct (IntervalUpdate.day_of_week interval) as [d|],
           (IntervalUpdate.start_time interval) as [s|],
           (IntervalUpdate.end_time interval) as [e|];
    try (intros H; apply update_interval_effect in H;
         destruct res as [[r|]|x]; try exact H; apply H).
  unfold Pg.throw. intros H. inversion H; subst. reflexivity.
Qed.

(** X24. [updateInterval] answers 500 for a payload that names no column,
    whether or not the interval exists, and 404 for an unknown id with an
    acceptable day; when it returns, the row of that id has been replaced
    by the returned one, which keeps its id and its availability and has a
    day within 1..7, and nothing else has changed; whenever it throws the
    database is what it was. *)
Theorem updateInterval_refusals_and_frame (db : Pg.DB) (intervalId : Z)
    (interval : IntervalUpdate.t) :
  (interval = IntervalUpdate.mk None None None ->
   AvailabilityService.updateInterval intervalId interval db
   = (Pg.Throw (Pg.CustomError 500), db))
  /\ (forall d,
        find (fun o => Z.eqb (Interval.id o) intervalId)
             (Pg.availability_interval (Pg.tables db)) = None ->
        interval = IntervalUpdate.mk (Some d) None None -> 1 <= d <= 7 ->
        AvailabilityService.updateInterval intervalId interval db
        = (Pg.Throw (Pg.CustomError 404), db))
  /\ (forall r db',
        AvailabilityService.updateInterval intervalId interval db = (Pg.Ok r, db') ->
        exists old,
          find (fun o => Z.eqb (Interval.id o) intervalId)
               (Pg.availability_interval (Pg.tables db)) = Some old
          /\ Interval.id r = intervalId
          /\ Interval.availability_id r = Interval.availability_id old
          /\ 1 <= Interval.day_of_week r <= 7
          /\ Pg.availability_interval (Pg.tables db')
             = map (fun o => if Z.eqb (Interval.id o) intervalId then r else o)
                   (Pg.availability_interval (Pg.tables db))
          /\ Pg.availability (Pg.tables db') = Pg.availability (Pg.tables db)
          /\ Pg.event_types (Pg.tables db') = Pg.event_types (Pg.tables db)
          /\ Pg.bookings (Pg.tables db') = Pg.bookings (Pg.tables db))
  /\ (forall x db',
        AvailabilityService.updateInterval intervalId interval db = (Pg.Throw x, db') ->
        db' = db /\ exists c, x = Pg.CustomError c).
Proof.
  split; [|split; [|split]].
  - intros ->. reflexivity.
  - intros d Hn -> Hd. rewrite updateInterval_steps. simpl.
    assert (Hr : ((d <? 1) || (d >? 7)) = false).
    { destruct (Z.ltb_spec d 1); destruct (Z.gtb_spec d 7); simpl; try reflexivity; lia. }
    rewrite Hr. unfold AvailabilityModel.updateInterval, Sql.update_interval. simpl.
    rewrite Hn. reflexivity.
  - intros r db'. rewrite updateInterval_steps.
    repeat match goal with
           | |- context [if ?c then _ else _] => destruct c; [discriminate|]
           end.
    destruct (AvailabilityModel.updateInterval intervalId interval db)
      as [[[u|]|x] db1] eqn:Hu; try discriminate; [|destruct x; discriminate].
    intros H. inversion H; subst; clear H.
    apply model_updateInterval_effect in Hu.
    destruct Hu as [old [Hf [Hid [Ha [Hd Hdb]]]]].
    exists old. split; [assumption|].
    split; [rewrite Hid; apply find_some_id in Hf; apply Hf|].
    split; [assumption|]. split; [apply day_check_range; assumption|].
    rewrite Hdb. repeat split.
  - intros x db'. rewrite updateInterval_steps.
    repeat match goal with
           | |- context [if ?c then _ else _] =>
               destruct c; [intros H; inversion H; split; [reflexivity | eexists; reflexivity]|]
           end.
    destruct (AvailabilityModel.updateInterval intervalId interval db)
      as [[[u|]|y] db1] eqn:Hu; try discriminate;
      apply model_updateInterval_effect in Hu.
    + destruct Hu as [-> _]. intros H. inversion H; subst.
      split; [reflexivity | eexists; reflexivity].
    + subst db1. intros H.
      destruct y; inversion H; subst; (split; [reflexivity | eexists; reflexivity]).
Qed.

Lemma updateInterval_refusals_and_frame_witness :
  AvailabilityService.updateInterval 1 (IntervalUpdate.mk None None None)
    Scenario.with_event_type
  = (Pg.Throw (Pg.CustomError 500), Scenario.with_event_type)
  /\ AvailabilityService.updateInterval 42 (IntervalUpdate.mk (Some 2) None None)
       Scenario.with_event_type
     = (Pg.Throw (Pg.CustomError 404), Scenario.with_event_type)
  /\ exists old,
       find (fun o => Z.eqb (Interval.id o) 1)
            (Pg.availability_interval (Pg.tables Scenario.with_event_type)) = Some old
       /\ Interval.id (Interval.mk 1 1 1 82800 79200) = 1
       /\ Interval.availability_id (Interval.mk 1 1 1 82800 79200)
          = Interval.availability_id old.
Proof.
  split; [|split].
  - apply (proj1 (updateInterval_refusals_and_frame Scenario.with_event_type 1
                    (IntervalUpdate.mk None None None))).
    reflexivity.
  - apply (proj1 (proj2 (updateInterval_refusals_and_frame Scenario.with_event_type 42
                           (IntervalUpdate.mk (Some 2) None None))) 2).
    + vm_compute. reflexivity.
    + reflexivity.
    + lia.
  - destruct (proj1 (proj2 (proj2 (updateInterval_refusals_and_frame
                                     Scenario.with_event_type 1 Scenario.start_at_23)))
                (Interval.mk 1 1 1 82800 79200) Scenario.start_moved)
      as [old [H1 [H2 [H3 _]]]].
    + vm_compute. reflexivity.
    + exists old. repeat split; assumption.
Defined.

(* ------------------------------------------------------------------ *)
(** *** The constraints on intervals *)

(** The rows a run of [INSERT]s has added passed the [CHECK] and the
    reference to [availability]. *)
Lemma insert_intervals_rows_checked (l : list IntervalData.t) (aid : Z) (db db' : Pg.DB)
    (u : unit) :
  AvailabilityModel.insert_intervals aid l db = (Pg.Ok u, db') ->
  exists rows,
    Forall (fun r => Interval.availability_id r = aid
                     /\ 1 <= Interval.day_of_week r <= 7
                     /\ Sql.availability_exists aid db = true) rows
    /\ Pg.tables db'
       = Pg.mkTables (Pg.availability (Pg.tables db))
           (Pg.availability_interval (Pg.tables db) ++ rows)
           (Pg.event_types (Pg.tables db)) (Pg.bookings (Pg.tables db)).
Proof.
  revert db db' u. induction l as [|i l IH]; intros db db' u.
  - simpl. unfold Pg.ret. intros H. inversion H; subst. exists [].
    split; [constructor|]. rewrite app_nil_r. destruct (Pg.tables db'). reflexivity.
  - cbn [AvailabilityModel.insert_intervals]. unfold Pg.bind.
    destruct (Sql.insert_interval aid _ _ _ db) as [[r|e] db1] eqn:Hi; [|discriminate].
    intros Hrest.
    apply insert_interval_returns in Hi.
    destruct Hi as [t1 [t2 [H1 [H2 [Hr [Hd [_ [Hfk Hdb1]]]]]]]].
    apply IH in Hrest. destruct Hrest as [rows [Hrows Hdb']].
    exists (r :: rows). split.
    + constructor.
      * split; [rewrite Hr; reflexivity|]. split; [apply day_check_range; assumption|].
        assumption.
      * eapply Forall_impl; [|exact Hrows]. intros o [Ha [Hday _]].
        split; [assumption|]. split; assumption.
    + rewrite Hdb', Hdb1. simpl. rewrite <- app_assoc. reflexivity.
Qed.

(** The constraints read the availability ids and the interval rows. *)
Lemma interval_constraints_carried (db db' : Pg.DB) :
  (forall a, In a (Pg.availability (Pg.tables db)) ->
     exists a', In a' (Pg.availability (Pg.tables db')) /\ Availability.id a' = Availability.id a) ->
  (forall i, In i (Pg.availability_interval (Pg.tables db')) ->
     In i (Pg.availability_interval (Pg.tables db))
     \/ (1 <= Interval.day_of_week i <= 7
         /\ (Sql.availability_exists (Interval.availability_id i) db = true
             \/ Sql.availability_exists (Interval.availability_id i) db' = true))) ->
  Props.interval_constraints db -> Props.interval_constraints db'.
Proof.
  intros Hav Hiv [Hdays Hown].
  assert (Hex : forall id, Sql.availability_exists id db = true ->
                  Sql.availability_exists id db' = true).
  { intros id H. apply availability_exists_true in H. destruct H as [a [Ha Hid]].
    destruct (Hav a Ha) as [a' [Ha' Hid']].
    apply availability_exists_true. exists a'. split; [assumption | congruence]. }
  split.
  - intros i Hi. destruct (Hiv i Hi) as [Hold|[Hd _]]; [apply Hdays; assumption | assumption].
  - intros i Hi. destruct (Hiv i Hi) as [Hold|[_ [Hfk|Hfk]]].
    + apply Hex. apply Hown. assumption.
    + apply Hex. assumption.
    + assumption.
Qed.

Lemma interval_constraints_same_tables (db db' : Pg.DB) :
  Pg.tables db' = Pg.tables db ->
  Props.interval_constraints db -> Props.interval_constraints db'.
Proof.
  intros Ht. apply interval_constraints_carried; rewrite Ht.
  - intros a Ha. exists a. split; [assumption | reflexivity].
  - intros i Hi. left. assumption.
Qed.

Lemma model_createAvailability_keeps_constraints (data : AvailabilityData.t)
    (db db' : Pg.DB) (res : Pg.result (option AvailabilityModel.with_intervals)) :
  AvailabilityModel.createAvailability data db = (res, db') ->
  Props.interval_constraints db -> Props.interval_constraints db'.
Proof.
  unfold AvailabilityModel.createAvailability. unfold_monad.
  rewrite insert_availability_effect.
  destruct (negb (Sql.varchar 255 _ && Sql.varchar 50 _));
    [intros H; inversion H; subst; apply interval_constraints_same_tables; reflexivity|].
  cbn [Availability.id].
  match goal with
  | |- context [AvailabilityModel.insert_intervals ?i ?l ?d] =>
      destruct (AvailabilityModel.insert_intervals i l d) as [[u|x] db1] eqn:Hins
  end.
  - intros H. inversion H; subst; clear H.
    apply insert_intervals_rows_checked in Hins. destruct Hins as [rows [Hrows Hdb]].
    apply interval_constraints_carried; rewrite Hdb; simpl.
    + intros a Ha. exists a. split; [apply in_or_app; left; assumption | reflexivity].
    + intros i Hi. apply in_app_or in Hi. destruct Hi as [Hi|Hi]; [left; assumption|].
      right. rewrite Forall_forall in Hrows. destruct (Hrows i Hi) as [Ha [Hd _]].
      split; [assumption|]. right. rewrite Ha.
      apply availability_exists_true. eexists. split.
      * rewrite Hdb. simpl. apply in_or_app. right. left. reflexivity.
      * reflexivity.
  - intros H. inversion H; subst; clear H.
    apply interval_constraints_same_tables. reflexivity.
Qed.

Lemma model_updateAvailability_keeps_constraints (id : Z) (data : AvailabilityUpdate.t)
    (db db' : Pg.DB) (res : Pg.result (option AvailabilityModel.with_intervals)) :
  AvailabilityModel.updateAvailability id data db = (res, db') ->
  Props.interval_constraints db -> Props.interval_constraints db'.
Proof.
  unfold AvailabilityModel.updateAvailability. unfold_monad. cbv beta.
  set (scalars := match AvailabilityUpdate.name data, AvailabilityUpdate.timezone data with
                  | None, None => fun db0 : Pg.DB => (Pg.Ok tt, db0)
                  | _, _ => Sql.update_availability id (AvailabilityUpdate.name data)
                              (AvailabilityUpdate.timezone data)
                  end).
  assert (Hsc : (exists c, scalars db = (Pg.Throw (Pg.DatabaseError c), db))
                \/ exists db1,
            scalars db = (Pg.Ok tt, db1)
            /\ (forall a, In a (Pg.availability (Pg.tables db)) ->
                  exists a', In a' (Pg.availability (Pg.tables db1))
                             /\ Availability.id a' = Availability.id a)
            /\ Pg.availability_interval (Pg.tables db1)
               = Pg.availability_interval (Pg.tables db)).
  { unfold scalars.
    assert (Hmap : forall a, In a (Pg.availability (Pg.tables db)) ->
              exists a',
                In a' (map (fun r => if Z.eqb (Availability.id r) id
                                     then Sql.set_availability_columns
                                            (AvailabilityUpdate.name data)
                                            (AvailabilityUpdate.timezone data) r
                                     else r) (Pg.availability (Pg.tables db)))
                /\ Availability.id a' = Availability.id a).
    { intros a Ha. eexists. split; [apply in_map; exact Ha|].
      destruct (Availability.id a =? id); reflexivity. }
    destruct (AvailabilityUpdate.name data), (AvailabilityUpdate.timezone data);
      try (unfold Sql.update_availability; destruct (negb _);
           [left; eexists; reflexivity
           |right; eexists; split; [reflexivity|]; split; [exact Hmap | reflexivity]]).
    right. exists db. split; [reflexivity|]. split; [|reflexivity].
    intros a Ha. exists a. split; [assumption | reflexivity]. }
  destruct Hsc as [[c Hsc] | [db1 [Hsc [Hav Hiv]]]]; rewrite Hsc;
    [intros H; inversion H; subst; apply interval_constraints_same_tables; reflexivity|].
  destruct (AvailabilityUpdate.intervals data) as [submitted|].
  - unfold Sql.delete_intervals_of.
    match goal with
    | |- context [AvailabilityModel.insert_intervals id submitted ?d] =>
        destruct (AvailabilityModel.insert_intervals id submitted d) as [[u|x] db2] eqn:Hins
    end.
    + intros H. inversion H; subst; clear H.
      apply insert_intervals_rows_checked in Hins. destruct Hins as [rows [Hrows Hdb]].
      simpl in Hdb.
      apply interval_constraints_carried; rewrite Hdb; simpl.
      * exact Hav.
      * intros i Hi. apply in_app_or in Hi. destruct Hi as [Hi|Hi].
        -- left. apply filter_In in Hi. rewrite <- Hiv. apply Hi.
        -- right. rewrite Forall_forall in Hrows. destruct (Hrows i Hi) as [Ha [Hd Hfk]].
           split; [assumption|]. right. rewrite Ha.
           unfold Sql.availability_exists in *. simpl in Hfk. rewrite Hdb. exact Hfk.
    + intros H. inversion H; subst; clear H.
      apply interval_constraints_same_tables. reflexivity.
  - intros H. inversion H; subst; clear H.
    apply interval_constraints_carried.
    + exact Hav.
    + intros i Hi. left. rewrite <- Hiv. assumption.
Qed.

Lemma wrap500_same_database {A} (m : Pg.M A) (db db1 db' : Pg.DB)
    (r1 res : Pg.result A) :
  m db = (r1, db1) -> Pg.wrap500 m db = (res, db') -> db' = db1.
Proof.
  unfold Pg.wrap500, Pg.try_catch, Pg.throw. intros ->.
  destruct r1 as [a|x]; [|destruct x]; intros H; inversion H; reflexivity.
Qed.

(** X25. If every stored interval has its day within 1..7 and belongs to
    a stored availability, this is still so after any [createAvailability],
    [updateAvailability], [deleteAvailability], [addInterval],
    [updateInterval] or [deleteInterval], whether the call returns or
    throws. *)
Theorem availability_writes_keep_interval_constraints (db db' : Pg.DB) :
  Props.interval_constraints db ->
  (forall data res,
     AvailabilityService.createAvailability data db = (res, db') ->
     Props.interval_constraints db')
  /\ (forall id data res,
        AvailabilityService.updateAvailability id data db = (res, db') ->
        Props.interval_constraints db')
  /\ (forall id res,
        AvailabilityService.deleteAvailability id db = (res, db') ->
        Props.interval_constraints db')
  /\ (forall id interval res,
        AvailabilityService.addInterval id interval db = (res, db') ->
        Props.interval_constraints db')
  /\ (forall id interval res,
        AvailabilityService.updateInterval id interval db = (res, db') ->
        Props.interval_constraints db')
  /\ (forall id res,
        AvailabilityService.deleteInterval id db = (res, db') ->
        Props.interval_constraints db').
Proof.
  intros Hc. split; [|split; [|split; [|split; [|split]]]].
  - intros data res H. unfold AvailabilityService.createAvailability in H.
    destruct ((validate_supplied_pure (AvailabilityData.intervals data) db)) as [Hv|Hv].
    + destruct (AvailabilityModel.createAvailability data db) as [r1 db1] eqn:Hm.
      assert (db' = db1).
      { refine (wrap500_same_database _ db db1 db' r1 res _ H).
        unfold Pg.bind. rewrite Hv. exact Hm. }
      subst db1. apply (model_createAvailability_keeps_constraints _ _ _ _ Hm Hc).
    + assert (db' = db).
      { refine (wrap500_same_database _ db db db' (Pg.Throw (Pg.CustomError 400)) res _ H).
        unfold Pg.bind. rewrite Hv. reflexivity. }
      subst db'. assumption.
  - intros id data res H.
    apply service_updateAvailability_one_transaction in H.
    destruct res as [u|x].
    + apply (model_updateAvailability_keeps_constraints _ _ _ _ _ H Hc).
    + apply (interval_constraints_same_tables db db' H Hc).
  - intros id res H. assert (Hd := deleteAvailability_cases db id).
    destruct (AvailabilityModel.findById id db) as [w|]; rewrite Hd in H; inversion H; subst;
      [|assumption].
    destruct Hc as [Hdays Hown]. split.
    + intros i Hi. unfold Sql.set_tables in Hi.
      cbn [Pg.tables Pg.availability_interval] in Hi.
      apply filter_In in Hi. apply Hdays. apply Hi.
    + apply delete_availability_keeps_owned. assumption.
  - intros id interval res. rewrite addInterval_steps.
    destruct (AvailabilityModel.findById id db) as [w|];
      [|intros H; inversion H; subst; assumption].
    destruct ((IntervalData.day_of_week interval <? 1)
              || (IntervalData.day_of_week interval >? 7));
      [intros H; inversion H; subst; assumption|].
    destruct (Js.str_ge (IntervalData.start_time interval) (IntervalData.end_time interval));
      [intros H; inversion H; subst; assumption|].
    destruct (Sql.insert_interval _ _ _ _ db) as [[r0|y] db1] eqn:Hins.
    + intros H. inversion H; subst; clear H.
      apply insert_interval_returns in Hins.
      destruct Hins as [t1 [t2 [H1 [H2 [Hr [Hd [_ [Hfk Hdb]]]]]]]].
      apply (interval_constraints_carried db); [| |assumption]; rewrite Hdb; simpl.
      * intros a Ha. exists a. split; [assumption | reflexivity].
      * intros i Hi. apply in_app_or in Hi. destruct Hi as [Hi|[<-|[]]]; [left; assumption|].
        right. split; [apply day_check_range; assumption|]. left.
        rewrite Hr. simpl. assumption.
    + apply insert_interval_throws in Hins. intros H.
      assert (db' = db1) by (destruct y; inversion H; reflexivity). subst db1.
      apply (interval_constraints_same_tables db db' Hins Hc).
  - intros id interval res. rewrite updateInterval_steps.
    repeat match goal with
           | |- context [if ?c then _ else _] =>
               destruct c; [intros H; inversion H; subst; assumption|]
           end.
    destruct (AvailabilityModel.updateInterval id interval db)
      as [[[u|]|y] db1] eqn:Hu; apply model_updateInterval_effect in Hu.
    + intros H. inversion H; subst; clear H.
      destruct Hu as [old [Hf [Hid [Ha [Hd Hdb]]]]].
      apply (interval_constraints_carried db); [| |assumption]; rewrite Hdb; simpl.
      * intros a Ha'. exists a. split; [assumption | reflexivity].
      * intros i Hi. apply in_map_iff in Hi. destruct Hi as [o [Ho Hin]].
        destruct (Interval.id o =? id); [|left; subst; assumption].
        subst i. right. split; [apply day_check_range; assumption|]. left.
        rewrite Ha. destruct Hc as [_ Hown]. apply Hown.
        apply find_some in Hf. apply Hf.
    + destruct Hu as [-> _]. intros H. inversion H; subst. assumption.
    + subst db1. intros H.
      assert (db' = db) by (destruct y; inversion H; reflexivity). subst db'. assumption.
  - intros id res.
    unfold AvailabilityService.deleteInterval, AvailabilityModel.deleteInterval,
           Sql.delete_interval.
    unfold_monad. cbv beta zeta. intros H.
    assert (Hdb : db' = Sql.set_availability_interval
                          (filter (fun r => negb (Z.eqb (Interval.id r) id))
                                  (Pg.availability_interval (Pg.tables db))) db).
    { destruct (find _ (Pg.availability_interval (Pg.tables db))); inversion H; reflexivity. }
    apply (interval_constraints_carried db); [| |assumption]; rewrite Hdb; simpl.
    + intros a Ha. exists a. split; [assumption | reflexivity].
    + intros i Hi. left. apply filter_In in Hi. apply Hi.
Qed.

Lemma interval_constraints_with_event_type :
  Props.interval_constraints Scenario.with_event_type.
Proof.
  split.
  - intros i Hi. vm_compute in Hi.
    repeat (destruct Hi as [<-|Hi]; [vm_compute; split; discriminate|]). destruct Hi.
  - apply intervals_owned_with_event_type.
Qed.

Lemma availability_writes_keep_interval_constraints_witness :
  Props.interval_constraints
    (Scenario.after (AvailabilityService.updateAvailability 1 Scenario.office_hours)
       Scenario.with_event_type).
Proof.
  refine (proj1 (proj2 (availability_writes_keep_interval_constraints
                          Scenario.with_event_type _ interval_constraints_with_event_type))
            1 Scenario.office_hours
            (fst (AvailabilityService.updateAvailability 1 Scenario.office_hours
                    Scenario.with_event_type)) _).
  apply surjective_pairing.
Defined.

(* ================================================================== *)
(** ** The default availability at set-up *)

Lemma count_availability_zero (db : Pg.DB) :
  Z.eqb (Sql.count_availability db) 0 = true <-> Pg.availability (Pg.tables db) = [].
Proof.
  unfold Sql.count_availability. rewrite Z.eqb_eq.
  destruct (Pg.availability (Pg.tables db)) as [|a l]; simpl.
  - split; reflexivity.
  - split; [lia | discriminate].
Qed.

(** X26. [createDefaultAvailability] does nothing and returns [null] when
    an availability exists; on a store without one it inserts "Default
    Availability" in "UTC" with the seven windows 14:00:00-22:00:00,
    returns its id, leaves event types and bookings alone, and a second
    call does nothing. *)
Theorem createDefaultAvailability_only_once (db : Pg.DB) :
  (Pg.availability (Pg.tables db) <> [] ->
   SetupDatabase.createDefaultAvailability db = (Pg.Ok None, db))
  /\ (Pg.availability (Pg.tables db) = [] ->
      Props.intervals_owned db ->
      exists db',
        SetupDatabase.createDefaultAvailability db
        = (Pg.Ok (Some (Pg.availability_id_seq (Pg.sequences db))), db')
        /\ Pg.availability (Pg.tables db')
           = [Availability.mk (Pg.availability_id_seq (Pg.sequences db))
                "Default Availability" "UTC"]
        /\ map Props.window (Pg.availability_interval (Pg.tables db'))
           = Props.default_windows (Pg.availability_id_seq (Pg.sequences db))
        /\ Pg.event_types (Pg.tables db') = Pg.event_types (Pg.tables db)
        /\ Pg.bookings (Pg.tables db') = Pg.bookings (Pg.tables db)
        /\ SetupDatabase.createDefaultAvailability db' = (Pg.Ok None, db')).
Proof.
  assert (Hsome : forall d, Pg.availability (Pg.tables d) <> [] ->
            SetupDatabase.createDefaultAvailability d = (Pg.Ok None, d)).
  { intros d Hne. unfold SetupDatabase.createDefaultAvailability. unfold_monad.
    destruct (Z.eqb (Sql.count_availability d) 0) eqn:Hc; [|reflexivity].
    apply count_availability_zero in Hc. congruence. }
  split; [apply Hsome|].
  intros Hnil Hown.
  pose proof (no_availability_no_interval db Hown Hnil) as Hivs.
  unfold SetupDatabase.createDefaultAvailability. unfold_monad.
  assert (Hc : Z.eqb (Sql.count_availability db) 0 = true)
    by (apply count_availability_zero; assumption).
  rewrite Hc. rewrite insert_availability_effect, default_availability_fits.
  cbn [Availability.id].
  match goal with
  | |- context [EventTypeService.insert_days ?a 1 7 ?d] =>
      destruct (insert_days_succeeds 7 a 1 d) as [db1 Hdays]
  end.
  - lia.
  - simpl. lia.
  - unfold Sql.availability_exists. simpl. rewrite Hnil. simpl.
    rewrite Z.eqb_refl. reflexivity.
  - simpl. rewrite Hivs. intros o [].
  - rewrite Hdays. exists db1. split; [reflexivity|].
    apply insert_days_returns in Hdays. destruct Hdays as [rows [Hw Hdb]].
    simpl in Hdb. rewrite Hnil, Hivs in Hdb. simpl in Hdb.
    assert (Ha : Pg.availability (Pg.tables db1)
                 = [Availability.mk (Pg.availability_id_seq (Pg.sequences db))
                      "Default Availability" "UTC"]).
    { rewrite Hdb. reflexivity. }
    split; [exact Ha|].
    split; [rewrite Hdb; exact Hw|].
    split; [rewrite Hdb; reflexivity|].
    split; [rewrite Hdb; reflexivity|].
    apply Hsome. rewrite Ha. discriminate.
Qed.

Lemma createDefaultAvailability_only_once_witness :
  SetupDatabase.createDefaultAvailability Scenario.with_event_type
  = (Pg.Ok None, Scenario.with_event_type)
  /\ exists db',
       SetupDatabase.createDefaultAvailability Pg.empty
       = (Pg.Ok (Some (Pg.availability_id_seq (Pg.sequences Pg.empty))), db')
       /\ Pg.availability (Pg.tables db')
          = [Availability.mk (Pg.availability_id_seq (Pg.sequences Pg.empty))
               "Default Availability" "UTC"]
       /\ map Props.window (Pg.availability_interval (Pg.tables db'))
          = Props.default_windows (Pg.availability_id_seq (Pg.sequences Pg.empty))
       /\ Pg.event_types (Pg.tables db') = Pg.event_types (Pg.tables Pg.empty)
       /\ Pg.bookings (Pg.tables db') = Pg.bookings (Pg.tables Pg.empty)
       /\ SetupDatabase.createDefaultAvailability db' = (Pg.Ok None, db').
Proof.
  split.
  - apply (proj1 (createDefaultAvailability_only_once Scenario.with_event_type)).
    vm_compute. discriminate.
  - apply (proj2 (createDefaultAvailability_only_once Pg.empty)).
    + reflexivity.
    + intros i [].
Defined.

(* ------------------------------------------------------------------ *)
(** *** Retrying *)

(** The delays of [n] consecutive retries, the first one being retry [i]. *)
Lemma retry_from_backoff {St A} (fn : St -> (A + SetupDatabase.error) * St)
    (maxRetries delay : Z) (remaining : nat) :
  forall (i : Z) (s : St),
    0 <= i -> i + Z.of_nat remaining = maxRetries ->
    exists n,
      SetupDatabase.waits (SetupDatabase.retry_from fn maxRetries delay i remaining s)
      = map (fun k => delay * 2 ^ (i + Z.of_nat k)) (seq 0 n)
      /\ (n <= remaining)%nat
      /\ (remaining <> O -> (n < remaining)%nat)
      /\ (forall e,
            SetupDatabase.ended (SetupDatabase.retry_from fn maxRetries delay i remaining s)
            = SetupDatabase.Threw e ->
            SetupDatabase.retryable e = false \/ i + Z.of_nat n = maxRetries - 1)
      /\ (SetupDatabase.ended (SetupDatabase.retry_from fn maxRetries delay i remaining s)
          = SetupDatabase.Undefined -> remaining = O).
Proof.
  induction remaining as [|k IH]; intros i s Hi Hsum.
  - exists O. simpl. repeat split; try lia; try discriminate.
  - simpl. destruct (fn s) as [[a|e] s'].
    + exists O. simpl. repeat split; try lia; discriminate.
    + destruct (SetupDatabase.retryable e && (i <? maxRetries - 1)) eqn:Hr.
      * apply andb_true_iff in Hr. destruct Hr as [_ Hlt]. apply Z.ltb_lt in Hlt.
        destruct (IH (i + 1) s') as [n [Hw [Hle [Hlt' [Hthrow Hundef]]]]]; [lia | lia |].
        exists (S n). simpl.
        split.
        { rewrite Hw. f_equal; [f_equal; f_equal; lia|].
          rewrite <- seq_shift, map_map. apply map_ext. intros x. f_equal. f_equal. lia. }
        split; [lia|]. split; [intros _; assert (k <> O) by lia; specialize (Hlt' H); lia|].
        split.
        { intros x Hx. destruct (Hthrow x Hx) as [H|H]; [left; assumption | right; lia]. }
        { intros Hu. specialize (Hundef Hu). lia. }
      * exists O. simpl. split; [reflexivity|]. split; [lia|]. split; [lia|].
        split; [|discriminate].
        intros x Hx. inversion Hx; subst.
        apply andb_false_iff in Hr. destruct Hr as [Hr|Hr]; [left; assumption|].
        right. apply Z.ltb_ge in Hr. lia.
Qed.

(** X27. [retryOnDeadlock] never calls [fn] when [maxRetries] is at most
    0 and returns [undefined].  With [maxRetries >= 1] it never returns
    [undefined], it waits [delay * 2^k] before retry [k + 1], at most
    [maxRetries - 1] times, and the error it rethrows is either not a
    deadlock or timeout, or the one of the last attempt. *)
Theorem retryOnDeadlock_backoff {St A} (fn : St -> (A + SetupDatabase.error) * St)
    (maxRetries delay : Z) (s : St) :
  (maxRetries <= 0 ->
   SetupDatabase.retryOnDeadlock fn maxRetries delay s
   = SetupDatabase.mkRun SetupDatabase.Undefined s [])
  /\ (1 <= maxRetries ->
      exists n,
        SetupDatabase.waits (SetupDatabase.retryOnDeadlock fn maxRetries delay s)
        = map (fun k => delay * 2 ^ Z.of_nat k) (seq 0 n)
        /\ Z.of_nat n <= maxRetries - 1
        /\ SetupDatabase.ended (SetupDatabase.retryOnDeadlock fn maxRetries delay s)
           <> SetupDatabase.Undefined
        /\ (forall e,
              SetupDatabase.ended (SetupDatabase.retryOnDeadlock fn maxRetries delay s)
              = SetupDatabase.Threw e ->
              SetupDatabase.retryable e = false \/ Z.of_nat n = maxRetries - 1)).
Proof.
  unfold SetupDatabase.retryOnDeadlock. split.
  - intros Hle. assert (Hz : Z.to_nat maxRetries = O) by lia. rewrite Hz. reflexivity.
  - intros Hge.
    destruct (retry_from_backoff fn maxRetries delay (Z.to_nat maxRetries) 0 s)
      as [n [Hw [Hle [Hlt [Hthrow Hundef]]]]]; [lia | lia |].
    exists n. split; [exact Hw|]. split; [lia|]. split.
    + intros Hu. specialize (Hundef Hu). lia.
    + intros e He. destruct (Hthrow e He) as [H|H]; [left; assumption | right; lia].
Qed.

Lemma retryOnDeadlock_backoff_witness :
  exists n,
    SetupDatabase.waits (SetupDatabase.retryOnDeadlock Scenario.deadlocks_twice 3 200 O)
    = map (fun k => 200 * 2 ^ Z.of_nat k) (seq 0 n)
    /\ Z.of_nat n <= 3 - 1
    /\ SetupDatabase.ended (SetupDatabase.retryOnDeadlock Scenario.deadlocks_twice 3 200 O)
       <> SetupDatabase.Undefined
    /\ (forall e,
          SetupDatabase.ended (SetupDatabase.retryOnDeadlock Scenario.deadlocks_twice 3 200 O)
          = SetupDatabase.Threw e ->
          SetupDatabase.retryable e = false \/ Z.of_nat n = 3 - 1).
Proof.
  apply (proj2 (retryOnDeadlock_backoff Scenario.deadlocks_twice 3 200 O)). lia.
Defined.

(* ================================================================== *)
(** ** What the controllers answer *)

(** X28. The controller of the default availability answers 500, not
    404, when no availability exists: the object it passes to
    [handleError] is named "NotFoundError", which [handleError] does not
    know.  It answers 200 as soon as one exists. *)
Theorem getDefaultAvailability_status (db : Pg.DB) :
  (Pg.availability (Pg.tables db) = [] ->
   AvailabilityController.getDefaultAvailability db = (500, db))
  /\ (Pg.availability (Pg.tables db) <> [] ->
      AvailabilityController.getDefaultAvailability db = (200, db)).
Proof.
  unfold AvailabilityController.getDefaultAvailability,
         AvailabilityService.getDefaultAvailability,
         AvailabilityModel.getDefaultAvailability.
  unfold_monad. split.
  - intros ->. reflexivity.
  - intros Hne.
    destruct (AvailabilityModel.lowest_id (Pg.availability (Pg.tables db))) as [m|] eqn:Hlow.
    + apply lowest_id_some in Hlow. destruct Hlow as [Hin _].
      destruct (findById_of_member db m Hin) as [d [Hfind _]]. rewrite Hfind. reflexivity.
    + apply lowest_id_none in Hlow. congruence.
Qed.

Lemma getDefaultAvailability_status_witness :
  AvailabilityController.getDefaultAvailability Pg.empty = (500, Pg.empty)
  /\ AvailabilityController.getDefaultAvailability Scenario.with_event_type
     = (200, Scenario.with_event_type).
Proof.
  split.
  - apply (proj1 (getDefaultAvailability_status Pg.empty)). reflexivity.
  - apply (proj2 (getDefaultAvailability_status Scenario.with_event_type)).
    vm_compute. discriminate.
Defined.

(** X29. Whatever a service body throws, its [catch] rethrows a
    [CustomError], and [handleError] answers with that error's status
    code: a refused statement is answered with 500, although
    [handleError] holds a 409 for the raw unique violation (code 23505),
    which no service lets through. *)
Theorem service_errors_status {A} (m : Pg.M A) (db db1 : Pg.DB) (x : Pg.exn) :
  m db = (Pg.Throw x, db1) ->
  exists e,
    Pg.wrap500 m db = (Pg.Throw e, db1)
    /\ BaseController.handleError (Some (BaseController.thrown e))
       = match x with
         | Pg.CustomError c => if Z.eqb c 0 then 500 else c
         | _ => 500
         end
    /\ BaseController.handleError
         (Some (BaseController.thrown (Pg.DatabaseError Pg.unique_violation))) = 409.
Proof.
  intros H. unfold Pg.wrap500, Pg.try_catch, Pg.throw. rewrite H.
  destruct x as [c|c|msg]; eexists; (split; [reflexivity|]); (split; [|reflexivity]);
    try reflexivity.
  unfold BaseController.handleError, BaseController.thrown. simpl.
  unfold Js.truthy_num. destruct (c =? 0); reflexivity.
Qed.

Lemma service_errors_status_witness :
  exists e,
    Pg.wrap500 (Sql.insert_event_type "30min" None 30 (Some "half-hour"%string) None None)
      Scenario.with_event_type
    = (Pg.Throw e,
       Scenario.after
         (Sql.insert_event_type "30min" None 30 (Some "half-hour"%string) None None)
         Scenario.with_event_type)
    /\ BaseController.handleError (Some (BaseController.thrown e)) = 500
    /\ BaseController.handleError
         (Some (BaseController.thrown (Pg.DatabaseError Pg.unique_violation))) = 409.
Proof.
  apply (service_errors_status
           (Sql.insert_event_type "30min" None 30 (Some "half-hour"%string) None None)
           Scenario.with_event_type _ (Pg.DatabaseError Pg.unique_violation)).
  vm_compute. reflexivity.
Defined.

(* ================================================================== *)
(** ** Intervals written HH:MM:SS are stored in clock order *)

(** What passing the validation loop says of each interval. *)
Lemma validate_intervals_ok (l : list IntervalData.t) (db db' : Pg.DB) (u : unit) :
  AvailabilityService.validate_intervals l db = (Pg.Ok u, db') ->
  Forall (fun i => Js.str_lt (IntervalData.start_time i) (IntervalData.end_time i) = true) l.
Proof.
  induction l as [|i l IH]; simpl; [constructor|].
  destruct ((IntervalData.day_of_week i <? 1) || (IntervalData.day_of_week i >? 7));
    [discriminate|].
  destruct (Js.str_ge (IntervalData.start_time i) (IntervalData.end_time i)) eqn:Hge;
    [discriminate|].
  intros H. constructor; [|apply IH; assumption].
  unfold Js.str_ge in Hge. apply negb_false_iff in Hge. assumption.
Qed.

(** A stored row of a validated interval with two-digit hours starts
    before it ends. *)
Lemma stored_two_digit_hours_ordered (aid : Z) (i : IntervalData.t) (r : Interval.row) :
  Props.two_digit_hours i ->
  Js.str_lt (IntervalData.start_time i) (IntervalData.end_time i) = true ->
  Props.stores aid i r ->
  Interval.start_time r < Interval.end_time r.
Proof.
  intros [L1 L2] Hlt [_ [_ [H1 H2]]].
  rewrite (two_digit_hours_clock_order _ _ _ _ (written_hh_mm_ss_length _ L1)
             (written_hh_mm_ss_length _ L2) H1 H2) in Hlt.
  apply Z.ltb_lt. assumption.
Qed.

Lemma stored_rows_ordered (aid : Z) (l : list IntervalData.t) (rows : list Interval.row) :
  Forall Props.two_digit_hours l ->
  Forall (fun i => Js.str_lt (IntervalData.start_time i) (IntervalData.end_time i) = true) l ->
  Forall2 (Props.stores aid) l rows ->
  forall r, In r rows -> Interval.start_time r < Interval.end_time r.
Proof.
  intros H8 Hlt Hst. induction Hst as [|i r l rows Hs _ IH]; intros o Ho; [destruct Ho|].
  inversion H8; subst. inversion Hlt; subst.
  destruct Ho as [<-|Ho].
  - apply (stored_two_digit_hours_ordered aid i r); assumption.
  - apply IH; assumption.
Qed.

(** The times a returning [UPDATE] has assigned when both were supplied. *)
Lemma update_interval_both_times (id : Z) (day : option Z) (s e : string)
    (db db' : Pg.DB) (r : Interval.row) :
  Sql.update_interval id day (Some s) (Some e) db = (Pg.Ok (Some r), db') ->
  Sql.cast_time s = Some (Interval.start_time r)
  /\ Sql.cast_time e = Some (Interval.end_time r).
Proof.
  unfold Sql.update_interval, Sql.cast_opt_time.
  destruct (Sql.cast_time s) as [t1|]; [|discriminate].
  destruct (Sql.cast_time e) as [t2|]; [|discriminate].
  cbv zeta.
  destruct (find _ (Pg.availability_interval (Pg.tables db))) as [old|]; [|discriminate].
  repeat match goal with
         | |- context [if ?c then _ else _] => destruct c
         end; try discriminate.
  intros H. inversion H; subst. split; reflexivity.
Qed.

(** X30. When the submitted times are written [HH:MM:SS] (two digits
    each for an hour from 00 to 23 and a minute and a second from 00 to
    59), the comparison the services make on the strings is clock order:
    if every stored interval starts before it ends, this is still so
    after [createAvailability], [updateAvailability], [addInterval], and
    an [updateInterval] that supplies both times. *)
Theorem two_digit_hours_keep_intervals_ordered (db db' : Pg.DB) :
  Props.intervals_well_ordered db ->
  (forall data res,
     (forall l, AvailabilityData.intervals data = Some l -> Forall Props.two_digit_hours l) ->
     AvailabilityService.createAvailability data db = (res, db') ->
     Props.intervals_well_ordered db')
  /\ (forall id data res,
        (forall l, AvailabilityUpdate.intervals data = Some l ->
           Forall Props.two_digit_hours l) ->
        AvailabilityService.updateAvailability id data db = (res, db') ->
        Props.intervals_well_ordered db')
  /\ (forall id interval res,
        Props.two_digit_hours interval ->
        AvailabilityService.addInterval id interval db = (res, db') ->
        Props.intervals_well_ordered db')
  /\ (forall id day s e res,
        Props.written_hh_mm_ss s -> Props.written_hh_mm_ss e ->
        AvailabilityService.updateInterval id (IntervalUpdate.mk day (Some s) (Some e)) db
        = (res, db') ->
        Props.intervals_well_ordered db').
Proof.
  intros Hord. split; [|split; [|split]].
  - intros data res H8 H. unfold AvailabilityService.createAvailability in H.
    destruct (AvailabilityService.validate_supplied (AvailabilityData.intervals data) db)
      as [rv dbv] eqn:Hv.
    destruct (validate_supplied_pure (AvailabilityData.intervals data) db) as [Hp|Hp];
      rewrite Hp in Hv; inversion Hv; subst rv dbv; clear Hv.
    + destruct (AvailabilityModel.createAvailability data db) as [r1 db1] eqn:Hm.
      assert (db' = db1).
      { refine (wrap500_same_database _ db db1 db' r1 res _ H).
        unfold Pg.bind. rewrite Hp. exact Hm. }
      subst db1. apply model_createAvailability_effect in Hm.
      destruct r1 as [w|x].
      * cbv zeta in Hm. cbn [Availability.id] in Hm.
        destruct Hm as [rows [Hrows [Ht _]]].
        intros r Hr. rewrite Ht in Hr. simpl in Hr. apply in_app_or in Hr.
        destruct Hr as [Hr|Hr]; [apply Hord; assumption|].
        destruct (AvailabilityData.intervals data) as [l|] eqn:Hl.
        -- apply (stored_rows_ordered (Pg.availability_id_seq (Pg.sequences db)) l rows);
             try assumption.
           ++ apply H8. reflexivity.
           ++ simpl in Hp. apply validate_intervals_ok in Hp. assumption.
        -- inversion Hrows; subst. destruct Hr.
      * destruct Hm as [Ht _]. intros r Hr. rewrite Ht in Hr. apply Hord. assumption.
    + assert (db' = db).
      { refine (wrap500_same_database _ db db db' (Pg.Throw (Pg.CustomError 400)) res _ H).
        unfold Pg.bind. rewrite Hp. reflexivity. }
      subst db'. assumption.
  - intros id data res H8 H.
    assert (Hval : forall u, res = Pg.Ok u ->
              forall l, AvailabilityUpdate.intervals data = Some l ->
                Forall (fun i => Js.str_lt (IntervalData.start_time i)
                                   (IntervalData.end_time i) = true) l).
    { intros u -> l Hl. revert H.
      unfold AvailabilityService.updateAvailability. unfold_monad.
      destruct (AvailabilityModel.findById id db) as [existing|]; [|discriminate].
      rewrite Hl. simpl AvailabilityService.validate_supplied.
      destruct (AvailabilityService.validate_intervals l db) as [[v|x] dbv] eqn:Hv;
        [|destruct x; discriminate].
      intros _. apply validate_intervals_ok in Hv. assumption. }
    apply service_updateAvailability_one_transaction in H.
    destruct res as [u|x].
    + pose proof (updateAvailability_effect db db' id data _ H) as [_ [_ Hiv]].
      destruct (AvailabilityUpdate.intervals data) as [l|] eqn:Hl.
      * destruct Hiv as [Hst Hothers].
        intros r Hr.
        destruct (Z.eqb (Interval.availability_id r) id) eqn:Hid.
        -- apply (stored_rows_ordered id l (Props.intervals_of id db')).
           ++ apply H8. reflexivity.
           ++ apply (Hval u eq_refl). reflexivity.
           ++ assumption.
           ++ unfold Props.intervals_of. apply filter_In. split; assumption.
        -- assert (Hin : In r (Props.intervals_of_others id db')).
           { unfold Props.intervals_of_others. apply filter_In. split; [assumption|].
             rewrite Hid. reflexivity. }
           rewrite Hothers in Hin. unfold Props.intervals_of_others in Hin.
           apply filter_In in Hin. apply Hord. apply Hin.
      * intros r Hr. rewrite Hiv in Hr. apply Hord. assumption.
    + intros r Hr. rewrite H in Hr. apply Hord. assumption.
  - intros id interval res H8. rewrite addInterval_steps.
    destruct (AvailabilityModel.findById id db) as [w|];
      [|intros H; inversion H; subst; assumption].
    destruct ((IntervalData.day_of_week interval <? 1)
              || (IntervalData.day_of_week interval >? 7));
      [intros H; inversion H; subst; assumption|].
    destruct (Js.str_ge (IntervalData.start_time interval) (IntervalData.end_time interval))
      eqn:Hge; [intros H; inversion H; subst; assumption|].
    unfold Js.str_ge in Hge. apply negb_false_iff in Hge.
    destruct (Sql.insert_interval _ _ _ _ db) as [[r0|y] db1] eqn:Hins.
    + intros H. inversion H; subst; clear H.
      apply insert_interval_returns in Hins.
      destruct Hins as [t1 [t2 [H1 [H2 [Hr [_ [_ [_ Hdb]]]]]]]].
      intros r Hin. rewrite Hdb in Hin. simpl in Hin. apply in_app_or in Hin.
      destruct Hin as [Hin|[<-|[]]]; [apply Hord; assumption|].
      apply (stored_two_digit_hours_ordered id interval r0); try assumption.
      rewrite Hr. unfold Props.stores. simpl. repeat split; assumption.
    + apply insert_interval_throws in Hins. intros H.
      assert (db' = db1) by (destruct y; inversion H; reflexivity). subst db1.
      intros r Hr. rewrite Hins in Hr. apply Hord. assumption.
  - intros id day s e res L1 L2. rewrite updateInterval_steps.
    cbn [IntervalUpdate.day_of_week IntervalUpdate.start_time IntervalUpdate.end_time].
    match goal with
    | |- context [if ?c then _ else _] =>
        destruct c; [intros H; inversion H; subst; assumption|]
    end.
    destruct (Js.str_ge s e) eqn:Hge; [intros H; inversion H; subst; assumption|].
    unfold Js.str_ge in Hge. apply negb_false_iff in Hge.
    destruct (AvailabilityModel.updateInterval id (IntervalUpdate.mk day (Some s) (Some e)) db)
      as [[[u|]|y] db1] eqn:Hu.
    + intros H. inversion H; subst; clear H.
      pose proof Hu as Hu'. apply model_updateInterval_effect in Hu'.
      destruct Hu' as [old [Hf [_ [_ [_ Hdb]]]]].
      assert (Ht : Sql.cast_time s = Some (Interval.start_time u)
                   /\ Sql.cast_time e = Some (Interval.end_time u)).
      { unfold AvailabilityModel.updateInterval in Hu.
        cbn [IntervalUpdate.day_of_week IntervalUpdate.start_time IntervalUpdate.end_time]
          in Hu.
        destruct day as [d|]; apply update_interval_both_times in Hu; assumption. }
      destruct Ht as [H1 H2].
      intros r Hr. rewrite Hdb in Hr. simpl in Hr. apply in_map_iff in Hr.
      destruct Hr as [o [Ho Hin]].
      destruct (Interval.id o =? id); [|subst; apply Hord; assumption].
      subst r.
      rewrite (two_digit_hours_clock_order _ _ _ _ (written_hh_mm_ss_length _ L1)
                 (written_hh_mm_ss_length _ L2) H1 H2) in Hge.
      apply Z.ltb_lt. assumption.
    + apply model_updateInterval_effect in Hu. destruct Hu as [-> _].
      intros H. inversion H; subst. assumption.
    + apply model_updateInterval_effect in Hu. subst db1. intros H.
      assert (db' = db) by (destruct y; inversion H; reflexivity). subst db'. assumption.
Qed.

Lemma intervals_well_ordered_with_event_type :
  Props.intervals_well_ordered Scenario.with_event_type.
Proof.
  intros i Hi. vm_compute in Hi.
  repeat (destruct Hi as [<-|Hi]; [vm_compute; reflexivity|]). destruct Hi.
Qed.

Lemma two_digit_hours_keep_intervals_ordered_witness :
  Props.intervals_well_ordered
    (Scenario.after
       (AvailabilityService.updateInterval 1
          (IntervalUpdate.mk None (Some "09:00:00"%string) (Some "17:00:00"%string)))
       Scenario.with_event_type).
Proof.
  refine (proj2 (proj2 (proj2 (two_digit_hours_keep_intervals_ordered
                                 Scenario.with_event_type _
                                 intervals_well_ordered_with_event_type)))
            1 None "09:00:00"%string "17:00:00"%string
            (fst (AvailabilityService.updateInterval 1
                    (IntervalUpdate.mk None (Some "09:00:00"%string)
                       (Some "17:00:00"%string))
                    Scenario.with_event_type)) _ _ _).
  - exists 9, 0, 0. repeat split; lia.
  - exists 17, 0, 0. repeat split; lia.
  - apply surjective_pairing.
Defined.
